(** * Ai-Proctor: the real-time decision engine, embedded and verified

    A shallow embedding of the Python backend under [backend/app]:
    - [utils/frame_utils.py]            (module [FrameAnalyzer])
    - [ml_models/eye_tracker.py]        (module [EyeGazeTracker])
    - [ml_models/audio_analyzer.py]     (module [AudioAnalyzer])
    - [ml_models/face_detector.py]      (module [FaceDetector])
    - [ml_models/object_detector.py]    (module [ObjectDetector])
    - [services/gemini_verifier.py]     (module [GeminiViolationVerifier])
    - [services/proctoring_service.py]  (module [ProctoringService])

    Conventions.  Python floats and ints that carry measurements (angles,
    energies, confidences, clock readings) are rationals [Q]; comparisons are
    the boolean ones the code branches on.  Python counters are [Z].  Objects
    with attributes are records and every method takes the object and returns
    the updated object next to its result.  What the code obtains from outside
    (OpenCV, MediaPipe, YOLO, the Gemini API, [time.time()]) is an argument of
    the method that consumes it: an observation.  A collaborator that may
    raise is an [option] or a sum, and the [try]/[except] around it is written
    out.  Arithmetic on [Q] is exact: the rounding of floating-point
    operations and the values NaN and infinity are not modelled. *)

From Stdlib Require Import QArith Qabs Lqa ZArith Lia.
From stdpp Require Import gmap strings list sorting.

(** ** Python values and helpers *)

Definition Qltb (a b : Q) : bool := negb (Qle_bool b a).
Definition Qgtb (a b : Q) : bool := Qltb b a.
Definition Qgeb (a b : Q) : bool := Qle_bool b a.

(** [int(x)] on a float: truncation toward zero. *)
Definition py_int (x : Q) : Z := Z.quot (Qnum x) (Zpos (Qden x)).

#[local] Set Warnings "-register-all".

(** Values of the dynamically typed dictionaries the code passes around
    (tracker results, parsed JSON). *)
Inductive pyval : Type :=
| PyNone
| PyBool (b : bool)
| PyNum (q : Q)
| PyStr (s : string)
| PyList (l : list pyval)
| PyDict (d : gmap string pyval).

(** A dictionary literal [{k1: v1, ...}]. *)
Definition dict (kv : list (string * pyval)) : gmap string pyval :=
  list_to_map kv.

(** Truth value of a Python object in a condition. *)
Definition truthy (v : pyval) : bool :=
  match v with
  | PyNone => false
  | PyBool b => b
  | PyNum q => negb (Qeq_bool q 0)
  | PyStr s => negb (String.eqb s "")
  | PyList l => negb (Nat.eqb (length l) 0)
  | PyDict d => negb (Nat.eqb (size d) 0)
  end.

(** An f-string, kept as its pieces: literal text and formatted values. *)
Inductive fpiece : Type :=
| Lit (s : string)
| Fmt (spec : string) (v : pyval).

Definition fstring := list fpiece.

(** Exceptions that reach an enclosing [except Exception]. *)
Inductive exc : Type :=
| KeyError (k : string)
| TypeError
| ValueError
| AttributeError
| External (who : string).

(** [format(v, ".nf")]: defined on numbers (a bool is an int). *)
Definition fmt_float (v : pyval) : exc + unit :=
  match v with
  | PyNum _ | PyBool _ => inr tt
  | PyStr _ => inl ValueError
  | _ => inl TypeError
  end.

(** A small state-and-exception monad: a raise keeps the mutations made
    before it, as in Python. *)
Definition M (S A : Type) : Type := S -> (exc + A) * S.

Definition ret {S A} (a : A) : M S A := fun s => (inr a, s).
Definition bind {S A B} (m : M S A) (k : A -> M S B) : M S B :=
  fun s => match m s with
           | (inl e, s') => (inl e, s')
           | (inr a, s') => k a s'
           end.
Definition modify {S} (f : S -> S) : M S unit := fun s => (inr tt, f s).
Definition lift_exc {S A} (r : exc + A) : M S A := fun s => (r, s).
Definition when {S} (b : bool) (m : M S unit) : M S unit :=
  if b then m else ret tt.

Declare Scope py_scope.
Delimit Scope py_scope with py.
Notation "'do' x <- m ; k" := (bind m (fun x => k))
  (at level 10, x name, m at level 100, k at level 200) : py_scope.
Notation "'do' ' p <- m ; k" := (bind m (fun x => match x with p => k end))
  (at level 10, p pattern, m at level 100, k at level 200) : py_scope.
Notation "'run' m ; k" := (bind m (fun _ => k))
  (at level 10, m at level 100, k at level 200) : py_scope.

(** ** utils/frame_utils.py *)

Module FrameAnalyzer.
Section WithFrames.
Variable Frame : Type.
(** [np.mean(cv2.cvtColor(frame, cv2.COLOR_BGR2GRAY))]; [None] when OpenCV
    raises. *)
Variable gray_mean : Frame -> option Q.
(** [ssim(gray1, gray2)] after the optional resize; [None] when it raises. *)
Variable ssim : Frame -> Frame -> option Q.

Record t : Type := mk {
  ssim_threshold : Q;
  black_threshold : Q;
  previous_frame : option Frame;
  frame_count : Z
}.

Definition init (ssim_threshold black_threshold : Q) : t :=
  mk ssim_threshold black_threshold None 0.

Definition calculate_ssim (frame1 frame2 : Frame) : Q :=
  match ssim frame1 frame2 with
  | Some similarity_index => similarity_index
  | None => 0
  end.

Definition is_duplicate_frame (self : t) (current_frame : Frame) : bool * t :=
  let self := mk (ssim_threshold self) (black_threshold self)
                 (previous_frame self) (frame_count self + 1) in
  match previous_frame self with
  | None =>
      (false, mk (ssim_threshold self) (black_threshold self)
                 (Some current_frame) (frame_count self))
  | Some previous =>
      let similarity := calculate_ssim previous current_frame in
      let is_duplicate := Qgtb similarity (ssim_threshold self) in
      if is_duplicate then (true, self)
      else (false, mk (ssim_threshold self) (black_threshold self)
                      (Some current_frame) (frame_count self))
  end.

Definition is_black_screen (self : t) (frame : Frame) : bool :=
  match gray_mean frame with
  | Some avg_intensity => Qltb avg_intensity (black_threshold self)
  | None => false
  end.

Definition should_process_frame (self : t) (frame : Frame) (skip_mod : Z)
  : (bool * string) * t :=
  if is_black_screen self frame then ((false, "black_screen"), self)
  else if (1 <? skip_mod)%Z && negb (frame_count self mod skip_mod =? 0)%Z
    then ((false, "frame_skipped"), self)
  else
    let '(dup, self) := is_duplicate_frame self frame in
    if dup then ((false, "duplicate_frame"), self)
    else ((true, "ok"), self).

Definition reset (self : t) : t :=
  mk (ssim_threshold self) (black_threshold self) None 0.
End WithFrames.
Arguments mk {Frame}.
Arguments ssim_threshold {Frame}.
Arguments black_threshold {Frame}.
Arguments previous_frame {Frame}.
Arguments frame_count {Frame}.
Arguments init {Frame}.
Arguments calculate_ssim {Frame}.
Arguments is_duplicate_frame {Frame}.
Arguments is_black_screen {Frame}.
Arguments should_process_frame {Frame}.
Arguments reset {Frame}.
End FrameAnalyzer.

(** ** ml_models/eye_tracker.py *)

(** The order [<=] on [Q] is decidable by cross-multiplication, which is the
    definition of [Qle]. *)
#[global] Instance Qle_rel_dec : RelDecision Qle :=
  fun x y => decide (Qnum x * QDen y <= Qnum y * QDen x)%Z.

(** [np.median] of a Python list of floats: the middle element of the sorted
    list, or the mean of the two middle ones when the length is even. *)
Definition np_median (xs : list Q) : Q :=
  let s := merge_sort Qle xs in
  let n := length xs in
  if Nat.even n
  then ((default 0 (s !! (n / 2 - 1)%nat) + default 0 (s !! (n / 2)%nat)) / 2)%Q
  else default 0%Q (s !! (n / 2)%nat).

Module EyeGazeTracker.
Local Open Scope Q_scope.

Record t : Type := mk {
  threshold_seconds : Q;
  looking_away_start : option Q;
  total_looking_away_time : Q;
  HEAD_ROTATION_THRESHOLD : Q;
  neutral_pitch : Q;
  neutral_yaw : Q;
  neutral_roll : Q;
  is_calibrated : bool;
  calibration_frames : list (Q * Q * Q);
  calibration_frame_count : nat
}.

Definition init (threshold_seconds : Q) : t :=
  mk threshold_seconds None 0 25 0 0 0 false [] 10.

(** The dictionary [_analyze_eye_region] returns for one eye. *)
Record ratios : Type := mk_ratios {
  x_ratio : Q;
  y_ratio : Q;
  horizontal_ratio : Q;
  vertical_ratio : Q
}.

(** The dictionary [detect_iris_position] returns. *)
Record iris : Type := mk_iris {
  avg : ratios;
  direction : string;
  looking_away : bool
}.

(** What MediaPipe and OpenCV yield for the first face of a frame: the two
    [_analyze_eye_region] results ([eyes] is [None] when fewer than four eye
    points were found or the computation raised) and the [solvePnP] pose. *)
Record landmarks : Type := mk_landmarks {
  eyes : option (option ratios * option ratios);
  pose_result : option (Q * Q * Q)
}.

(** [result_dict] reduced to the two keys read, with their defaults. *)
Definition _determine_gaze_direction (result_dict : option (Q * Q)) : string :=
  match result_dict with
  | None => "center"
  | Some (x_ratio, y_ratio) =>
      if Qgtb x_ratio 3 then "left"
      else if Qltb x_ratio (33 # 100) then "right"
      else if Qltb y_ratio (33 # 100) then "up"
      else "center"
  end.

Definition detect_iris_position (eyes : option (option ratios * option ratios))
  : option iris :=
  match eyes with
  | Some (Some left_gaze, Some right_gaze) =>
      let avg_x_ratio := (x_ratio left_gaze + x_ratio right_gaze) / 2 in
      let avg_y_ratio := (y_ratio left_gaze + y_ratio right_gaze) / 2 in
      let left_direction :=
        _determine_gaze_direction (Some (x_ratio left_gaze, y_ratio left_gaze)) in
      let right_direction :=
        _determine_gaze_direction (Some (x_ratio right_gaze, y_ratio right_gaze)) in
      let direction :=
        if String.eqb left_direction right_direction
           && negb (String.eqb left_direction "center")
        then left_direction
        else _determine_gaze_direction (Some (avg_x_ratio, avg_y_ratio)) in
      Some (mk_iris
              (mk_ratios avg_x_ratio avg_y_ratio
                 ((horizontal_ratio left_gaze + horizontal_ratio right_gaze) / 2)
                 ((vertical_ratio left_gaze + vertical_ratio right_gaze) / 2))
              direction
              (negb (String.eqb direction "center")))
  | _ => None
  end.

Definition calibrate (self : t) (pitch yaw roll : Q) : t :=
  if (length (calibration_frames self) <? calibration_frame_count self)%nat then
    let frames := calibration_frames self ++ [(pitch, yaw, roll)] in
    if (length frames =? calibration_frame_count self)%nat then
      let pitches := map (fun '(p, y, r) => p) frames in
      let yaws := map (fun '(p, y, r) => y) frames in
      let rolls := map (fun '(p, y, r) => r) frames in
      mk (threshold_seconds self) (looking_away_start self)
         (total_looking_away_time self) (HEAD_ROTATION_THRESHOLD self)
         (np_median pitches) (np_median yaws) (np_median rolls)
         true frames (calibration_frame_count self)
    else
      mk (threshold_seconds self) (looking_away_start self)
         (total_looking_away_time self) (HEAD_ROTATION_THRESHOLD self)
         (neutral_pitch self) (neutral_yaw self) (neutral_roll self)
         (is_calibrated self) frames (calibration_frame_count self)
  else self.

Definition is_looking_away (self : t) (pitch yaw roll : Q) : bool * string :=
  let '(pitch_diff, yaw_diff) :=
    if is_calibrated self
    then (pitch - neutral_pitch self, yaw - neutral_yaw self)
    else (pitch, yaw) in
  if Qgtb (Qabs yaw_diff) (HEAD_ROTATION_THRESHOLD self) then
    (true, if Qltb yaw_diff 0 then "left" else "right")
  else if Qgtb (Qabs pitch_diff) (HEAD_ROTATION_THRESHOLD self) then
    (true, if Qgtb pitch_diff 0 then "down" else "up")
  else (false, "center").

(** [mesh] is [results.multi_face_landmarks]: [None] when no face was
    found, else the observations on the first face.  [current_time] is the
    reading of [time.time()]. *)
Definition track_gaze (self : t) (mesh : option landmarks) (current_time : Q)
  : gmap string pyval * t :=
  match mesh with
  | None =>
      (dict [("face_detected", PyBool false);
             ("looking_away", PyBool false);
             ("gaze_direction", PyStr "unknown");
             ("violation", PyBool false);
             ("duration", PyNum 0);
             ("pitch", PyNum 0);
             ("yaw", PyNum 0);
             ("roll", PyNum 0)],
       self)
  | Some face_landmarks =>
      let iris_result := detect_iris_position (eyes face_landmarks) in
      let pose_result := pose_result face_landmarks in
      let '(looking_away, gaze_direction) :=
        match iris_result with
        | Some i => (looking_away i, direction i)
        | None => (false, "center")
        end in
      let '(self, looking_away, gaze_direction, (pitch, yaw, roll)) :=
        match pose_result with
        | Some (pitch, yaw, roll) =>
            let self :=
              if negb (is_calibrated self)
              then calibrate self pitch yaw roll else self in
            let '(head_looking_away, head_direction) :=
              is_looking_away self pitch yaw roll in
            if match iris_result with None => true | Some _ => false end
               || head_looking_away
            then (self, head_looking_away, head_direction, (pitch, yaw, roll))
            else (self, looking_away, gaze_direction, (pitch, yaw, roll))
        | None => (self, looking_away, gaze_direction, (0, 0, 0))
        end in
      let '(start, total, duration) :=
        if looking_away then
          let start :=
            match looking_away_start self with
            | None => current_time
            | Some start => start
            end in
          (Some start, total_looking_away_time self, current_time - start)
        else
          let total :=
            match looking_away_start self with
            | Some start => total_looking_away_time self + (current_time - start)
            | None => total_looking_away_time self
            end in
          (None, total, 0) in
      let self :=
        mk (threshold_seconds self) start total (HEAD_ROTATION_THRESHOLD self)
           (neutral_pitch self) (neutral_yaw self) (neutral_roll self)
           (is_calibrated self) (calibration_frames self)
           (calibration_frame_count self) in
      let violation := Qgtb duration (threshold_seconds self) in
      (dict [("face_detected", PyBool true);
             ("looking_away", PyBool looking_away);
             ("gaze_direction", PyStr gaze_direction);
             ("pitch", PyNum pitch);
             ("yaw", PyNum yaw);
             ("roll", PyNum roll);
             ("duration", PyNum duration);
             ("violation", PyBool violation);
             ("alert_type",
               if violation then PyStr "eyes_looking_away" else PyNone);
             ("total_away_time", PyNum (total_looking_away_time self))],
       self)
  end.

Definition reset (self : t) : t :=
  mk (threshold_seconds self) None 0 (HEAD_ROTATION_THRESHOLD self)
     (neutral_pitch self) (neutral_yaw self) (neutral_roll self)
     false [] (calibration_frame_count self).
End EyeGazeTracker.

(** ** ml_models/audio_analyzer.py *)

Module AudioAnalyzer.
Local Open Scope Q_scope.

(** One entry of [audio_history]. *)
Record frame : Type := mk_frame {
  energy : Q;
  zcr : Q;
  has_speech : bool;
  timestamp : Q
}.

Record t : Type := mk {
  sample_rate : Z;
  window_size : Z;
  speech_threshold : Q;
  noise_threshold : Q;
  audio_history : list frame;
  baseline_energy : option Q;
  anomaly_count : Z;
  last_anomaly_time : option Q
}.

Definition init : t :=
  mk 16000 1024 (2 # 100) (5 # 100) [] None 0 None.

(** [deque(maxlen=n).append]: a full deque drops its oldest entry. *)
Definition deque_append {A} (maxlen : nat) (l : list A) (x : A) : list A :=
  if (length l <? maxlen)%nat then l ++ [x] else drop 1 l ++ [x].

(** [energy] and [zcr] are the RMS energy and the zero-crossing rate of the
    chunk; [t_hist] and [t_anom] are the two readings of [time.time()].
    Computing the two features is the only part that can raise, and it
    precedes every write; [ProctoringService.process_audio] models that
    outcome. *)
Definition analyze_audio (self : t) (energy zcr : Q) (t_hist t_anom : Q)
  : gmap string pyval * t :=
  let has_speech := Qgtb energy (speech_threshold self) in
  let baseline :=
    match baseline_energy self with
    | None => if has_speech then Some energy else None
    | Some b => Some b
    end in
  let history :=
    deque_append 50 (audio_history self)
      (mk_frame energy zcr has_speech t_hist) in
  let spike :=
    match baseline with
    | Some b => negb (Qeq_bool b 0) && Qgtb energy (b * (25 # 10))
    | None => false
    end in
  let count := if spike then (anomaly_count self + 1)%Z else anomaly_count self in
  let '(anomaly_detected, anomaly_type) :=
    if spike then (true, PyStr "high_energy_spike") else (false, PyNone) in
  let '(anomaly_detected, anomaly_type) :=
    if (1 <? length history)%nat then
      match history !! (length history - 2)%nat with
      | Some prev =>
          let energy_change := Qabs (energy - AudioAnalyzer.energy prev) in
          if Qgtb energy_change (1 # 10) && has_speech
          then (true, PyStr "sudden_change")
          else (anomaly_detected, anomaly_type)
      | None => (anomaly_detected, anomaly_type)
      end
    else (anomaly_detected, anomaly_type) in
  let last := if anomaly_detected then Some t_anom else last_anomaly_time self in
  let violation := (3 <? count)%Z && anomaly_detected in
  (dict [("energy", PyNum energy);
         ("zero_crossing_rate", PyNum zcr);
         ("has_speech", PyBool has_speech);
         ("anomaly_detected", PyBool anomaly_detected);
         ("anomaly_type", anomaly_type);
         ("anomaly_count", PyNum (inject_Z count));
         ("violation", PyBool violation);
         ("alert_type",
           if violation then PyStr "multiple_voices_detected" else PyNone);
         ("baseline_energy",
           match baseline with Some b => PyNum b | None => PyNone end)],
   mk (sample_rate self) (window_size self) (speech_threshold self)
      (noise_threshold self) history baseline count last).

Definition reset (self : t) : t :=
  mk (sample_rate self) (window_size self) (speech_threshold self)
     (noise_threshold self) [] None 0 None.
(** [np.sign] of one sample. *)
Definition np_sign (x : Q) : Q :=
  if Qltb x 0 then -1 else if Qgtb x 0 then 1 else 0.

(** [np.diff]: the differences of consecutive entries. *)
Fixpoint np_diff (l : list Q) : list Q :=
  match l with
  | x :: rest =>
      match rest with
      | y :: _ => (y - x) :: np_diff rest
      | [] => []
      end
  | [] => []
  end.

Definition np_sum (l : list Q) : Q := foldr Qplus 0 l.

Definition np_mean (l : list Q) : Q :=
  np_sum l / inject_Z (Z.of_nat (length l)).

(** [np.var]: the mean of the squared deviations from the mean. *)
Definition np_var (l : list Q) : Q :=
  let m := np_mean l in
  np_mean (map (fun x => (x - m) * (x - m)) l).

(** [audio_data] is the chunk as the list of its samples.  On an empty
    chunk numpy divides 0.0 by 0 and yields NaN, which is [None] here. *)
Definition calculate_zero_crossing_rate (audio_data : list Q) : option Q :=
  let zero_crossings :=
    np_sum (map Qabs (np_diff (map np_sign audio_data))) / 2 in
  if (length audio_data =? 0)%nat then None
  else Some (zero_crossings / inject_Z (Z.of_nat (length audio_data))).

(** The arguments are those of [analyze_audio], which is called first. *)
Definition detect_multiple_speakers_simple
    (self : t) (energy zcr : Q) (t_hist t_anom : Q)
  : gmap string pyval * t :=
  let '(analysis, self) := analyze_audio self energy zcr t_hist t_anom in
  if (10 <=? length (audio_history self))%nat then
    let recent_energies :=
      map AudioAnalyzer.energy
        (drop (length (audio_history self) - 10) (audio_history self)) in
    let energy_variance := np_var recent_energies in
    if Qgtb energy_variance (1 # 100) then
      (<["speaker_confidence" :=
           PyNum (if Qltb 1 (energy_variance * 100) then 1
                  else energy_variance * 100)]>
         (<["possible_multiple_speakers" := PyBool true]> analysis),
       self)
    else
      (<["speaker_confidence" := PyNum 0]>
         (<["possible_multiple_speakers" := PyBool false]> analysis),
       self)
  else (analysis, self).
End AudioAnalyzer.

(** ** ml_models/face_detector.py *)

(** [d[k]] on a dictionary: a missing key raises. *)
Definition getitem (d : gmap string pyval) (k : string) : exc + pyval :=
  match d !! k with
  | Some v => inr v
  | None => inl (KeyError k)
  end.

(** [d.get(k, default)]. *)
Definition get_or (d : gmap string pyval) (k : string) (dflt : pyval) : pyval :=
  default dflt (d !! k).

(** Sequencing of computations that may raise. *)
Definition ebind {A B} (r : exc + A) (k : A -> exc + B) : exc + B :=
  match r with
  | inl e => inl e
  | inr a => k a
  end.

(** [x >= y] with a float on the right: numbers only (a bool is an int). *)
Definition py_ge (x : pyval) (y : Q) : exc + bool :=
  match x with
  | PyNum q => inr (Qgeb q y)
  | PyBool b => inr (Qgeb (if b then 1 else 0) y)
  | _ => inl TypeError
  end.

Module FaceDetector.
(** One MediaPipe detection, its box already scaled to pixels. *)
Record detection : Type := mk_detection {
  x : Z;
  y : Z;
  width : Z;
  height : Z;
  score : Q
}.

Definition detect_faces (detections : list detection) : Z * list pyval :=
  (Z.of_nat (length detections),
   map (fun d =>
          PyDict (dict [("bbox", PyDict (dict [("x", PyNum (inject_Z (x d)));
                                               ("y", PyNum (inject_Z (y d)));
                                               ("width", PyNum (inject_Z (width d)));
                                               ("height", PyNum (inject_Z (height d)))]));
                        ("confidence", PyNum (score d))]))
       detections).

Definition check_multiple_faces (detections : list detection) (max_allowed : Z)
  : gmap string pyval :=
  let '(num_faces, faces) := detect_faces detections in
  let violation := (max_allowed <? num_faces)%Z in
  dict [("violation", PyBool violation);
        ("num_faces", PyNum (inject_Z num_faces));
        ("max_allowed", PyNum (inject_Z max_allowed));
        ("faces", PyList faces);
        ("alert_type", if violation then PyStr "multiple_persons" else PyNone)].
End FaceDetector.

(** ** ml_models/object_detector.py *)

Module ObjectDetector.
Record t : Type := mk { confidence_threshold : Q }.

(** One YOLO box: class id, confidence, corners. *)
Record box : Type := mk_box {
  cls : Z;
  conf : Q;
  x1 : Q;
  y1 : Q;
  x2 : Q;
  y2 : Q
}.

Definition all_monitored_objects : list (Z * string) :=
  [(67, "cell phone"); (63, "laptop"); (73, "book"); (66, "keyboard");
   (64, "mouse"); (62, "tv")]%Z.

Definition high_priority : list Z := [67%Z].
Definition medium_priority : list Z := [63; 73; 66; 64; 62]%Z.

Definition mem (x : Z) (l : list Z) : bool := existsb (Z.eqb x) l.

Definition class_name (class_id : Z) : option string :=
  snd <$> List.find (fun p => Z.eqb (fst p) class_id) all_monitored_objects.

Record detected : Type := mk_detected {
  class_id : Z;
  as_dict : gmap string pyval
}.

Definition detect_objects (boxes : list box) : list detected :=
  omap (fun b =>
          match class_name (cls b) with
          | None => None
          | Some name =>
              let priority :=
                if mem (cls b) high_priority then "critical"
                else if mem (cls b) medium_priority then "high"
                else "medium" in
              Some (mk_detected (cls b)
                (dict [("class_id", PyNum (inject_Z (cls b)));
                       ("class_name", PyStr name);
                       ("confidence", PyNum (conf b));
                       ("bbox",
                         PyDict (dict
                           [("x1", PyNum (inject_Z (py_int (x1 b))));
                            ("y1", PyNum (inject_Z (py_int (y1 b))));
                            ("x2", PyNum (inject_Z (py_int (x2 b))));
                            ("y2", PyNum (inject_Z (py_int (y2 b))));
                            ("width", PyNum (inject_Z (py_int (x2 b - x1 b))));
                            ("height", PyNum (inject_Z (py_int (y2 b - y1 b))))]));
                       ("is_high_priority", PyBool (mem (cls b) high_priority));
                       ("priority", PyStr priority)]))
          end) boxes.

Definition check_prohibited_objects (boxes : list box) : gmap string pyval :=
  let detected_objects := detect_objects boxes in
  let has_phone := existsb (fun o => Z.eqb (class_id o) 67) detected_objects in
  let has_prohibited := (0 <? length detected_objects)%nat in
  let high_priority_violations :=
    filter (fun o => mem (class_id o) high_priority = true) detected_objects in
  let alert_type :=
    if has_phone then PyStr "phone_detected"
    else if has_prohibited then PyStr "prohibited_object_detected"
    else PyNone in
  dict [("violation", PyBool has_prohibited);
        ("has_phone", PyBool has_phone);
        ("num_objects", PyNum (inject_Z (Z.of_nat (length detected_objects))));
        ("objects", PyList (map (fun o => PyDict (as_dict o)) detected_objects));
        ("high_priority_violations",
          PyList (map (fun o => PyDict (as_dict o)) high_priority_violations));
        ("alert_type", alert_type)].
End ObjectDetector.

(** ** services/gemini_verifier.py *)

(** String methods of Python used on the model's reply.  Strings are byte
    strings here, so [isspace] is its ASCII part. *)
Definition py_isspace (c : Ascii.ascii) : bool :=
  let n := Ascii.nat_of_ascii c in
  ((9 <=? n) && (n <=? 13) || (28 <=? n) && (n <=? 32))%nat.

Fixpoint py_lstrip (s : string) : string :=
  match s with
  | String c s' => if py_isspace c then py_lstrip s' else s
  | EmptyString => EmptyString
  end.

Definition py_strip (s : string) : string :=
  String.rev (py_lstrip (String.rev (py_lstrip s))).

Definition py_startswith (s p : string) : bool := String.prefix p s.
Definition py_endswith (s p : string) : bool :=
  String.prefix (String.rev p) (String.rev s).

(** [s[n:]] and [s[:-n]]. *)
Fixpoint py_drop (n : nat) (s : string) : string :=
  match n, s with
  | S n', String _ s' => py_drop n' s'
  | _, _ => s
  end.
Definition py_drop_end (n : nat) (s : string) : string :=
  String.rev (py_drop n (String.rev s)).

Module GeminiViolationVerifier.
Section WithJson.
(** [json.loads]; [None] when it raises. *)
Variable json_loads : string -> option pyval.

Record t : Type := mk { enabled : bool }.

Definition init (GEMINI_API_KEY : string) (ENABLE_AI_VERIFICATION : bool) : t :=
  if negb (String.eqb GEMINI_API_KEY "") then mk ENABLE_AI_VERIFICATION
  else mk false.

(** Outcome of the statements of a verifier's [try] block up to and
    including [response.text] (image conversion, prompt formatting, the
    call of [self.model.generate_content]): an exception, with its
    message, or the text of the reply. *)
Inductive reply : Type :=
| Raises (msg : string)
| Text (response_text : string).

Definition _parse_gemini_response (response_text : string) : pyval :=
  let cleaned_text := py_strip response_text in
  let cleaned_text :=
    if py_startswith cleaned_text "```json" then py_drop 7 cleaned_text
    else cleaned_text in
  let cleaned_text :=
    if py_startswith cleaned_text "```" then py_drop 3 cleaned_text
    else cleaned_text in
  let cleaned_text :=
    if py_endswith cleaned_text "```" then py_drop_end 3 cleaned_text
    else cleaned_text in
  let cleaned_text := py_strip cleaned_text in
  match json_loads cleaned_text with
  | Some v => v
  | None =>
      PyDict (dict [("is_genuine_violation", PyBool true);
                    ("confidence", PyNum (5 # 10));
                    ("reasoning", PyStr "Failed to parse AI response");
                    ("raw_response", PyStr response_text)])
  end.

(** The dictionary built in an [except] branch of a verifier. *)
Definition pass_through (reasoning : string) (more : list (string * pyval))
  : gmap string pyval :=
  dict ([("verified", PyBool true);
         ("confidence", PyNum 1);
         ("reasoning", PyStr reasoning)] ++ more).

(** The keys all three verifiers fill from the parsed analysis. *)
Definition verdict_of (analysis : gmap string pyval) : list (string * pyval) :=
  [("verified",
     get_or analysis "violation_confirmed"
       (get_or analysis "is_genuine_violation" (PyBool true)));
   ("confidence", get_or analysis "confidence" (PyNum (5 # 10)));
   ("reasoning",
     get_or analysis "explanation"
       (get_or analysis "reasoning" (PyStr "AI analysis completed")))].

(** Message of the [AttributeError] raised by [.get] on a parsed value
    that is not a dictionary (the type name in front is left out). *)
Definition no_get : string := "object has no attribute 'get'".

Definition verify_eye_tracking_violation
    (self : t) (r : reply) (violation_data : gmap string pyval)
  : gmap string pyval :=
  if negb (enabled self) then
    dict [("verified", PyBool true);
          ("confidence", PyNum 1);
          ("reasoning", PyStr "AI verification disabled");
          ("ai_analysis", PyNone)]
  else
    match r with
    | Raises msg =>
        pass_through ("Verification error: " +:+ msg) [("ai_analysis", PyNone)]
    | Text response_text =>
        match _parse_gemini_response response_text with
        | PyDict analysis =>
            dict (verdict_of analysis ++
                  [("actual_behavior",
                     get_or analysis "actual_behavior" (PyStr "unknown"));
                   ("severity", get_or analysis "severity" (PyStr "medium"));
                   ("recommended_action",
                     get_or analysis "recommended_action" (PyStr "monitor"));
                   ("ai_analysis", PyDict analysis)])
        | _ =>
            pass_through ("Verification error: " +:+ no_get)
              [("ai_analysis", PyNone)]
        end
    end.

Definition verify_multiple_persons_violation
    (self : t) (r : reply) (violation_data : gmap string pyval)
  : gmap string pyval :=
  if negb (enabled self) then
    dict [("verified", PyBool true);
          ("confidence", PyNum 1);
          ("reasoning", PyStr "AI verification disabled")]
  else
    let num_faces := get_or violation_data "num_faces" (PyNum 0) in
    match r with
    | Raises msg =>
        pass_through ("Error: " +:+ msg) [("severity", PyStr "high")]
    | Text response_text =>
        match _parse_gemini_response response_text with
        | PyDict analysis =>
            dict (verdict_of analysis ++
                  [("actual_person_count",
                     get_or analysis "actual_person_count" num_faces);
                   ("false_positive_causes",
                     get_or analysis "false_positive_causes" (PyList []));
                   ("severity", get_or analysis "severity" (PyStr "high"));
                   ("recommended_action",
                     get_or analysis "recommended_action" (PyStr "flag"));
                   ("ai_analysis", PyDict analysis)])
        | _ =>
            pass_through ("Error: " +:+ no_get) [("severity", PyStr "high")]
        end
    end.

Definition verify_object_detection_violation
    (self : t) (r : reply) (violation_data : gmap string pyval)
  : gmap string pyval :=
  if negb (enabled self) then
    dict [("verified", PyBool true);
          ("confidence", PyNum 1);
          ("reasoning", PyStr "AI verification disabled")]
  else
    match r with
    | Raises msg =>
        pass_through ("Error: " +:+ msg) [("severity", PyStr "high")]
    | Text response_text =>
        match _parse_gemini_response response_text with
        | PyDict analysis =>
            dict (verdict_of analysis ++
                  [("actual_objects_seen",
                     get_or analysis "actual_objects_seen"
                       (get_or analysis "verified_objects" (PyList [])));
                   ("false_positive_likelihood",
                     get_or analysis "false_positive_likelihood" (PyNum 0));
                   ("severity", get_or analysis "severity" (PyStr "high"));
                   ("recommended_action",
                     get_or analysis "recommended_action" (PyStr "flag"));
                   ("ai_analysis", PyDict analysis)])
        | _ =>
            pass_through ("Error: " +:+ no_get) [("severity", PyStr "high")]
        end
    end.
End WithJson.
End GeminiViolationVerifier.

(** ** core/config.py *)

Module Settings.
Record t : Type := mk {
  MODEL_CONFIDENCE_THRESHOLD : Q;
  EYE_GAZE_THRESHOLD : Q;
  ALERT_COOLDOWN_SECONDS : Z;
  MAX_FACES_ALLOWED : Z;
  GEMINI_API_KEY : string;
  ENABLE_AI_VERIFICATION : bool;
  AI_VERIFICATION_CONFIDENCE_THRESHOLD : Q
}.

(** The defaults of the class [Settings]; the environment may override
    each of them. *)
Definition defaults : t :=
  mk (6 # 10) 2 3 1 "" false (7 # 10).
End Settings.

(** ** services/proctoring_service.py *)

Module Violation.
Record t : Type := mk {
  type : string;
  severity : string;
  description : fstring;
  timestamp : Q;
  data : gmap string pyval;
  ai_verified : option pyval;
  ai_confidence : option pyval;
  ai_reasoning : option pyval
}.
End Violation.

Module Alert.
Record t : Type := mk {
  alert_id : fstring;
  type : string;
  severity : string;
  message : fstring;
  timestamp : Q;
  requires_attention : bool
}.
End Alert.

(** The [results] dictionary of [process_frame] and of [process_audio], as
    one record: [face_detection], [eye_tracking], [object_detection] and
    [frame_processed] belong to the former, [audio_analysis] to the latter.
    The keys set on some paths only ([skip_reason], [error]) are options. *)
Module Results.
Record t : Type := mk {
  timestamp : Q;
  session_id : string;
  violations : list Violation.t;
  alerts : list Alert.t;
  face_detection : gmap string pyval;
  eye_tracking : gmap string pyval;
  object_detection : gmap string pyval;
  audio_analysis : gmap string pyval;
  status : string;
  frame_processed : bool;
  skip_reason : option string;
  error : option exc
}.

Definition add_violation (v : Violation.t) (r : t) : t :=
  mk (timestamp r) (session_id r) (violations r ++ [v]) (alerts r)
     (face_detection r) (eye_tracking r) (object_detection r)
     (audio_analysis r) (status r) (frame_processed r) (skip_reason r)
     (error r).
Definition add_alert (a : Alert.t) (r : t) : t :=
  mk (timestamp r) (session_id r) (violations r) (alerts r ++ [a])
     (face_detection r) (eye_tracking r) (object_detection r)
     (audio_analysis r) (status r) (frame_processed r) (skip_reason r)
     (error r).
Definition set_face_detection (d : gmap string pyval) (r : t) : t :=
  mk (timestamp r) (session_id r) (violations r) (alerts r)
     d (eye_tracking r) (object_detection r)
     (audio_analysis r) (status r) (frame_processed r) (skip_reason r)
     (error r).
Definition set_eye_tracking (d : gmap string pyval) (r : t) : t :=
  mk (timestamp r) (session_id r) (violations r) (alerts r)
     (face_detection r) d (object_detection r)
     (audio_analysis r) (status r) (frame_processed r) (skip_reason r)
     (error r).
Definition set_object_detection (d : gmap string pyval) (r : t) : t :=
  mk (timestamp r) (session_id r) (violations r) (alerts r)
     (face_detection r) (eye_tracking r) d
     (audio_analysis r) (status r) (frame_processed r) (skip_reason r)
     (error r).
Definition set_audio_analysis (d : gmap string pyval) (r : t) : t :=
  mk (timestamp r) (session_id r) (violations r) (alerts r)
     (face_detection r) (eye_tracking r) (object_detection r)
     d (status r) (frame_processed r) (skip_reason r)
     (error r).
Definition set_status (s : string) (r : t) : t :=
  mk (timestamp r) (session_id r) (violations r) (alerts r)
     (face_detection r) (eye_tracking r) (object_detection r)
     (audio_analysis r) s (frame_processed r) (skip_reason r)
     (error r).
Definition set_skipped (reason : string) (r : t) : t :=
  mk (timestamp r) (session_id r) (violations r) (alerts r)
     (face_detection r) (eye_tracking r) (object_detection r)
     (audio_analysis r) "skipped" false (Some reason)
     (error r).
Definition set_error (e : exc) (r : t) : t :=
  mk (timestamp r) (session_id r) (violations r) (alerts r)
     (face_detection r) (eye_tracking r) (object_detection r)
     (audio_analysis r) "error" (frame_processed r) (skip_reason r)
     (Some e).
End Results.

Module ProctoringService.
Section WithCollaborators.
Variable Frame : Type.
Variable gray_mean : Frame -> option Q.
Variable ssim : Frame -> Frame -> option Q.
Variable json_loads : string -> option pyval.
(** The module-level object [settings]. *)
Variable settings : Settings.t.

Record t : Type := mk {
  eye_tracker : EyeGazeTracker.t;
  object_detector : ObjectDetector.t;
  audio_analyzer : AudioAnalyzer.t;
  frame_analyzer : FrameAnalyzer.t Frame;
  gemini_verifier : GeminiViolationVerifier.t;
  alert_cooldown : Z;
  last_alert_times : gmap string Q;
  session_data : gmap string (gmap string pyval);
  frame_skip_mod : Z
}.

Definition init : t :=
  mk (EyeGazeTracker.init (Settings.EYE_GAZE_THRESHOLD settings))
     (ObjectDetector.mk (Settings.MODEL_CONFIDENCE_THRESHOLD settings))
     AudioAnalyzer.init
     (FrameAnalyzer.init (95 # 100) 30)
     (GeminiViolationVerifier.init (Settings.GEMINI_API_KEY settings)
        (Settings.ENABLE_AI_VERIFICATION settings))
     (Settings.ALERT_COOLDOWN_SECONDS settings)
     ∅ ∅ 1.

Definition with_eye_tracker (e : EyeGazeTracker.t) (self : t) : t :=
  mk e (object_detector self) (audio_analyzer self) (frame_analyzer self)
     (gemini_verifier self) (alert_cooldown self) (last_alert_times self)
     (session_data self) (frame_skip_mod self).
Definition with_audio_analyzer (a : AudioAnalyzer.t) (self : t) : t :=
  mk (eye_tracker self) (object_detector self) a (frame_analyzer self)
     (gemini_verifier self) (alert_cooldown self) (last_alert_times self)
     (session_data self) (frame_skip_mod self).
Definition with_frame_analyzer (f : FrameAnalyzer.t Frame) (self : t) : t :=
  mk (eye_tracker self) (object_detector self) (audio_analyzer self) f
     (gemini_verifier self) (alert_cooldown self) (last_alert_times self)
     (session_data self) (frame_skip_mod self).
Definition with_last_alert_times (m : gmap string Q) (self : t) : t :=
  mk (eye_tracker self) (object_detector self) (audio_analyzer self)
     (frame_analyzer self) (gemini_verifier self) (alert_cooldown self) m
     (session_data self) (frame_skip_mod self).
Definition with_session_data (m : gmap string (gmap string pyval)) (self : t)
  : t :=
  mk (eye_tracker self) (object_detector self) (audio_analyzer self)
     (frame_analyzer self) (gemini_verifier self) (alert_cooldown self)
     (last_alert_times self) m (frame_skip_mod self).

(** The key [f"{session_id}_{alert_type}"]. *)
Definition cooldown_key (session_id alert_type : string) : string :=
  session_id +:+ "_" +:+ alert_type.

Definition _should_create_alert
    (self : t) (session_id alert_type : string) (current_time : Q)
  : bool * t :=
  let key := cooldown_key session_id alert_type in
  match last_alert_times self !! key with
  | None =>
      (true,
       with_last_alert_times (<[key := current_time]> (last_alert_times self))
         self)
  | Some last =>
      let time_since_last := (current_time - last)%Q in
      if Qgeb time_since_last (inject_Z (alert_cooldown self)) then
        (true,
         with_last_alert_times
           (<[key := current_time]> (last_alert_times self)) self)
      else (false, self)
  end.

Definition _create_alert (violation : Violation.t) (now : Q) : Alert.t :=
  Alert.mk
    [Fmt "" (PyStr (Violation.type violation)); Lit "_";
     Fmt "" (PyNum (inject_Z (py_int (now * 1000))))]
    (Violation.type violation)
    (Violation.severity violation)
    (Violation.description violation)
    (Violation.timestamp violation)
    (String.eqb (Violation.severity violation) "high"
     || String.eqb (Violation.severity violation) "critical").

(** The clock readings taken while one violation is handled:
    [time.time()] in [_should_create_alert], [datetime.now()] for the
    violation's timestamp, [time.time()] in [_create_alert]. *)
Record ticks : Type := mk_ticks {
  t_check : Q;
  ts_violation : Q;
  t_alert : Q
}.

(** Everything one call of [process_frame] obtains from outside. *)
Record observation : Type := mk_observation {
  image : Frame;
  ts_result : Q;
  detections : option (list FaceDetector.detection);
  mesh : option (option EyeGazeTracker.landmarks);
  t_gaze : Q;
  boxes : option (list ObjectDetector.box);
  reply_persons : GeminiViolationVerifier.reply;
  reply_eyes : GeminiViolationVerifier.reply;
  reply_objects : GeminiViolationVerifier.reply;
  tk_black : ticks;
  tk_persons : ticks;
  tk_eyes : ticks;
  tk_objects : ticks
}.

(** The state a call threads: the service object and the [results]
    dictionary under construction. *)
Definition st : Type := t * Results.t.

Definition get_self : M st t := fun s => (inr (fst s), s).
Definition get_results : M st Results.t := fun s => (inr (snd s), s).
Definition on_results (f : Results.t -> Results.t) : M st unit :=
  modify (fun s => (fst s, f (snd s))).

Definition should_create_alert
    (session_id alert_type : string) (current_time : Q) : M st bool :=
  fun s =>
    let '(b, self) := _should_create_alert (fst s) session_id alert_type
                        current_time in
    (inr b, (self, snd s)).

Local Open Scope py_scope.

(** The handling of one detected violation.  [process_frame] spells this
    block out three times (multiple persons, eye gaze, prohibited object);
    the copies differ in the alert type, in how severity and description
    are computed ([details], evaluated after the cooldown check as in the
    source), in the detector result attached as [data] and in the verifier
    method, whose result is [ai_verification].  The verifier is only
    consulted in the first branch. *)
Definition route_violation
    (session_id alert_type : string)
    (details : exc + (string * fstring))
    (data : gmap string pyval) (tk : ticks)
    (ai_verification : gmap string pyval) : M st unit :=
  do should_alert <- should_create_alert session_id alert_type (t_check tk);
  do ' (severity, description) <- lift_exc details;
  let violation :=
    Violation.mk alert_type severity description (ts_violation tk) data
      None None None in
  if should_alert && Settings.ENABLE_AI_VERIFICATION settings then
    do verified <- lift_exc (getitem ai_verification "verified");
    do confidence <- lift_exc (getitem ai_verification "confidence");
    do reasoning <- lift_exc (getitem ai_verification "reasoning");
    let violation :=
      Violation.mk alert_type severity description (ts_violation tk) data
        (Some verified) (Some confidence) (Some reasoning) in
    do approved <-
      lift_exc (if truthy verified
                then py_ge confidence
                       (Settings.AI_VERIFICATION_CONFIDENCE_THRESHOLD settings)
                else inr false);
    if approved then
      run on_results (Results.add_violation violation);
      run on_results
            (Results.add_alert (_create_alert violation (t_alert tk)));
      lift_exc (fmt_float confidence)
    else
      lift_exc (fmt_float confidence)
  else if should_alert then
    run on_results (Results.add_violation violation);
    on_results (Results.add_alert (_create_alert violation (t_alert tk)))
  else
    on_results (Results.add_violation violation).

(** [[obj['class_name'] for obj in objects]], as the strings that
    [', '.join] accepts. *)
Fixpoint class_names_of (objs : list pyval) : exc + list string :=
  match objs with
  | [] => inr []
  | PyDict d :: rest =>
      ebind (getitem d "class_name") (fun n =>
      ebind (class_names_of rest) (fun ns =>
      match n with
      | PyStr name => inr (name :: ns)
      | _ => inl TypeError
      end))
  | _ :: _ => inl TypeError
  end.

Definition class_names (objects : pyval) : exc + list string :=
  match objects with
  | PyList l => class_names_of l
  | PyDict d => if (size d =? 0)%nat then inr [] else inl TypeError
  | PyStr "" => inr []
  | _ => inl TypeError
  end.

(** Lines 113-124 of [process_frame]: the black-screen violation. *)
Definition black_screen_block (obs : observation) (session_id : string)
  : M st unit :=
  do self <- get_self;
  if FrameAnalyzer.is_black_screen gray_mean (frame_analyzer self) (image obs)
  then
    do avg_intensity <-
      lift_exc (match gray_mean (image obs) with
                | Some a => inr a
                | None => inl (External "cv2")
                end);
    let violation :=
      Violation.mk "black_screen" "high"
        [Lit "Camera appears to be covered or off"]
        (ts_violation (tk_black obs))
        (dict [("avg_intensity", PyNum avg_intensity)])
        None None None in
    run on_results (Results.add_violation violation);
    do ok <- should_create_alert session_id "black_screen"
               (t_check (tk_black obs));
    when ok (on_results
               (Results.add_alert
                  (_create_alert violation (t_alert (tk_black obs)))))
  else ret tt.

(** Lines 125-162: face detection and the multiple-persons violation.  The
    block returns [face_result], which the next block reads. *)
Definition face_block (obs : observation) (session_id : string)
  : M st (gmap string pyval) :=
  do self <- get_self;
  do face_result <-
    lift_exc (match detections obs with
              | Some d =>
                  inr (FaceDetector.check_multiple_faces d
                         (Settings.MAX_FACES_ALLOWED settings))
              | None => inl (External "face_detector")
              end);
  run on_results (Results.set_face_detection face_result);
  do violation <- lift_exc (getitem face_result "violation");
  run when (truthy violation)
        (route_violation session_id "multiple_persons"
           (ebind (getitem face_result "num_faces") (fun n =>
            inr ("high", [Lit "Detected "; Fmt "" n; Lit " persons"])))
           face_result (tk_persons obs)
           (GeminiViolationVerifier.verify_multiple_persons_violation
              json_loads (gemini_verifier self) (reply_persons obs)
              face_result));
  ret face_result.

(** Lines 164-205: gaze tracking, run when at least one face was counted,
    and the eyes-looking-away violation. *)
Definition gaze_block (obs : observation) (session_id : string)
    (face_result : gmap string pyval) : M st unit :=
  do self <- get_self;
  do num_faces <- lift_exc (getitem face_result "num_faces");
  do has_face <- lift_exc (py_ge num_faces 1);
  when has_face
    (do gaze_result <-
       (fun s : st =>
          match mesh obs with
          | None => (inl (External "eye_tracker"), s)
          | Some m =>
              let '(g, e) :=
                EyeGazeTracker.track_gaze (eye_tracker (fst s)) m (t_gaze obs) in
              (inr g, (with_eye_tracker e (fst s), snd s))
          end);
     run on_results (Results.set_eye_tracking gaze_result);
     run lift_exc (fmt_float (get_or gaze_result "duration" (PyNum 0)));
     do violation <- lift_exc (getitem gaze_result "violation");
     when (truthy violation)
       (route_violation session_id "eyes_looking_away"
          (ebind (getitem gaze_result "gaze_direction") (fun dir =>
           ebind (getitem gaze_result "duration") (fun dur =>
           ebind (fmt_float dur) (fun _ =>
           inr ("medium",
                [Lit "Eyes looking "; Fmt "" dir; Lit " for ";
                 Fmt ".1f" dur; Lit "s"])))))
          gaze_result (tk_eyes obs)
          (GeminiViolationVerifier.verify_eye_tracking_violation
             json_loads (gemini_verifier self) (reply_eyes obs)
             gaze_result))).

(** Lines 207-244: object detection and the prohibited-object violation. *)
Definition object_block (obs : observation) (session_id : string)
  : M st unit :=
  do self <- get_self;
  do object_result <-
    lift_exc (match boxes obs with
              | Some b => inr (ObjectDetector.check_prohibited_objects b)
              | None => inl (External "object_detector")
              end);
  run on_results (Results.set_object_detection object_result);
  do violation <- lift_exc (getitem object_result "violation");
  when (truthy violation)
    (route_violation session_id "prohibited_object"
       (ebind (getitem object_result "has_phone") (fun has_phone =>
        ebind (getitem object_result "objects") (fun objects =>
        ebind (class_names objects) (fun objects_list =>
        inr (if truthy has_phone then "critical" else "high",
             [Lit "Detected: ";
              Fmt "" (PyStr (String.concat ", " objects_list))])))))
       object_result (tk_objects obs)
       (GeminiViolationVerifier.verify_object_detection_violation
          json_loads (gemini_verifier self) (reply_objects obs)
          object_result)).

(** The body of the [try] statement of [process_frame]. *)
Definition process_frame_body (obs : observation) (session_id : string)
  : M st unit :=
  do ' (should_process, skip_reason) <-
    (fun s : st =>
       let '(verdict, fa) :=
         FrameAnalyzer.should_process_frame gray_mean ssim
           (frame_analyzer (fst s)) (image obs) (frame_skip_mod (fst s)) in
       (inr verdict, (with_frame_analyzer fa (fst s), snd s)));
  if negb should_process then
    on_results (Results.set_skipped skip_reason)
  else
    run black_screen_block obs session_id;
    do face_result <- face_block obs session_id;
    run gaze_block obs session_id face_result;
    run object_block obs session_id;
    do results <- get_results;
    when (negb (length (Results.violations results) =? 0)%nat)
      (on_results (Results.set_status "violations_detected")).

(** [process_frame]: the [try] body under [except Exception].  The final
    [convert_to_json_serializable] maps numpy scalars to Python ones and is
    the identity on the values of this embedding. *)
Definition process_frame (self : t) (obs : observation) (session_id : string)
  : Results.t * t :=
  let results :=
    Results.mk (ts_result obs) session_id [] [] ∅ ∅ ∅ ∅ "ok" true None None in
  match process_frame_body obs session_id (self, results) with
  | (inr _, (self, results)) => (results, self)
  | (inl e, (self, results)) => (Results.set_error e results, self)
  end.

(** [features] is the outcome of the feature extraction that opens
    [AudioAnalyzer.analyze_audio] ([calculate_rms_energy],
    [calculate_zero_crossing_rate], [detect_speech]): the exception numpy
    raises on a chunk it cannot handle, which happens before the analyzer
    is written, or the energy and the zero-crossing rate of the chunk.
    [t_hist] and [t_anom] are the clock readings of [analyze_audio]. *)
Definition process_audio_body
    (features : exc + Q * Q) (t_hist t_anom : Q) (tk : ticks)
    (session_id : string)
  : M st unit :=
  do audio_result <-
    (fun s : st =>
       match features with
       | inl e => (inl e, s)
       | inr (energy, zcr) =>
           let '(r, a) :=
             AudioAnalyzer.analyze_audio (audio_analyzer (fst s)) energy zcr
               t_hist t_anom in
           (inr r, (with_audio_analyzer a (fst s), snd s))
       end);
  run on_results (Results.set_audio_analysis audio_result);
  do violation <- lift_exc (getitem audio_result "violation");
  run when (truthy violation)
        (do anomaly_type <- lift_exc (getitem audio_result "anomaly_type");
         let violation :=
           Violation.mk "audio_anomaly" "medium"
             [Lit "Audio anomaly: "; Fmt "" anomaly_type]
             (ts_violation tk) audio_result None None None in
         run on_results (Results.add_violation violation);
         do ok <- should_create_alert session_id "audio_anomaly" (t_check tk);
         when ok (on_results
                    (Results.add_alert (_create_alert violation (t_alert tk)))));
  do results <- get_results;
  when (negb (length (Results.violations results) =? 0)%nat)
    (on_results (Results.set_status "violations_detected")).

Definition process_audio
    (self : t) (features : exc + Q * Q) (t_hist t_anom ts : Q) (tk : ticks)
    (session_id : string) : Results.t * t :=
  let results :=
    Results.mk ts session_id [] [] ∅ ∅ ∅ ∅ "ok" true None None in
  match process_audio_body features t_hist t_anom tk session_id
          (self, results) with
  | (inr _, (self, results)) => (results, self)
  | (inl e, (self, results)) => (Results.set_error e results, self)
  end.

(** [now] is the reading of [datetime.now()]. *)
Definition start_session (self : t) (session_id : string) (now : Q)
  : gmap string pyval * t :=
  let info :=
    dict [("start_time", PyNum now);
          ("status", PyStr "active");
          ("total_violations", PyNum 0);
          ("total_alerts", PyNum 0);
          ("frames_processed", PyNum 0);
          ("frames_skipped", PyNum 0)] in
  let self := with_session_data (<[session_id := info]> (session_data self)) self in
  let self := with_eye_tracker (EyeGazeTracker.reset (eye_tracker self)) self in
  let self := with_audio_analyzer (AudioAnalyzer.reset (audio_analyzer self)) self in
  let self := with_frame_analyzer (FrameAnalyzer.reset (frame_analyzer self)) self in
  (info, self).

Definition end_session (self : t) (session_id : string) (now : Q)
  : gmap string pyval * t :=
  match session_data self !! session_id with
  | Some info =>
      let info := <["status" := PyStr "ended"]> (<["end_time" := PyNum now]> info) in
      (info, with_session_data (<[session_id := info]> (session_data self)) self)
  | None => (dict [("error", PyStr "Session not found")], self)
  end.

Definition get_session_summary (self : t) (session_id : string)
  : gmap string pyval :=
  match session_data self !! session_id with
  | Some info => info
  | None => dict [("error", PyStr "Session not found")]
  end.
End WithCollaborators.
End ProctoringService.
Arguments ProctoringService.mk {Frame}.
Arguments ProctoringService.eye_tracker {Frame}.
Arguments ProctoringService.object_detector {Frame}.
Arguments ProctoringService.audio_analyzer {Frame}.
Arguments ProctoringService.frame_analyzer {Frame}.
Arguments ProctoringService.gemini_verifier {Frame}.
Arguments ProctoringService.alert_cooldown {Frame}.
Arguments ProctoringService.last_alert_times {Frame}.
Arguments ProctoringService.session_data {Frame}.
Arguments ProctoringService.frame_skip_mod {Frame}.
Arguments ProctoringService.init {Frame}.
Arguments ProctoringService.with_eye_tracker {Frame}.
Arguments ProctoringService.with_audio_analyzer {Frame}.
Arguments ProctoringService.with_frame_analyzer {Frame}.
Arguments ProctoringService.with_last_alert_times {Frame}.
Arguments ProctoringService.with_session_data {Frame}.
Arguments ProctoringService._should_create_alert {Frame}.
Arguments ProctoringService.should_create_alert {Frame}.
Arguments ProctoringService.mk_observation {Frame}.
Arguments ProctoringService.image {Frame}.
Arguments ProctoringService.ts_result {Frame}.
Arguments ProctoringService.detections {Frame}.
Arguments ProctoringService.mesh {Frame}.
Arguments ProctoringService.t_gaze {Frame}.
Arguments ProctoringService.boxes {Frame}.
Arguments ProctoringService.reply_persons {Frame}.
Arguments ProctoringService.reply_eyes {Frame}.
Arguments ProctoringService.reply_objects {Frame}.
Arguments ProctoringService.tk_black {Frame}.
Arguments ProctoringService.tk_persons {Frame}.
Arguments ProctoringService.tk_eyes {Frame}.
Arguments ProctoringService.tk_objects {Frame}.
Arguments ProctoringService.get_self {Frame}.
Arguments ProctoringService.get_results {Frame}.
Arguments ProctoringService.on_results {Frame}.
Arguments ProctoringService.route_violation {Frame}.
Arguments ProctoringService.black_screen_block {Frame}.
Arguments ProctoringService.face_block {Frame}.
Arguments ProctoringService.gaze_block {Frame}.
Arguments ProctoringService.object_block {Frame}.
Arguments ProctoringService.process_frame_body {Frame}.
Arguments ProctoringService.process_frame {Frame}.
Arguments ProctoringService.process_audio_body {Frame}.
Arguments ProctoringService.process_audio {Frame}.
Arguments ProctoringService.start_session {Frame}.
Arguments ProctoringService.end_session {Frame}.
Arguments ProctoringService.get_session_summary {Frame}.


(** ** services/connection_manager.py *)

(** A Python [dict] with string keys as the list of its items in insertion
    order: assigning to a present key keeps the key's place, assigning to
    an absent one appends, [del] removes the item. *)
Fixpoint dict_get {V : Type} (k : string) (items : list (string * V))
  : option V :=
  match items with
  | [] => None
  | (k', v) :: rest => if String.eqb k' k then Some v else dict_get k rest
  end.

Fixpoint dict_set {V : Type} (k : string) (v : V) (items : list (string * V))
  : list (string * V) :=
  match items with
  | [] => [(k, v)]
  | (k', v') :: rest =>
      if String.eqb k' k then (k', v) :: rest
      else (k', v') :: dict_set k v rest
  end.

Fixpoint dict_del {V : Type} (k : string) (items : list (string * V))
  : list (string * V) :=
  match items with
  | [] => []
  | (k', v') :: rest =>
      if String.eqb k' k then rest else (k', v') :: dict_del k rest
  end.

Module ConnectionManager.
Section WithSockets.
Variable WebSocket : Type.
(** Whether the peer of a socket is still there; [accept] and [send_json]
    raise when it is not. *)
Variable alive : WebSocket -> bool.

Record t : Type := mk {
  active_connections : list (string * WebSocket)
}.

Definition init : t := mk [].

Definition connect (self : t) (websocket : WebSocket) (session_id : string)
  : (exc + unit) * t :=
  if alive websocket then
    (inr tt, mk (dict_set session_id websocket (active_connections self)))
  else (inl (External "websocket"), self).

Definition disconnect (self : t) (session_id : string) : t :=
  match dict_get session_id (active_connections self) with
  | Some _ => mk (dict_del session_id (active_connections self))
  | None => self
  end.

(** The messages delivered by a sequence of [send_json] calls, which stops
    at the first socket that raises. *)
Fixpoint send_all (message : gmap string pyval) (sockets : list WebSocket)
  : (exc + unit) * list (WebSocket * gmap string pyval) :=
  match sockets with
  | [] => (inr tt, [])
  | w :: rest =>
      if alive w then
        let '(r, sent) := send_all message rest in
        (r, (w, message) :: sent)
      else (inl (External "websocket"), [])
  end.

Definition send_personal_message
    (self : t) (message : gmap string pyval) (session_id : string)
  : (exc + unit) * list (WebSocket * gmap string pyval) :=
  match dict_get session_id (active_connections self) with
  | Some websocket => send_all message [websocket]
  | None => (inr tt, [])
  end.

Definition broadcast (self : t) (message : gmap string pyval)
  : (exc + unit) * list (WebSocket * gmap string pyval) :=
  send_all message (map snd (active_connections self)).

Definition get_connection (self : t) (session_id : string)
  : option WebSocket :=
  dict_get session_id (active_connections self).

Definition is_connected (self : t) (session_id : string) : bool :=
  match dict_get session_id (active_connections self) with
  | Some _ => true
  | None => false
  end.
End WithSockets.
End ConnectionManager.
Arguments ConnectionManager.mk {WebSocket}.
Arguments ConnectionManager.active_connections {WebSocket}.
Arguments ConnectionManager.init {WebSocket}.
Arguments ConnectionManager.connect {WebSocket}.
Arguments ConnectionManager.disconnect {WebSocket}.
Arguments ConnectionManager.send_all {WebSocket}.
Arguments ConnectionManager.send_personal_message {WebSocket}.
Arguments ConnectionManager.broadcast {WebSocket}.
Arguments ConnectionManager.get_connection {WebSocket}.
Arguments ConnectionManager.is_connected {WebSocket}.

(** ** Concrete collaborators, to run the model on examples *)

Module Demo.
(** A frame as the list of its gray levels. *)
Definition Frame : Type := list Z.

Definition gray_mean (f : Frame) : option Q :=
  match f with
  | [] => None
  | _ => Some (inject_Z (foldr Z.add 0%Z f) / inject_Z (Z.of_nat (length f)))%Q
  end.

(** Identical frames are fully similar, different ones not at all, and
    frames of different sizes cannot be compared. *)
Definition ssim (a b : Frame) : option Q :=
  if (length a =? length b)%nat
  then Some (if bool_decide (a = b) then 1%Q else 0%Q)
  else None.

Definition dquote : string := String (Ascii.ascii_of_nat 34) EmptyString.

(** The reply [{"confidence": 0.4}]. *)
Definition low_confidence_reply : string :=
  "{" +:+ dquote +:+ "confidence" +:+ dquote +:+ ": 0.4}".

(** A parser that knows two JSON documents and rejects all other text. *)
Definition json_loads (s : string) : option pyval :=
  if String.eqb s "{}" then Some (PyDict ∅)
  else if String.eqb s low_confidence_reply
  then Some (PyDict (dict [("confidence", PyNum (4 # 10))]))
  else None.

Definition bright : Frame := [200; 180; 190; 210]%Z.
Definition bright' : Frame := [100; 120; 90; 110]%Z.
Definition dark : Frame := [0; 3; 1; 0]%Z.

Definition enabled_settings : Settings.t :=
  Settings.mk (6 # 10) 2 3 1 "key" true (7 # 10).

Definition two_faces : list FaceDetector.detection :=
  [FaceDetector.mk_detection 10 10 50 50 (9 # 10);
   FaceDetector.mk_detection 200 10 50 50 (8 # 10)].

Definition at_time (now : Q) : ProctoringService.ticks :=
  ProctoringService.mk_ticks now now now.

(** A frame showing two faces, no landmarks for the gaze tracker, no
    objects; the verifier's reply to the multiple-persons check is [r]. *)
Definition two_faces_frame (img : Frame) (now : Q)
    (r : GeminiViolationVerifier.reply) : ProctoringService.observation Frame :=
  ProctoringService.mk_observation img now (Some two_faces) (Some None) now
    (Some []) r r r (at_time now) (at_time now) (at_time now) (at_time now).
End Demo.

(** ** Runs of the gaze tracker *)

(** A stream of frames shown to [track_gaze]: for each frame what the face
    mesh found and the clock reading. *)
Definition gaze_run (t : EyeGazeTracker.t)
    (frames : list (option EyeGazeTracker.landmarks * Q)) : EyeGazeTracker.t :=
  fold_left (fun t f => snd (EyeGazeTracker.track_gaze t (fst f) (snd f)))
    frames t.

(** Clock readings that never run backwards: each is at least the one
    before, and the first at least [lo] when there is one. *)
Fixpoint clock_from (lo : option Q) (readings : list Q) : Prop :=
  match readings with
  | [] => True
  | x :: rest =>
      match lo with
      | Some l => (l <= x)%Q
      | None => True
      end
      /\ clock_from (Some x) rest
  end.

(** The head-pose samples of a stream, in order: the frames with a face on
    which [solvePnP] succeeded. *)
Definition poses (frames : list (option EyeGazeTracker.landmarks * Q))
  : list (Q * Q * Q) :=
  omap (fun f => match fst f with
                 | Some lm => EyeGazeTracker.pose_result lm
                 | None => None
                 end) frames.

(** The element-wise median of a buffer of samples, as [calibrate] takes it. *)
Definition medians (frames : list (Q * Q * Q)) : Q * Q * Q :=
  (np_median (map (fun '(p, y, r) => p) frames),
   np_median (map (fun '(p, y, r) => y) frames),
   np_median (map (fun '(p, y, r) => r) frames)).

Definition neutral (t : EyeGazeTracker.t) : Q * Q * Q :=
  (EyeGazeTracker.neutral_pitch t, EyeGazeTracker.neutral_yaw t,
   EyeGazeTracker.neutral_roll t).

(** The part of the tracker that calibration reads and writes. *)
Definition calibration_state (t : EyeGazeTracker.t)
  : bool * list (Q * Q * Q) * nat * (Q * Q * Q) :=
  (EyeGazeTracker.is_calibrated t, EyeGazeTracker.calibration_frames t,
   EyeGazeTracker.calibration_frame_count t, neutral t).

(** ** Reading a frame's outcome *)

(** The condition [ai_verification['verified'] and
    ai_verification['confidence'] >= threshold] of [process_frame] as a
    boolean; it is [false] where evaluating the condition raises. *)
Definition ai_approves (settings : Settings.t) (ai_verification : gmap string pyval)
  : bool :=
  match getitem ai_verification "verified",
        getitem ai_verification "confidence" with
  | inr verified, inr confidence =>
      if truthy verified then
        match py_ge confidence
                (Settings.AI_VERIFICATION_CONFIDENCE_THRESHOLD settings) with
        | inr b => b
        | inl _ => false
        end
      else false
  | _, _ => false
  end.

(** The [violation] flag of a detector's result dictionary; an empty
    dictionary (the detector did not run) carries none. *)
Definition detected (result : gmap string pyval) : bool :=
  truthy (get_or result "violation" (PyBool false)).

(** Two [results] dictionaries that agree on everything but the lists of
    violations and alerts. *)
Definition same_meta (r r' : Results.t) : Prop :=
  Results.timestamp r' = Results.timestamp r
  /\ Results.session_id r' = Results.session_id r
  /\ Results.face_detection r' = Results.face_detection r
  /\ Results.eye_tracking r' = Results.eye_tracking r
  /\ Results.object_detection r' = Results.object_detection r
  /\ Results.audio_analysis r' = Results.audio_analysis r
  /\ Results.status r' = Results.status r
  /\ Results.frame_processed r' = Results.frame_processed r
  /\ Results.skip_reason r' = Results.skip_reason r
  /\ Results.error r' = Results.error r.

(** The types of the recorded violations and of the alerts, in order. *)
Definition violation_types (r : Results.t) : list string :=
  map Violation.type (Results.violations r).

Definition alert_types (r : Results.t) : list string :=
  map Alert.type (Results.alerts r).

(** Whether a step of the frame pipeline returned normally. *)
Definition returned {A} (o : exc + A) : bool :=
  match o with
  | inr _ => true
  | inl _ => false
  end.

(** The footprint of one detector block of [process_frame] that routes
    violations of type [alert_type]: it leaves the cooldown window and the
    verifier alone, writes no cooldown entry but the block's own, and
    appends only violations and alerts of its type.  When the block returned
    normally ([normal]), what it appended is decided by the detector result
    [result] stored in the results, the cooldown check on the state before
    the block, and the verifier's answer [ai]. *)
Definition routed {Frame : Type} (settings : Settings.t)
    (session_id alert_type : string) (tk : ProctoringService.ticks)
    (normal : bool) (result ai : gmap string pyval)
    (s s' : ProctoringService.st Frame) : Prop :=
  ProctoringService.alert_cooldown (fst s')
  = ProctoringService.alert_cooldown (fst s)
  /\ ProctoringService.gemini_verifier (fst s')
     = ProctoringService.gemini_verifier (fst s)
  /\ (forall k, k <> ProctoringService.cooldown_key session_id alert_type ->
        ProctoringService.last_alert_times (fst s') !! k
        = ProctoringService.last_alert_times (fst s) !! k)
  /\ exists vs al,
      Results.violations (snd s') = Results.violations (snd s) ++ vs
      /\ Results.alerts (snd s') = Results.alerts (snd s) ++ al
      /\ Forall (fun v => Violation.type v = alert_type) vs
      /\ Forall (fun a => Alert.type a = alert_type) al
      /\ (normal = true ->
          let pass :=
            fst (ProctoringService._should_create_alert (fst s) session_id
                   alert_type (ProctoringService.t_check tk)) in
          let enable := Settings.ENABLE_AI_VERIFICATION settings in
          let approved := ai_approves settings ai in
          map Violation.type vs
          = (if detected result && negb (pass && enable && negb approved)
             then [alert_type] else [])
          /\ map Alert.type al
            = (if detected result && (pass && (negb enable || approved))
               then [alert_type] else [])).

(** ** Replies in a code fence *)

Definition newline : string := String (Ascii.ascii_of_nat 10) EmptyString.

(** A reply wrapped in a Markdown code fence with the language tag [tag]:
    the opening fence, [body] on lines of its own, the closing fence. *)
Definition fenced (tag body : string) : string :=
  ("```" +:+ tag) +:+ ((newline +:+ body) +:+ (newline +:+ "```")).

(** ** What frame and audio processing leave alone *)

(** Two states of the service that agree on the session records, the audio
    analyzer, the object detector, the verifier, the cooldown window and
    the stride. *)
Definition same_configuration {Frame : Type}
    (self self' : ProctoringService.t Frame) : Prop :=
  ProctoringService.session_data self' = ProctoringService.session_data self
  /\ ProctoringService.audio_analyzer self'
     = ProctoringService.audio_analyzer self
  /\ ProctoringService.object_detector self'
     = ProctoringService.object_detector self
  /\ ProctoringService.gemini_verifier self'
     = ProctoringService.gemini_verifier self
  /\ ProctoringService.alert_cooldown self'
     = ProctoringService.alert_cooldown self
  /\ ProctoringService.frame_skip_mod self'
     = ProctoringService.frame_skip_mod self.

(** A step of the frame pipeline that preserves them, whether it raises or
    not. *)
Definition keeps {Frame A : Type} (m : M (ProctoringService.st Frame) A)
  : Prop :=
  forall s, same_configuration (fst s) (fst (snd (m s))).

(** ** Runs of the frame analyzer *)

(** A stream of frames shown to [should_process_frame] under one stride:
    the verdicts in order and the analyzer at the end. *)
Fixpoint gate_run {Frame : Type} (gray_mean : Frame -> option Q)
    (ssim : Frame -> Frame -> option Q) (skip_mod : Z)
    (fa : FrameAnalyzer.t Frame) (frames : list Frame)
  : list (bool * string) * FrameAnalyzer.t Frame :=
  match frames with
  | [] => ([], fa)
  | f :: rest =>
      let '(v, fa1) :=
        FrameAnalyzer.should_process_frame gray_mean ssim fa f skip_mod in
      let '(vs, fa2) := gate_run gray_mean ssim skip_mod fa1 rest in
      (v :: vs, fa2)
  end.

(** The frames of a stream whose verdict was to admit them. *)
Fixpoint admitted {Frame : Type} (verdicts : list (bool * string))
    (frames : list Frame) : list Frame :=
  match verdicts, frames with
  | v :: vs, f :: fs => if fst v then f :: admitted vs fs else admitted vs fs
  | _, _ => []
  end.

(** Whether a verdict comes from a call that reached the duplicate check. *)
Definition reached_duplicate_check (v : bool * string) : bool :=
  String.eqb (snd v) "ok" || String.eqb (snd v) "duplicate_frame".

(** ** Runs of the audio analyzer *)

(** One audio chunk as [analyze_audio] sees it: RMS energy, zero-crossing
    rate and the two clock readings. *)
Record chunk : Type := mk_chunk {
  chunk_energy : Q;
  chunk_zcr : Q;
  chunk_t_hist : Q;
  chunk_t_anom : Q
}.

(** The entry [analyze_audio] appends to [audio_history] for a chunk, under
    the speech threshold [thr]. *)
Definition history_entry (thr : Q) (c : chunk) : AudioAnalyzer.frame :=
  AudioAnalyzer.mk_frame (chunk_energy c) (chunk_zcr c)
    (Qgtb (chunk_energy c) thr) (chunk_t_hist c).

(** What holds of an analyzer [n] chunks after [reset] when the speech
    threshold is not negative: a baseline, once set, lies above the
    threshold, and the anomaly counter is below the number of chunks. *)
Definition since_reset (a : AudioAnalyzer.t) (n : nat) : Prop :=
  (0 <= AudioAnalyzer.speech_threshold a)%Q
  /\ match AudioAnalyzer.baseline_energy a with
     | Some b =>
         (AudioAnalyzer.speech_threshold a < b)%Q
         /\ (AudioAnalyzer.anomaly_count a + 1 <= Z.of_nat n)%Z
     | None => AudioAnalyzer.anomaly_count a = 0%Z
     end.

(** A stream of chunks analysed in order: the results and the analyzer at
    the end. *)
Fixpoint audio_run (a : AudioAnalyzer.t) (chunks : list chunk)
  : list (gmap string pyval) * AudioAnalyzer.t :=
  match chunks with
  | [] => ([], a)
  | c :: rest =>
      let '(r, a1) :=
        AudioAnalyzer.analyze_audio a (chunk_energy c) (chunk_zcr c)
          (chunk_t_hist c) (chunk_t_anom c) in
      let '(rs, a2) := audio_run a1 rest in
      (r :: rs, a2)
  end.

(** * Properties *)

(** ** Boolean comparisons on [Q] *)

Lemma Qltb_lt (a b : Q) : Qltb a b = true <-> (a < b)%Q.
Proof.
  unfold Qltb. rewrite negb_true_iff, <- not_true_iff_false, Qle_bool_iff.
  split; [apply Qnot_le_lt | apply Qlt_not_le].
Qed.

Lemma Qltb_ge (a b : Q) : Qltb a b = false <-> (b <= a)%Q.
Proof. unfold Qltb. rewrite negb_false_iff. apply Qle_bool_iff. Qed.

Lemma Qgtb_lt (a b : Q) : Qgtb a b = true <-> (b < a)%Q.
Proof. apply Qltb_lt. Qed.

Lemma Qgtb_le (a b : Q) : Qgtb a b = false <-> (a <= b)%Q.
Proof. apply Qltb_ge. Qed.

Lemma Qgeb_le (a b : Q) : Qgeb a b = true <-> (b <= a)%Q.
Proof. apply Qle_bool_iff. Qed.

Lemma Qgeb_lt (a b : Q) : Qgeb a b = false <-> (a < b)%Q.
Proof.
  unfold Qgeb. rewrite <- not_true_iff_false, Qle_bool_iff.
  split; [apply Qnot_le_lt | apply Qlt_not_le].
Qed.

(** ** FrameAnalyzer: the frame counter *)

Section FrameCounter.
Context {Frame : Type}.
Variable gray_mean : Frame -> option Q.
Variable ssim : Frame -> Frame -> option Q.

Lemma is_duplicate_frame_count (fa : FrameAnalyzer.t Frame) frame :
  FrameAnalyzer.frame_count (snd (FrameAnalyzer.is_duplicate_frame ssim fa frame))
  = (FrameAnalyzer.frame_count fa + 1)%Z.
Proof.
  unfold FrameAnalyzer.is_duplicate_frame; simpl.
  destruct (FrameAnalyzer.previous_frame fa); simpl; [|reflexivity].
  destruct (Qgtb _ _); reflexivity.
Qed.

(** The counter moves exactly on the calls that reach the duplicate check:
    verdicts [ok] and [duplicate_frame]. *)
Lemma should_process_frame_count (fa : FrameAnalyzer.t Frame) frame skip_mod :
  let '((_, reason), fa') :=
    FrameAnalyzer.should_process_frame gray_mean ssim fa frame skip_mod in
  FrameAnalyzer.frame_count fa'
  = if String.eqb reason "black_screen" || String.eqb reason "frame_skipped"
    then FrameAnalyzer.frame_count fa
    else (FrameAnalyzer.frame_count fa + 1)%Z.
Proof.
  unfold FrameAnalyzer.should_process_frame.
  destruct (FrameAnalyzer.is_black_screen _ _ _); [reflexivity|].
  destruct (_ && _); [reflexivity|].
  pose proof (is_duplicate_frame_count fa frame) as H.
  destruct (FrameAnalyzer.is_duplicate_frame ssim fa frame) as [[] fa']; exact H.
Qed.
End FrameCounter.

(** C5 (the code at the failing inputs).  A frame analyzer that has counted
    one frame is given a black frame, and then a bright frame under a stride
    of 3: the verdicts are [black_screen] and [frame_skipped], and both calls
    return the analyzer as it was, its [frame_count] still 1.  The counter is
    only incremented inside [is_duplicate_frame], which neither call
    reaches.  As a consequence a stride of 3 does not process every third
    frame: from a fresh analyzer the first of four different bright frames is
    admitted and the three after it, the fourth included, are all
    [frame_skipped], the counter staying at 1. *)
Theorem frame_count_stalls_on_early_verdicts :
  let fa := FrameAnalyzer.mk (95 # 100) 30 (Some Demo.bright) 1 in
  let step (fa : FrameAnalyzer.t Demo.Frame) (f : Demo.Frame) :=
    FrameAnalyzer.should_process_frame Demo.gray_mean Demo.ssim fa f 3 in
  let c1 := step (FrameAnalyzer.init (95 # 100) 30) [200; 201]%Z in
  let c2 := step (snd c1) [150; 151]%Z in
  let c3 := step (snd c2) [100; 101]%Z in
  let c4 := step (snd c3) [50; 51]%Z in
  FrameAnalyzer.should_process_frame Demo.gray_mean Demo.ssim fa Demo.dark 1
    = ((false, "black_screen"), fa)
  /\ FrameAnalyzer.should_process_frame Demo.gray_mean Demo.ssim fa Demo.bright' 3
    = ((false, "frame_skipped"), fa)
  /\ FrameAnalyzer.frame_count fa = 1%Z
  /\ map fst [c1; c2; c3; c4]
     = [(true, "ok"); (false, "frame_skipped"); (false, "frame_skipped");
        (false, "frame_skipped")]
  /\ FrameAnalyzer.frame_count (snd c4) = 1%Z.
Proof. vm_compute. repeat split. Qed.

(** ** AudioAnalyzer: the anomaly counter *)

(** The violation flag of [analyze_audio] is the conjunction of "more than
    three counted anomalies" and "this chunk is anomalous". *)
Lemma analyze_audio_violation (a : AudioAnalyzer.t) energy zcr t1 t2 :
  let '(r, a') := AudioAnalyzer.analyze_audio a energy zcr t1 t2 in
  exists anomalous : bool,
    r !! "anomaly_detected" = Some (PyBool anomalous)
    /\ r !! "violation"
       = Some (PyBool ((3 <? AudioAnalyzer.anomaly_count a')%Z && anomalous))
    /\ r !! "anomaly_count"
       = Some (PyNum (inject_Z (AudioAnalyzer.anomaly_count a'))).
Proof.
  unfold AudioAnalyzer.analyze_audio.
  match goal with
  | |- context [if ?c then (true, PyStr "high_energy_spike") else _] =>
      destruct c
  end;
  match goal with
  | |- context [if ?c then match ?l !! ?i with _ => _ end else ?d] =>
      destruct (if c then match l !! i with
                          | Some prev =>
                              if Qgtb (Qabs (energy - AudioAnalyzer.energy prev))
                                   (1 # 10)
                                 && Qgtb energy (AudioAnalyzer.speech_threshold a)
                              then (true, PyStr "sudden_change") else d
                          | None => d
                          end
                else d) as [anomalous ty]
  end;
  exists anomalous; repeat split.
Qed.

(** The counter never decreases and moves by at most one per chunk. *)
Lemma analyze_audio_count_monotone (a : AudioAnalyzer.t) energy zcr t1 t2 :
  let a' := snd (AudioAnalyzer.analyze_audio a energy zcr t1 t2) in
  (AudioAnalyzer.anomaly_count a <= AudioAnalyzer.anomaly_count a'
   <= AudioAnalyzer.anomaly_count a + 1)%Z.
Proof.
  unfold AudioAnalyzer.analyze_audio.
  repeat case_match; simplify_eq; simpl; lia.
Qed.

(** C6 (the code at the failing input).  After a first chunk of energy 0.5,
    which sets the baseline, a chunk of energy 0.3 is anomalous: speech is
    present and the energy moved by 0.2 > 0.1, so the chunk is reported as
    [sudden_change].  The anomaly counter is 0 before and after it: only the
    [high_energy_spike] branch increments [anomaly_count]. *)
Theorem sudden_change_leaves_anomaly_count :
  let a1 := snd (AudioAnalyzer.analyze_audio AudioAnalyzer.init (1 # 2) 0 0 0) in
  let r := fst (AudioAnalyzer.analyze_audio a1 (3 # 10) 0 1 1) in
  let a2 := snd (AudioAnalyzer.analyze_audio a1 (3 # 10) 0 1 1) in
  r !! "anomaly_detected" = Some (PyBool true)
  /\ r !! "anomaly_type" = Some (PyStr "sudden_change")
  /\ AudioAnalyzer.anomaly_count a1 = 0%Z
  /\ AudioAnalyzer.anomaly_count a2 = 0%Z.
Proof. vm_compute. repeat split. Qed.

(** ** EyeGazeTracker: a frame without a face *)

(** C8, as stated, at the tracker [EyeGazeTracker.init 2] and clock reading 0:
    the statement lists [total_away_time] among the fields that the no-face
    result carries, and the dictionary returned has no such key. *)
Lemma no_face_result_lacks_total_away_time :
  ~ (let '(r, t') := EyeGazeTracker.track_gaze (EyeGazeTracker.init 2) None 0 in
     r !! "face_detected" = Some (PyBool false)
     /\ r !! "looking_away" = Some (PyBool false)
     /\ is_Some (r !! "gaze_direction")
     /\ r !! "duration" = Some (PyNum 0)
     /\ r !! "violation" = Some (PyBool false)
     /\ is_Some (r !! "total_away_time")
     /\ t' = EyeGazeTracker.init 2).
Proof.
  simpl. intros (_ & _ & _ & _ & _ & [v Hv] & _).
  vm_compute in Hv. discriminate Hv.
Qed.

(** C8 (amended).  Without a face, [track_gaze] returns [face_detected] false,
    [looking_away] false, [gaze_direction] "unknown", [duration] 0,
    [violation] false and zero angles; the keys [total_away_time] and
    [alert_type] are absent; and the tracker is returned as it was, so the
    calibration buffer, the calibrated flag, the looking-away start and the
    cumulated away time are unchanged. *)
Theorem track_gaze_no_face (t : EyeGazeTracker.t) (now : Q) :
  let '(r, t') := EyeGazeTracker.track_gaze t None now in
  r !! "face_detected" = Some (PyBool false)
  /\ r !! "looking_away" = Some (PyBool false)
  /\ r !! "gaze_direction" = Some (PyStr "unknown")
  /\ r !! "duration" = Some (PyNum 0)
  /\ r !! "violation" = Some (PyBool false)
  /\ r !! "pitch" = Some (PyNum 0)
  /\ r !! "yaw" = Some (PyNum 0)
  /\ r !! "roll" = Some (PyNum 0)
  /\ r !! "total_away_time" = None
  /\ r !! "alert_type" = None
  /\ t' = t
  /\ EyeGazeTracker.calibration_frames t' = EyeGazeTracker.calibration_frames t
  /\ EyeGazeTracker.is_calibrated t' = EyeGazeTracker.is_calibrated t
  /\ EyeGazeTracker.looking_away_start t' = EyeGazeTracker.looking_away_start t
  /\ EyeGazeTracker.total_looking_away_time t'
     = EyeGazeTracker.total_looking_away_time t.
Proof. simpl. repeat split. Qed.

(** ** EyeGazeTracker: calibration *)

Section Calibration.
Import EyeGazeTracker.

(** What one call of [track_gaze] does to the calibration state: nothing
    without a pose sample or once calibrated, [calibrate] otherwise. *)
Lemma track_gaze_calibration_state (t : EyeGazeTracker.t) mesh now :
  calibration_state (snd (track_gaze t mesh now))
  = calibration_state
      match mesh with
      | Some lm =>
          match pose_result lm with
          | Some (p, y, r) => if is_calibrated t then t else calibrate t p y r
          | None => t
          end
      | None => t
      end.
Proof.
  unfold track_gaze.
  destruct mesh as [lm|]; [|reflexivity].
  destruct (pose_result lm) as [[[p y] r]|];
    destruct (detect_iris_position (eyes lm)) as [[av dir []]|];
    cbn -[is_looking_away calibrate];
    try (destruct (is_calibrated t) eqn:E; cbn -[is_looking_away calibrate]);
    try match goal with
        | |- context [is_looking_away ?a ?b ?c ?d] =>
            destruct (is_looking_away a b c d) as [[] ?]
        end;
    unfold calibration_state, neutral; cbn -[calibrate]; rewrite ?E;
    reflexivity.
Qed.

(** The invariant of a run that started from an empty buffer: the buffer
    holds the first [K] samples seen, the flag says whether [K] samples
    were seen, and the baseline is the median of the buffer from then on. *)
Lemma calibration_step (K : nat) base (l : list (Q * Q * Q)) t mesh now :
  (0 < K)%nat ->
  calibration_state t
  = ((K <=? length l)%nat, take K l, K,
     if (K <=? length l)%nat then medians (take K l) else base) ->
  let l' := l ++ poses [(mesh, now)] in
  calibration_state (snd (track_gaze t mesh now))
  = ((K <=? length l')%nat, take K l', K,
     if (K <=? length l')%nat then medians (take K l') else base).
Proof.
  intros HK H. simpl. rewrite track_gaze_calibration_state.
  unfold poses; simpl.
  destruct mesh as [lm|]; simpl; [|rewrite app_nil_r; exact H].
  destruct (pose_result lm) as [[[p y] r]|]; simpl;
    [|rewrite app_nil_r; exact H].
  unfold calibration_state in H.
  injection H as Hflag Hframes Hcount Hn.
  rewrite Hflag. destruct (Nat.leb_spec K (length l)) as [Hle|Hlt].
  - unfold calibration_state.
    rewrite Hflag, Hframes, Hcount, Hn.
    rewrite length_app; simpl.
    destruct (Nat.leb_spec K (length l + 1)) as [_|?]; [|lia].
    rewrite (take_app_le l [(p, y, r)] K) by lia.
    try rewrite (leb_correct K (length l)) by lia. reflexivity.
  - rewrite take_ge in Hframes by lia.
    unfold calibrate. rewrite Hframes, Hcount.
    destruct (Nat.ltb_spec (length l) K) as [_|?]; [|lia].
    rewrite length_app; simpl.
    rewrite (take_ge (l ++ [(p, y, r)]) K) by (rewrite length_app; simpl; lia).
    destruct (Nat.eqb_spec (length l + 1) K) as [Heq|Hne].
    + rewrite (leb_correct K (length l + 1)) by lia. reflexivity.
    + rewrite (leb_correct_conv (length l + 1) K) by lia.
      unfold calibration_state; simpl.
      rewrite Hflag, <- Hn. reflexivity.
Qed.

Lemma poses_app f g : poses (f ++ g) = poses f ++ poses g.
Proof. unfold poses. apply omap_app. Qed.

Lemma gaze_run_snoc t frames f :
  gaze_run t (frames ++ [f]) = snd (track_gaze (gaze_run t frames) (fst f) (snd f)).
Proof. unfold gaze_run. rewrite fold_left_app. reflexivity. Qed.

Lemma calibration_run (t0 : EyeGazeTracker.t) frames :
  calibration_frames t0 = [] ->
  is_calibrated t0 = false ->
  (0 < calibration_frame_count t0)%nat ->
  let K := calibration_frame_count t0 in
  let l := poses frames in
  calibration_state (gaze_run t0 frames)
  = ((K <=? length l)%nat, take K l, K,
     if (K <=? length l)%nat then medians (take K l) else neutral t0).
Proof.
  intros Hbuf Hflag HK. simpl.
  induction frames as [|[mesh now] frames IH] using rev_ind.
  - simpl. unfold calibration_state. rewrite Hbuf, Hflag, take_nil.
    rewrite (leb_correct_conv 0 _) by lia. reflexivity.
  - rewrite gaze_run_snoc, poses_app. simpl fst; simpl snd.
    apply (calibration_step _ (neutral t0) (poses frames)); [lia|exact IH].
Qed.

(** The median of a buffer whose entries are all [x] is [x]. *)
Lemma np_median_replicate (n : nat) (x : Q) :
  (0 < n)%nat -> (np_median (replicate n x) == x)%Q.
Proof.
  intros Hn. unfold np_median.
  assert (Hs : merge_sort Qle (replicate n x) = replicate n x).
  { symmetry. apply replicate_Permutation. symmetry.
    apply merge_sort_Permutation. }
  rewrite Hs, length_replicate.
  assert (Hhalf : (n / 2 < n)%nat) by (apply Nat.div_lt; lia).
  destruct (Nat.even n).
  - rewrite !lookup_replicate_2 by lia. simpl. field.
  - rewrite lookup_replicate_2 by lia. simpl. reflexivity.
Qed.
End Calibration.

(** The facts of a calibration run, for any buffer size [K] > 0. *)
Lemma calibration_facts
    (t0 : EyeGazeTracker.t)
    (frames : list (option EyeGazeTracker.landmarks * Q)) (K : nat) :
  EyeGazeTracker.calibration_frames t0 = [] ->
  EyeGazeTracker.is_calibrated t0 = false ->
  EyeGazeTracker.calibration_frame_count t0 = K ->
  (0 < K)%nat ->
  let t := gaze_run t0 frames in
  let samples := poses frames in
  (EyeGazeTracker.is_calibrated t = true <-> (K <= length samples)%nat)
  /\ EyeGazeTracker.calibration_frames t = take K samples
  /\ ((K <= length samples)%nat -> neutral t = medians (take K samples))
  /\ ((length samples < K)%nat -> neutral t = neutral t0)
  /\ (forall more, (K <= length samples)%nat ->
        EyeGazeTracker.is_calibrated (gaze_run t0 (frames ++ more)) = true
        /\ neutral (gaze_run t0 (frames ++ more)) = neutral t)
  /\ (forall p y r, take K samples = replicate K (p, y, r) ->
        EyeGazeTracker.is_calibrated t = true
        /\ (EyeGazeTracker.neutral_pitch t == p)%Q
        /\ (EyeGazeTracker.neutral_yaw t == y)%Q
        /\ (EyeGazeTracker.neutral_roll t == r)%Q)
  /\ EyeGazeTracker.is_calibrated (EyeGazeTracker.reset t) = false
  /\ EyeGazeTracker.calibration_frames (EyeGazeTracker.reset t) = []
  /\ EyeGazeTracker.calibration_frame_count (EyeGazeTracker.reset t) = K.
Proof.
  intros Hbuf Hflag HK Hpos t samples.
  assert (Hrun : forall fs,
    calibration_state (gaze_run t0 fs)
    = ((K <=? length (poses fs))%nat, take K (poses fs), K,
       if (K <=? length (poses fs))%nat
       then medians (take K (poses fs)) else neutral t0)).
  { intros fs. pose proof (calibration_run t0 fs Hbuf Hflag) as H.
    rewrite HK in H. apply H. exact Hpos. }
  pose proof (Hrun frames) as H. fold t samples in H.
  unfold calibration_state in H. injection H as Hf Hb Hc Hn.
  assert (Hcal : EyeGazeTracker.is_calibrated t = true <-> (K <= length samples)%nat).
  { rewrite Hf. apply Nat.leb_le. }
  assert (Hmed : (K <= length samples)%nat -> neutral t = medians (take K samples)).
  { intros Hle. rewrite Hn. rewrite (leb_correct K (length samples)) by exact Hle.
    reflexivity. }
  split; [exact Hcal|]. split; [exact Hb|]. split; [exact Hmed|].
  split.
  { intros Hlt. rewrite Hn.
    rewrite (leb_correct_conv (length samples) K) by exact Hlt. reflexivity. }
  split.
  { intros more Hle. pose proof (Hrun (frames ++ more)) as H.
    unfold calibration_state in H. injection H as Hf' _ _ Hn'.
    rewrite poses_app in Hf', Hn'. fold samples in Hf', Hn'.
    rewrite length_app in Hf', Hn'.
    rewrite (leb_correct K (length samples + length (poses more))) in Hf', Hn'
      by lia.
    rewrite (take_app_le samples (poses more) K) in Hn' by lia.
    rewrite Hf', Hn', Hmed by exact Hle. split; reflexivity. }
  split.
  { intros p y r Hsame.
    assert (Hle : (K <= length samples)%nat).
    { apply (f_equal length) in Hsame.
      rewrite length_take, length_replicate in Hsame. lia. }
    split; [apply Hcal; exact Hle|].
    pose proof (Hmed Hle) as Hm. rewrite Hsame in Hm.
    unfold neutral, medians in Hm. rewrite !fmap_replicate in Hm.
    injection Hm as Hp Hy Hr.
    rewrite Hp, Hy, Hr.
    repeat split; apply (np_median_replicate K); exact Hpos. }
  unfold EyeGazeTracker.reset; simpl.
  repeat split. exact Hc.
Qed.

(** C3.  Start from a tracker whose calibration buffer is empty and whose
    flag is off (the state after [__init__] or [reset]), with K = 10, and
    show it any stream of frames.  Then the flag is on exactly when at
    least 10 head-pose samples were seen, so it flips on the 10th; the
    buffer holds the first 10 samples; from the 10th sample on the neutral
    baseline is the element-wise median of these 10 samples, and before it
    the baseline is untouched; frames shown after calibration change
    neither flag nor baseline; 10 identical samples [(p, y, r)] give the
    baseline [(p, y, r)]; and [reset] brings back the uncalibrated state
    with an empty buffer. *)
Theorem calibration_completes_once
    (t0 : EyeGazeTracker.t)
    (frames : list (option EyeGazeTracker.landmarks * Q)) :
  EyeGazeTracker.calibration_frames t0 = [] ->
  EyeGazeTracker.is_calibrated t0 = false ->
  EyeGazeTracker.calibration_frame_count t0 = 10%nat ->
  let t := gaze_run t0 frames in
  let samples := poses frames in
  (EyeGazeTracker.is_calibrated t = true <-> (10 <= length samples)%nat)
  /\ EyeGazeTracker.calibration_frames t = take 10 samples
  /\ ((10 <= length samples)%nat -> neutral t = medians (take 10 samples))
  /\ ((length samples < 10)%nat -> neutral t = neutral t0)
  /\ (forall more, (10 <= length samples)%nat ->
        EyeGazeTracker.is_calibrated (gaze_run t0 (frames ++ more)) = true
        /\ neutral (gaze_run t0 (frames ++ more)) = neutral t)
  /\ (forall p y r, take 10 samples = replicate 10 (p, y, r) ->
        EyeGazeTracker.is_calibrated t = true
        /\ (EyeGazeTracker.neutral_pitch t == p)%Q
        /\ (EyeGazeTracker.neutral_yaw t == y)%Q
        /\ (EyeGazeTracker.neutral_roll t == r)%Q)
  /\ EyeGazeTracker.is_calibrated (EyeGazeTracker.reset t) = false
  /\ EyeGazeTracker.calibration_frames (EyeGazeTracker.reset t) = []
  /\ EyeGazeTracker.calibration_frame_count (EyeGazeTracker.reset t) = 10%nat.
Proof.
  intros Hbuf Hflag HK.
  apply (calibration_facts t0 frames 10 Hbuf Hflag HK). lia.
Qed.

Lemma calibration_completes_once_witness :
  let frames :=
    replicate 10 (Some (EyeGazeTracker.mk_landmarks None (Some (1, 2, 3)%Q)), 0%Q) in
  EyeGazeTracker.is_calibrated (gaze_run (EyeGazeTracker.init 2) frames) = true
  <-> (10 <= length (poses frames))%nat.
Proof.
  exact (proj1 (calibration_completes_once (EyeGazeTracker.init 2)
                  (replicate 10
                     (Some (EyeGazeTracker.mk_landmarks None (Some (1, 2, 3)%Q)),
                      0%Q))
                  eq_refl eq_refl eq_refl)).
Defined.

(** ** EyeGazeTracker: head-pose decision and fusion *)

(** Turns a boolean comparison in the context into its order fact. *)
Ltac order_facts :=
  repeat match goal with
         | H : Qgtb _ _ = true |- _ => apply Qgtb_lt in H
         | H : Qgtb _ _ = false |- _ => apply Qgtb_le in H
         | H : Qltb _ _ = true |- _ => apply Qltb_lt in H
         | H : Qltb _ _ = false |- _ => apply Qltb_ge in H
         | H : Qgeb _ _ = true |- _ => apply Qgeb_le in H
         | H : Qgeb _ _ = false |- _ => apply Qgeb_lt in H
         end.

(** The deviation [is_looking_away] measures: from the neutral baseline once
    calibrated, the raw angles before. *)
Lemma is_looking_away_cases (t : EyeGazeTracker.t) (pitch yaw roll : Q) :
  let pitch_diff :=
    if EyeGazeTracker.is_calibrated t
    then (pitch - EyeGazeTracker.neutral_pitch t)%Q else pitch in
  let yaw_diff :=
    if EyeGazeTracker.is_calibrated t
    then (yaw - EyeGazeTracker.neutral_yaw t)%Q else yaw in
  let T := EyeGazeTracker.HEAD_ROTATION_THRESHOLD t in
  let result := EyeGazeTracker.is_looking_away t pitch yaw roll in
  ((T < Qabs yaw_diff)%Q ->
     ((yaw_diff < 0)%Q -> result = (true, "left"))
     /\ ((0 <= yaw_diff)%Q -> result = (true, "right")))
  /\ ((Qabs yaw_diff <= T)%Q -> (T < Qabs pitch_diff)%Q ->
     ((0 < pitch_diff)%Q -> result = (true, "down"))
     /\ ((pitch_diff <= 0)%Q -> result = (true, "up")))
  /\ ((Qabs yaw_diff <= T)%Q -> (Qabs pitch_diff <= T)%Q ->
     result = (false, "center")).
Proof.
  unfold EyeGazeTracker.is_looking_away.
  destruct (EyeGazeTracker.is_calibrated t); cbv zeta beta iota;
    match goal with
    | |- context [Qgtb (Qabs ?yd) ?T] => destruct (Qgtb (Qabs yd) T) eqn:Hy
    end;
    try match goal with
        | |- context [Qltb ?yd 0] => destruct (Qltb yd 0) eqn:Hs
        end;
    try match goal with
        | |- context [Qgtb (Qabs ?pd) ?T] => destruct (Qgtb (Qabs pd) T) eqn:Hp
        end;
    try match goal with
        | |- context [Qgtb ?pd 0] => destruct (Qgtb pd 0) eqn:Hd
        end;
    order_facts; repeat split; intros; first [reflexivity | exfalso; lra].
Qed.

(** How [track_gaze] fuses the two estimates on a frame with a face. *)
Lemma track_gaze_fusion (t : EyeGazeTracker.t) (lm : EyeGazeTracker.landmarks)
    (now : Q) :
  let iris := EyeGazeTracker.detect_iris_position (EyeGazeTracker.eyes lm) in
  let out := fst (EyeGazeTracker.track_gaze t (Some lm) now) in
  let fused :=
    match EyeGazeTracker.pose_result lm with
    | Some (pitch, yaw, roll) =>
        let t1 :=
          if EyeGazeTracker.is_calibrated t then t
          else EyeGazeTracker.calibrate t pitch yaw roll in
        let head := EyeGazeTracker.is_looking_away t1 pitch yaw roll in
        match iris with
        | None => head
        | Some i =>
            if fst head then head
            else (EyeGazeTracker.looking_away i, EyeGazeTracker.direction i)
        end
    | None =>
        match iris with
        | None => (false, "center")
        | Some i => (EyeGazeTracker.looking_away i, EyeGazeTracker.direction i)
        end
    end in
  out !! "looking_away" = Some (PyBool (fst fused))
  /\ out !! "gaze_direction" = Some (PyStr (snd fused)).
Proof.
  unfold EyeGazeTracker.track_gaze.
  destruct (EyeGazeTracker.pose_result lm) as [[[p y] r]|];
    destruct (EyeGazeTracker.detect_iris_position (EyeGazeTracker.eyes lm))
      as [[av dir []]|];
    cbn -[EyeGazeTracker.is_looking_away EyeGazeTracker.calibrate dict lookup];
    try (destruct (EyeGazeTracker.is_calibrated t) eqn:E;
         cbn -[EyeGazeTracker.is_looking_away EyeGazeTracker.calibrate dict lookup]);
    try match goal with
        | |- context [EyeGazeTracker.is_looking_away ?a ?b ?c ?d] =>
            destruct (EyeGazeTracker.is_looking_away a b c d) as [[] ?]
        end;
    split; reflexivity.
Qed.

(** C4.  On a frame with a face and a head-pose sample, let [t1] be the
    tracker after the calibration step of this frame.  The head-pose
    decision [is_looking_away] compares the deviation from the neutral
    baseline when [t1] is calibrated, the raw angles otherwise, with the
    rotation threshold: yaw beyond it gives looking-away to the left or
    right, else pitch beyond it gives looking-away down or up, else center.
    The fused [looking_away] and [gaze_direction] of the result are those of
    the head-pose decision whenever it signals looking-away or there is no
    iris estimate, and those of the iris estimate otherwise.  (Without a
    head-pose sample the result carries the iris estimate, or not looking
    away, "center", when there is none.) *)
Theorem head_pose_decision_and_fusion
    (t : EyeGazeTracker.t) (lm : EyeGazeTracker.landmarks) (now : Q) :
  let iris := EyeGazeTracker.detect_iris_position (EyeGazeTracker.eyes lm) in
  let out := fst (EyeGazeTracker.track_gaze t (Some lm) now) in
  match EyeGazeTracker.pose_result lm with
  | Some (pitch, yaw, roll) =>
      let t1 :=
        if EyeGazeTracker.is_calibrated t then t
        else EyeGazeTracker.calibrate t pitch yaw roll in
      let pitch_diff :=
        if EyeGazeTracker.is_calibrated t1
        then (pitch - EyeGazeTracker.neutral_pitch t1)%Q else pitch in
      let yaw_diff :=
        if EyeGazeTracker.is_calibrated t1
        then (yaw - EyeGazeTracker.neutral_yaw t1)%Q else yaw in
      let T := EyeGazeTracker.HEAD_ROTATION_THRESHOLD t1 in
      let head := EyeGazeTracker.is_looking_away t1 pitch yaw roll in
      ((T < Qabs yaw_diff)%Q ->
         ((yaw_diff < 0)%Q -> head = (true, "left"))
         /\ ((0 <= yaw_diff)%Q -> head = (true, "right")))
      /\ ((Qabs yaw_diff <= T)%Q -> (T < Qabs pitch_diff)%Q ->
         ((0 < pitch_diff)%Q -> head = (true, "down"))
         /\ ((pitch_diff <= 0)%Q -> head = (true, "up")))
      /\ ((Qabs yaw_diff <= T)%Q -> (Qabs pitch_diff <= T)%Q ->
         head = (false, "center"))
      /\ (fst head = true \/ iris = None ->
          out !! "looking_away" = Some (PyBool (fst head))
          /\ out !! "gaze_direction" = Some (PyStr (snd head)))
      /\ (forall i, fst head = false -> iris = Some i ->
          out !! "looking_away" = Some (PyBool (EyeGazeTracker.looking_away i))
          /\ out !! "gaze_direction" = Some (PyStr (EyeGazeTracker.direction i)))
  | None =>
      (forall i, iris = Some i ->
         out !! "looking_away" = Some (PyBool (EyeGazeTracker.looking_away i))
         /\ out !! "gaze_direction" = Some (PyStr (EyeGazeTracker.direction i)))
      /\ (iris = None ->
         out !! "looking_away" = Some (PyBool false)
         /\ out !! "gaze_direction" = Some (PyStr "center"))
  end.
Proof.
  intros iris out.
  pose proof (track_gaze_fusion t lm now) as F. fold iris out in F.
  cbv zeta in F.
  destruct (EyeGazeTracker.pose_result lm) as [[[pitch yaw] roll]|].
  - intros t1 pitch_diff yaw_diff T head.
    fold t1 in F. fold head in F.
    pose proof (is_looking_away_cases t1 pitch yaw roll) as (Hy & Hp & Hc).
    split; [exact Hy|]. split; [exact Hp|]. split; [exact Hc|].
    split.
    + intros [Hh | Hi].
      * destruct iris; [rewrite Hh in F|]; exact F.
      * rewrite Hi in F. exact F.
    + intros i Hh Hi. rewrite Hi, Hh in F. exact F.
  - split.
    + intros i Hi. rewrite Hi in F. exact F.
    + intros Hi. rewrite Hi in F. exact F.
Qed.

(** ** Strings *)

Lemma string_app_cons (x : Ascii.ascii) (a b : string) :
  String x a +:+ b = String x (a +:+ b).
Proof. reflexivity. Qed.

Lemma string_app_nil_l (a : string) : "" +:+ a = a.
Proof. reflexivity. Qed.

Lemma string_app_assoc (a b c : string) : (a +:+ b) +:+ c = a +:+ (b +:+ c).
Proof.
  induction a as [|x a IH]; [reflexivity|].
  rewrite !string_app_cons, IH. reflexivity.
Qed.

Lemma string_app_nil_r (a : string) : a +:+ "" = a.
Proof.
  induction a as [|x a IH]; [reflexivity|].
  rewrite string_app_cons, IH. reflexivity.
Qed.

Lemma rev_app_append (s x y : string) :
  String.rev_app s (x +:+ y) = String.rev_app s x +:+ y.
Proof.
  revert x. induction s as [|a s IH]; intros x; cbn; [reflexivity|].
  exact (IH (String a x)).
Qed.

Lemma string_rev_cons (a : Ascii.ascii) (s : string) :
  String.rev (String a s) = String.rev s +:+ String a "".
Proof.
  unfold String.rev. cbn [String.rev_app].
  exact (rev_app_append s "" (String a "")).
Qed.

Lemma string_rev_app (a b : string) :
  String.rev (a +:+ b) = String.rev b +:+ String.rev a.
Proof.
  induction a as [|x a IH].
  - rewrite string_app_nil_l. change (String.rev "") with "".
    rewrite string_app_nil_r. reflexivity.
  - rewrite string_app_cons, !string_rev_cons, IH, string_app_assoc.
    reflexivity.
Qed.

Lemma string_rev_involutive (s : string) : String.rev (String.rev s) = s.
Proof.
  induction s as [|a s IH]; [reflexivity|].
  rewrite string_rev_cons, string_rev_app, IH. reflexivity.
Qed.

(** ** ProctoringService: the cooldown table *)

Section Cooldown.
Context {Frame : Type}.
Implicit Types self : ProctoringService.t Frame.

Lemma append_inj_r (p a b : string) : p +:+ a = p +:+ b -> a = b.
Proof.
  induction p as [|c p IH]; simpl; intros H; [exact H|].
  injection H as H. exact (IH H).
Qed.

(** For one session, different alert types have different keys. *)
Lemma cooldown_key_inj (session_id a b : string) :
  ProctoringService.cooldown_key session_id a
  = ProctoringService.cooldown_key session_id b -> a = b.
Proof.
  unfold ProctoringService.cooldown_key. intros H.
  apply append_inj_r in H. apply (append_inj_r "_") in H. exact H.
Qed.

(** The check reads the cooldown window and one entry of the table. *)
Lemma should_create_alert_reads self1 self2 session_id alert_type now :
  ProctoringService.alert_cooldown self1 = ProctoringService.alert_cooldown self2 ->
  ProctoringService.last_alert_times self1
    !! ProctoringService.cooldown_key session_id alert_type
  = ProctoringService.last_alert_times self2
    !! ProctoringService.cooldown_key session_id alert_type ->
  fst (ProctoringService._should_create_alert self1 session_id alert_type now)
  = fst (ProctoringService._should_create_alert self2 session_id alert_type now).
Proof.
  intros Hc Hk. unfold ProctoringService._should_create_alert.
  rewrite Hk, Hc.
  destruct (ProctoringService.last_alert_times self2 !! _); [|reflexivity].
  destruct (Qgeb _ _); reflexivity.
Qed.

(** The check writes at most one entry of the table and nothing else. *)
Lemma should_create_alert_writes self session_id alert_type now :
  let self' :=
    snd (ProctoringService._should_create_alert self session_id alert_type now) in
  (forall k, k <> ProctoringService.cooldown_key session_id alert_type ->
     ProctoringService.last_alert_times self' !! k
     = ProctoringService.last_alert_times self !! k)
  /\ ProctoringService.alert_cooldown self' = ProctoringService.alert_cooldown self
  /\ ProctoringService.gemini_verifier self' = ProctoringService.gemini_verifier self
  /\ ProctoringService.eye_tracker self' = ProctoringService.eye_tracker self
  /\ ProctoringService.audio_analyzer self' = ProctoringService.audio_analyzer self
  /\ ProctoringService.frame_analyzer self' = ProctoringService.frame_analyzer self
  /\ ProctoringService.session_data self' = ProctoringService.session_data self
  /\ ProctoringService.frame_skip_mod self' = ProctoringService.frame_skip_mod self.
Proof.
  unfold ProctoringService._should_create_alert.
  destruct (ProctoringService.last_alert_times self !! _) as [last|];
    [destruct (Qgeb _ _)|]; simpl; repeat split; try reflexivity;
    intros k Hk; apply lookup_insert_ne; congruence.
Qed.

(** The rule itself. *)
Lemma should_create_alert_rule self session_id alert_type now :
  let key := ProctoringService.cooldown_key session_id alert_type in
  let ok :=
    fst (ProctoringService._should_create_alert self session_id alert_type now) in
  let self' :=
    snd (ProctoringService._should_create_alert self session_id alert_type now) in
  (ProctoringService.last_alert_times self !! key = None ->
     ok = true /\ ProctoringService.last_alert_times self' !! key = Some now)
  /\ (forall last,
        ProctoringService.last_alert_times self !! key = Some last ->
        (ok = true
         <-> (inject_Z (ProctoringService.alert_cooldown self) <= now - last)%Q)
        /\ ProctoringService.last_alert_times self' !! key
           = Some (if ok then now else last)).
Proof.
  unfold ProctoringService._should_create_alert. split.
  - intros H. rewrite H. simpl. split; [reflexivity|apply lookup_insert_eq].
  - intros last H. rewrite H.
    destruct (Qgeb _ _) eqn:Hc; simpl; order_facts.
    + split; [tauto|apply lookup_insert_eq].
    + split; [|exact H]. split; [discriminate|]. intros Hle. exfalso. lra.
Qed.
End Cooldown.

Lemma cooldown_key_rev (session_id alert_type : string) :
  String.rev (ProctoringService.cooldown_key session_id alert_type)
  = String.rev alert_type +:+ ("_" +:+ String.rev session_id).
Proof.
  unfold ProctoringService.cooldown_key.
  rewrite !string_rev_app, string_app_assoc. reflexivity.
Qed.

(** For the alert types for which the service asks for a cooldown check,
    the key determines the session and the type. *)
Lemma cooldown_key_pair_inj (s1 s2 t1 t2 : string) :
  In t1 ["black_screen"; "multiple_persons"; "eyes_looking_away";
         "prohibited_object"; "audio_anomaly"] ->
  In t2 ["black_screen"; "multiple_persons"; "eyes_looking_away";
         "prohibited_object"; "audio_anomaly"] ->
  ProctoringService.cooldown_key s1 t1 = ProctoringService.cooldown_key s2 t2 ->
  s1 = s2 /\ t1 = t2.
Proof.
  intros H1 H2 E.
  apply (f_equal String.rev) in E. rewrite !cooldown_key_rev in E.
  cbn [In] in H1, H2.
  destruct H1 as [<-|[<-|[<-|[<-|[<-|[]]]]]];
    destruct H2 as [<-|[<-|[<-|[<-|[<-|[]]]]]];
    vm_compute String.rev in E at 1;
    try (rewrite !string_app_cons in E; discriminate E);
    (split; [|reflexivity]);
    apply append_inj_r in E; apply (append_inj_r "_") in E;
    rewrite <- (string_rev_involutive s1), <- (string_rev_involutive s2), E;
    reflexivity.
Qed.

(** ** ProctoringService: the handling of one violation *)

Section Routing.
Context {Frame : Type}.
Variable settings : Settings.t.
Implicit Types self : ProctoringService.t Frame.

Lemma same_meta_refl (r : Results.t) : same_meta r r.
Proof. repeat split. Qed.

Lemma same_meta_trans (r1 r2 r3 : Results.t) :
  same_meta r1 r2 -> same_meta r2 r3 -> same_meta r1 r3.
Proof.
  unfold same_meta. intros (?&?&?&?&?&?&?&?&?&?) (?&?&?&?&?&?&?&?&?&?).
  repeat split; congruence.
Qed.

Ltac route_lists :=
  rewrite ?app_nil_r;
  split; [reflexivity|]; split; [reflexivity|];
  split; [repeat constructor|]; split; [repeat constructor|];
  first [discriminate | intros _; split; reflexivity].

Ltac route_done :=
  split; [reflexivity|]; split; [unfold same_meta; simpl; repeat split|];
  first [ eexists [_], [_]; solve [route_lists]
        | eexists [_], []; solve [route_lists]
        | exists [], []; solve [route_lists] ].

(** What [route_violation] does to the state, whether it raises or not: one
    cooldown check; at most one violation and one alert appended, of the
    routed type.  When it returns normally, the violation is appended unless
    the check passed, verification is enabled and the verifier did not
    approve; the alert is appended when the check passed and verification is
    disabled or approved. *)
Lemma route_violation_spec session_id alert_type details data tk ai self res :
  let check :=
    ProctoringService._should_create_alert self session_id alert_type
      (ProctoringService.t_check tk) in
  let enable := Settings.ENABLE_AI_VERIFICATION settings in
  let approved := ai_approves settings ai in
  let out :=
    ProctoringService.route_violation settings session_id alert_type details
      data tk ai (self, res) in
  fst (snd out) = snd check
  /\ same_meta res (snd (snd out))
  /\ exists vs al,
      Results.violations (snd (snd out)) = Results.violations res ++ vs
      /\ Results.alerts (snd (snd out)) = Results.alerts res ++ al
      /\ Forall (fun v => Violation.type v = alert_type) vs
      /\ Forall (fun a => Alert.type a = alert_type) al
      /\ (fst out = inr tt ->
          map Violation.type vs
          = (if negb (fst check && enable && negb approved)
             then [alert_type] else [])
          /\ map Alert.type al
            = (if fst check && (negb enable || approved)
               then [alert_type] else [])).
Proof.
  unfold ProctoringService.route_violation, ProctoringService.should_create_alert,
    ai_approves, bind, lift_exc, ProctoringService.on_results, modify.
  simpl.
  destruct (ProctoringService._should_create_alert self session_id alert_type
              (ProctoringService.t_check tk)) as [ok self'].
  destruct details as [e|[sev desc]]; simpl.
  { split; [reflexivity|]. split; [apply same_meta_refl|].
    exists [], []. rewrite !app_nil_r. repeat split; try constructor; discriminate. }
  all: destruct ok, (Settings.ENABLE_AI_VERIFICATION settings); simpl.
  2-4: route_done.
  destruct (getitem ai "verified") as [e|verified]; simpl;
    [|destruct (getitem ai "confidence") as [e|confidence]; simpl;
      [|destruct (getitem ai "reasoning") as [e|reasoning]; simpl;
        [|destruct (truthy verified); simpl;
          [destruct (py_ge confidence _) as [e|[]]; simpl|];
          try (destruct (fmt_float confidence) as [e|[]]; simpl)]]];
    route_done.
Qed.
End Routing.

Section CooldownScenario.
Context {Frame : Type}.
Implicit Types self : ProctoringService.t Frame.

(** Three checks for one key: the first with no prior entry, the second
    inside the window opened by the first, the third outside it. *)
Lemma cooldown_three_checks self session_id alert_type (t1 t2 t3 : Q) :
  ProctoringService.last_alert_times self
    !! ProctoringService.cooldown_key session_id alert_type = None ->
  (t2 - t1 < inject_Z (ProctoringService.alert_cooldown self))%Q ->
  (inject_Z (ProctoringService.alert_cooldown self) <= t3 - t1)%Q ->
  let c1 := ProctoringService._should_create_alert self session_id alert_type t1 in
  let c2 := ProctoringService._should_create_alert (snd c1) session_id alert_type t2 in
  let c3 := ProctoringService._should_create_alert (snd c2) session_id alert_type t3 in
  fst c1 = true /\ fst c2 = false /\ fst c3 = true.
Proof.
  intros Hnone H12 H13 c1 c2 c3.
  destruct (should_create_alert_rule self session_id alert_type t1) as [R1 _].
  destruct (R1 Hnone) as [Hok1 Hlast1]. fold c1 in Hok1, Hlast1.
  destruct (should_create_alert_writes self session_id alert_type t1)
    as (_ & Hcd1 & _). fold c1 in Hcd1.
  destruct (should_create_alert_rule (snd c1) session_id alert_type t2) as [_ R2].
  destruct (R2 t1 Hlast1) as [Hok2 Hlast2]. fold c2 in Hok2, Hlast2.
  rewrite Hcd1 in Hok2.
  assert (Hf2 : fst c2 = false).
  { destruct (fst c2); [|reflexivity]. exfalso.
    assert (inject_Z (ProctoringService.alert_cooldown self) <= t2 - t1)%Q
      by (apply Hok2; reflexivity). lra. }
  rewrite Hf2 in Hlast2.
  destruct (should_create_alert_writes (snd c1) session_id alert_type t2)
    as (_ & Hcd2 & _). fold c2 in Hcd2.
  destruct (should_create_alert_rule (snd c2) session_id alert_type t3) as [_ R3].
  destruct (R3 t1 Hlast2) as [Hok3 _]. fold c3 in Hok3.
  rewrite Hcd2, Hcd1 in Hok3.
  repeat split; [exact Hok1|exact Hf2|apply Hok3; exact H13].
Qed.

(** One handled violation that returned normally, in terms of the types
    recorded: the service is left as the cooldown check leaves it; the
    violation is recorded unless the check passed, verification is enabled
    and the verifier did not approve; the alert is recorded when the check
    passed and verification is disabled or approved. *)
Lemma route_violation_types
    settings session_id alert_type details data tk ai
    (s : ProctoringService.st Frame) :
  let check :=
    ProctoringService._should_create_alert (fst s) session_id alert_type
      (ProctoringService.t_check tk) in
  let enable := Settings.ENABLE_AI_VERIFICATION settings in
  let approved := ai_approves settings ai in
  let out :=
    ProctoringService.route_violation settings session_id alert_type details
      data tk ai s in
  fst out = inr tt ->
  fst (snd out) = snd check
  /\ violation_types (snd (snd out))
     = violation_types (snd s)
       ++ (if negb (fst check && enable && negb approved)
           then [alert_type] else [])
  /\ alert_types (snd (snd out))
     = alert_types (snd s)
       ++ (if fst check && (negb enable || approved) then [alert_type] else []).
Proof.
  destruct s as [self res]. cbv zeta. cbn [fst snd]. intros Hok.
  pose proof (route_violation_spec settings session_id alert_type details data
                tk ai self res) as (Hs & _ & vs & al & Hv & Ha & _ & _ & Hn).
  cbv zeta in Hs, Hv, Ha, Hn. destruct (Hn Hok) as [Hvs Hal].
  split; [exact Hs|]. unfold violation_types, alert_types.
  rewrite Hv, Ha, !map_app, Hvs, Hal. split; reflexivity.
Qed.
End CooldownScenario.

(** C2, as stated, at a fresh service with verification enabled (threshold
    0.7, cooldown window 3) and three frames of session "s1" with two faces,
    at times 10, 11 and 14, on each of which the verifier answers
    [{"confidence": 0.4}]: there is no prior entry for the pair, the second
    frame comes inside the window and the third after it, the violation is
    detected on each frame and no frame ends in an error, yet neither the
    first nor the third violation yields an alert. *)
Lemma rejected_first_violation_yields_no_alert :
  let reply := GeminiViolationVerifier.Text Demo.low_confidence_reply in
  let self : ProctoringService.t Demo.Frame :=
    ProctoringService.init Demo.enabled_settings in
  let frame img now service :=
    ProctoringService.process_frame Demo.gray_mean Demo.ssim Demo.json_loads
      Demo.enabled_settings service (Demo.two_faces_frame img now reply) "s1" in
  let f1 := frame Demo.bright 10%Q self in
  let f2 := frame Demo.bright' 11%Q (snd f1) in
  let f3 := frame Demo.bright 14%Q (snd f2) in
  ProctoringService.last_alert_times self
    !! ProctoringService.cooldown_key "s1" "multiple_persons" = None
  /\ ProctoringService.alert_cooldown self = 3%Z
  /\ detected (Results.face_detection (fst f1)) = true
  /\ detected (Results.face_detection (fst f2)) = true
  /\ detected (Results.face_detection (fst f3)) = true
  /\ Results.error (fst f1) = None
  /\ Results.error (fst f2) = None
  /\ Results.error (fst f3) = None
  /\ alert_types (fst f1) = []
  /\ violation_types (fst f2) = ["multiple_persons"]
  /\ alert_types (fst f2) = []
  /\ alert_types (fst f3) = [].
Proof. vm_compute. repeat split. Qed.

(** C2 (amended).  For every session and alert type, with [key] the pair's
    entry in the cooldown table: a check with no prior entry passes and
    stores the current time; a check with a stored time [last] passes if and
    only if [now - last] is at least the cooldown window, and the stored
    time becomes [now] when it passes and stays [last] when it does not;
    entries of other keys are never touched.  The entry belongs to the pair:
    for the alert types of the service, another pair of session and type
    has another key, so that its entry and the outcome of its check are
    unaffected.  For a pair with no prior entry and three violations of the
    pair whose handling returns, the second inside the window opened by the
    first and the third outside it: the first and the third yield an alert
    exactly when verification is disabled or the verifier approves them, in
    which case they are recorded too, and yield neither alert nor record
    otherwise; the second is recorded without an alert. *)
Theorem cooldown_rule {Frame : Type} (self : ProctoringService.t Frame)
    (session_id alert_type : string) (now : Q) :
  let key := ProctoringService.cooldown_key session_id alert_type in
  let check :=
    ProctoringService._should_create_alert self session_id alert_type now in
  let window := inject_Z (ProctoringService.alert_cooldown self) in
  let types :=
    ["black_screen"; "multiple_persons"; "eyes_looking_away";
     "prohibited_object"; "audio_anomaly"] in
  (ProctoringService.last_alert_times self !! key = None ->
     fst check = true
     /\ ProctoringService.last_alert_times (snd check) !! key = Some now)
  /\ (forall last,
        ProctoringService.last_alert_times self !! key = Some last ->
        (fst check = true <-> (window <= now - last)%Q)
        /\ ProctoringService.last_alert_times (snd check) !! key
           = Some (if fst check then now else last))
  /\ (forall k, k <> key ->
        ProctoringService.last_alert_times (snd check) !! k
        = ProctoringService.last_alert_times self !! k)
  /\ (forall other_session other_type t,
        In alert_type types -> In other_type types ->
        (other_session, other_type) <> (session_id, alert_type) ->
        ProctoringService.cooldown_key other_session other_type <> key
        /\ ProctoringService.last_alert_times (snd check)
             !! ProctoringService.cooldown_key other_session other_type
           = ProctoringService.last_alert_times self
               !! ProctoringService.cooldown_key other_session other_type
        /\ fst (ProctoringService._should_create_alert (snd check)
                  other_session other_type t)
           = fst (ProctoringService._should_create_alert self other_session
                    other_type t))
  /\ (forall settings details1 details2 details3 data1 data2 data3
             ai1 ai2 ai3 tk1 tk2 tk3 res,
        ProctoringService.last_alert_times self !! key = None ->
        (ProctoringService.t_check tk2 - ProctoringService.t_check tk1
         < window)%Q ->
        (window
         <= ProctoringService.t_check tk3 - ProctoringService.t_check tk1)%Q ->
        let route details data tk ai s :=
          ProctoringService.route_violation settings session_id alert_type
            details data tk ai s in
        let o1 := route details1 data1 tk1 ai1 (self, res) in
        let o2 := route details2 data2 tk2 ai2 (snd o1) in
        let o3 := route details3 data3 tk3 ai3 (snd o2) in
        fst o1 = inr tt -> fst o2 = inr tt -> fst o3 = inr tt ->
        let admitted ai :=
          negb (Settings.ENABLE_AI_VERIFICATION settings)
          || ai_approves settings ai in
        alert_types (snd (snd o1))
        = alert_types res ++ (if admitted ai1 then [alert_type] else [])
        /\ violation_types (snd (snd o1))
           = violation_types res
             ++ (if admitted ai1 then [alert_type] else [])
        /\ alert_types (snd (snd o2)) = alert_types (snd (snd o1))
        /\ violation_types (snd (snd o2))
           = violation_types (snd (snd o1)) ++ [alert_type]
        /\ alert_types (snd (snd o3))
           = alert_types (snd (snd o2))
             ++ (if admitted ai3 then [alert_type] else [])
        /\ violation_types (snd (snd o3))
           = violation_types (snd (snd o2))
             ++ (if admitted ai3 then [alert_type] else [])).
Proof.
  intros key check window types.
  destruct (should_create_alert_rule self session_id alert_type now) as [R1 R2].
  destruct (should_create_alert_writes self session_id alert_type now)
    as (W & Wc & _).
  split; [exact R1|]. split; [exact R2|]. split; [exact W|]. split.
  - intros other_session other_type t Hin Hin' Hne.
    assert (Hk : ProctoringService.cooldown_key other_session other_type
                 <> key).
    { intros E.
      destruct (cooldown_key_pair_inj other_session session_id other_type
                  alert_type Hin' Hin E) as [-> ->].
      apply Hne. reflexivity. }
    split; [exact Hk|]. split; [exact (W _ Hk)|].
    apply should_create_alert_reads; [exact Wc | exact (W _ Hk)].
  - intros settings details1 details2 details3 data1 data2 data3 ai1 ai2 ai3
      tk1 tk2 tk3 res Hnone H12 H13 route o1 o2 o3 N1 N2 N3 admitted.
    destruct (cooldown_three_checks self session_id alert_type
                (ProctoringService.t_check tk1) (ProctoringService.t_check tk2)
                (ProctoringService.t_check tk3) Hnone H12 H13)
      as (C1 & C2 & C3).
    cbv zeta in C1, C2, C3.
    destruct (route_violation_types settings session_id alert_type details1
                data1 tk1 ai1 (self, res) N1) as (S1 & V1 & A1).
    fold (route details1 data1 tk1 ai1 (self, res)) in S1, V1, A1.
    fold o1 in S1, V1, A1. cbn [fst snd] in S1, V1, A1.
    destruct (route_violation_types settings session_id alert_type details2
                data2 tk2 ai2 (snd o1) N2) as (S2 & V2 & A2).
    fold (route details2 data2 tk2 ai2 (snd o1)) in S2, V2, A2.
    fold o2 in S2, V2, A2. rewrite S1 in S2, V2, A2.
    destruct (route_violation_types settings session_id alert_type details3
                data3 tk3 ai3 (snd o2) N3) as (S3 & V3 & A3).
    fold (route details3 data3 tk3 ai3 (snd o2)) in S3, V3, A3.
    fold o3 in S3, V3, A3. rewrite S2 in V3, A3.
    rewrite C1 in V1, A1. rewrite C2 in V2, A2. rewrite C3 in V3, A3.
    cbn [andb negb] in V1, A1, V2, A2, V3, A3.
    rewrite app_nil_r in A2.
    unfold admitted.
    assert (Hb : forall e a : bool, negb (e && negb a) = negb e || a)
      by (intros [] []; reflexivity).
    rewrite Hb in V1, V3.
    repeat split; assumption.
Qed.

Lemma cooldown_rule_witness :
  let self : ProctoringService.t Demo.Frame :=
    ProctoringService.init Settings.defaults in
  let route (t : Q) (s : ProctoringService.st Demo.Frame) :=
    ProctoringService.route_violation Settings.defaults "s1"
      "multiple_persons" (inr ("high", [Lit "Detected 2 persons"])) ∅
      (ProctoringService.mk_ticks t t t) ∅ s in
  let res := Results.mk 0 "s1" [] [] ∅ ∅ ∅ ∅ "ok" true None None in
  let o1 := route 10%Q (self, res) in
  let o2 := route 11%Q (snd o1) in
  let o3 := route 14%Q (snd o2) in
  alert_types (snd (snd o1)) = ["multiple_persons"]
  /\ alert_types (snd (snd o2)) = alert_types (snd (snd o1))
  /\ alert_types (snd (snd o3))
     = alert_types (snd (snd o2)) ++ ["multiple_persons"].
Proof.
  intros self route res o1 o2 o3.
  destruct (cooldown_rule self "s1" "multiple_persons" 0%Q)
    as (_ & _ & _ & _ & H).
  destruct (H Settings.defaults
              (inr ("high", [Lit "Detected 2 persons"]))
              (inr ("high", [Lit "Detected 2 persons"]))
              (inr ("high", [Lit "Detected 2 persons"])) ∅ ∅ ∅ ∅ ∅ ∅
              (ProctoringService.mk_ticks 10 10 10)
              (ProctoringService.mk_ticks 11 11 11)
              (ProctoringService.mk_ticks 14 14 14)
              res eq_refl eq_refl ltac:(discriminate) eq_refl eq_refl eq_refl)
    as (A1 & _ & A2 & _ & A3 & _).
  split; [exact A1|]. split; [exact A2 | exact A3].
Defined.

(** ** ProctoringService: sessions share the trackers *)

(** C9, as stated, at a service whose gaze tracker has been calibrated by
    ten frames of session "s1": starting session "s2" does not leave the
    tracker state that serves "s1" unchanged (the calibrated flag is
    cleared), so the four-part statement fails in its first part. *)
Lemma start_session_resets_other_sessions_calibration :
  let calibrated :=
    gaze_run (EyeGazeTracker.init 2)
      (replicate 10
         (Some (EyeGazeTracker.mk_landmarks None (Some (1, 2, 3)%Q)), 0%Q)) in
  let self : ProctoringService.t Demo.Frame :=
    ProctoringService.with_eye_tracker calibrated
      (snd (ProctoringService.start_session
              (ProctoringService.init Settings.defaults) "s1" 0)) in
  let self' := snd (ProctoringService.start_session self "s2" 5) in
  "s1" <> "s2"
  /\ ~ (ProctoringService.eye_tracker self' = ProctoringService.eye_tracker self
        /\ ProctoringService.frame_analyzer self'
           = ProctoringService.frame_analyzer self
        /\ ProctoringService.audio_analyzer self'
           = ProctoringService.audio_analyzer self
        /\ forall alert_type,
             ProctoringService.last_alert_times self'
               !! ProctoringService.cooldown_key "s1" alert_type
             = ProctoringService.last_alert_times self
               !! ProctoringService.cooldown_key "s1" alert_type).
Proof.
  intros calibrated self self'. split; [discriminate|].
  intros [H _]. apply (f_equal EyeGazeTracker.is_calibrated) in H.
  vm_compute in H. discriminate H.
Qed.

(** C9 (amended).  [start_session] of a session [s2] leaves the cooldown
    table as it is, so the cooldown entries of every other session [s1] are
    unchanged, and leaves the session record of [s1] unchanged.  The gaze
    tracker, the frame analyzer and the audio analyzer are single objects of
    the service, shared by all sessions, and [start_session s2] resets each
    of them: calibration and away-duration state, retained frame and frame
    counter, audio history, baseline and anomaly counter. *)
Theorem start_session_effect {Frame : Type} (self : ProctoringService.t Frame)
    (s1 s2 : string) (now : Q) :
  s1 <> s2 ->
  let self' := snd (ProctoringService.start_session self s2 now) in
  ProctoringService.last_alert_times self' = ProctoringService.last_alert_times self
  /\ (forall alert_type,
        ProctoringService.last_alert_times self'
          !! ProctoringService.cooldown_key s1 alert_type
        = ProctoringService.last_alert_times self
          !! ProctoringService.cooldown_key s1 alert_type)
  /\ ProctoringService.session_data self' !! s1
     = ProctoringService.session_data self !! s1
  /\ ProctoringService.eye_tracker self'
     = EyeGazeTracker.reset (ProctoringService.eye_tracker self)
  /\ ProctoringService.frame_analyzer self'
     = FrameAnalyzer.reset (ProctoringService.frame_analyzer self)
  /\ ProctoringService.audio_analyzer self'
     = AudioAnalyzer.reset (ProctoringService.audio_analyzer self)
  /\ EyeGazeTracker.is_calibrated (ProctoringService.eye_tracker self') = false
  /\ EyeGazeTracker.calibration_frames (ProctoringService.eye_tracker self') = []
  /\ EyeGazeTracker.looking_away_start (ProctoringService.eye_tracker self') = None
  /\ FrameAnalyzer.previous_frame (ProctoringService.frame_analyzer self') = None
  /\ FrameAnalyzer.frame_count (ProctoringService.frame_analyzer self') = 0%Z
  /\ AudioAnalyzer.baseline_energy (ProctoringService.audio_analyzer self') = None
  /\ AudioAnalyzer.anomaly_count (ProctoringService.audio_analyzer self') = 0%Z.
Proof.
  intros Hne. simpl. repeat split.
  apply lookup_insert_ne. congruence.
Qed.

Lemma start_session_effect_witness :
  ProctoringService.session_data
    (snd (ProctoringService.start_session
            (snd (ProctoringService.start_session
                    (ProctoringService.init (Frame := Demo.Frame) Settings.defaults)
                    "s1" 0)) "s2" 5)) !! "s1"
  = ProctoringService.session_data
      (snd (ProctoringService.start_session
              (ProctoringService.init (Frame := Demo.Frame) Settings.defaults)
              "s1" 0)) !! "s1".
Proof.
  exact (proj1 (proj2 (proj2
    (start_session_effect
       (snd (ProctoringService.start_session
               (ProctoringService.init (Frame := Demo.Frame) Settings.defaults)
               "s1" 0)) "s1" "s2" 5 ltac:(discriminate))))).
Defined.

(** ** ProctoringService: the blocks of [process_frame] *)

Section Blocks.
Context {Frame : Type}.
Variable gray_mean : Frame -> option Q.
Variable ssim : Frame -> Frame -> option Q.
Variable json_loads : string -> option pyval.
Variable settings : Settings.t.
Implicit Types self : ProctoringService.t Frame.
Implicit Types s : ProctoringService.st Frame.

Lemma getitem_get_or (d : gmap string pyval) k v dflt :
  getitem d k = inr v -> get_or d k dflt = v.
Proof.
  unfold getitem, get_or. destruct (d !! k); simpl; congruence.
Qed.

(** The verdict of [should_process_frame] and the black-screen predicate. *)
Lemma should_process_frame_black (fa : FrameAnalyzer.t Frame) frame skip_mod :
  let out := FrameAnalyzer.should_process_frame gray_mean ssim fa frame skip_mod in
  (FrameAnalyzer.is_black_screen gray_mean fa frame = true ->
     out = ((false, "black_screen"), fa))
  /\ (fst (fst out) = true ->
     FrameAnalyzer.is_black_screen gray_mean (snd out) frame = false).
Proof.
  unfold FrameAnalyzer.should_process_frame.
  destruct (FrameAnalyzer.is_black_screen gray_mean fa frame) eqn:Hb.
  - split; [reflexivity|discriminate].
  - split; [discriminate|].
    destruct (_ && _); [discriminate|].
    unfold FrameAnalyzer.is_duplicate_frame; simpl.
    unfold FrameAnalyzer.is_black_screen in *.
    destruct (FrameAnalyzer.previous_frame fa); simpl;
      [destruct (Qgtb _ _); simpl|]; intros _; try exact Hb; discriminate.
Qed.

(** On a frame that is not black the black-screen block does nothing. *)
Lemma black_screen_block_skip obs session_id s :
  FrameAnalyzer.is_black_screen gray_mean
    (ProctoringService.frame_analyzer (fst s)) (ProctoringService.image obs)
  = false ->
  ProctoringService.black_screen_block gray_mean obs session_id s = (inr tt, s).
Proof.
  intros Hb. unfold ProctoringService.black_screen_block, bind,
    ProctoringService.get_self. simpl. rewrite Hb. reflexivity.
Qed.

(** A step that kept the cooldown table, the window, the verifier and both
    lists has the footprint, provided that nothing was to be routed if it
    returned. *)
Lemma routed_same session_id alert_type tk normal result ai s s' :
  ProctoringService.alert_cooldown (fst s')
  = ProctoringService.alert_cooldown (fst s) ->
  ProctoringService.gemini_verifier (fst s')
  = ProctoringService.gemini_verifier (fst s) ->
  ProctoringService.last_alert_times (fst s')
  = ProctoringService.last_alert_times (fst s) ->
  Results.violations (snd s') = Results.violations (snd s) ->
  Results.alerts (snd s') = Results.alerts (snd s) ->
  (normal = true -> detected result = false) ->
  routed settings session_id alert_type tk normal result ai s s'.
Proof.
  intros Hc Hg Ht Hv Ha Hd. unfold routed. rewrite Hc, Hg, Ht, Hv, Ha.
  repeat split.
  exists [], []. rewrite !app_nil_r. repeat split; try constructor;
    rewrite (Hd H); reflexivity.
Qed.

(** The footprint only looks at the cooldown table, the window, the
    verifier and the two lists of the state before the step. *)
Lemma routed_from session_id alert_type tk normal result ai s1 s s' :
  routed settings session_id alert_type tk normal result ai s1 s' ->
  ProctoringService.alert_cooldown (fst s1)
  = ProctoringService.alert_cooldown (fst s) ->
  ProctoringService.gemini_verifier (fst s1)
  = ProctoringService.gemini_verifier (fst s) ->
  ProctoringService.last_alert_times (fst s1)
  = ProctoringService.last_alert_times (fst s) ->
  Results.violations (snd s1) = Results.violations (snd s) ->
  Results.alerts (snd s1) = Results.alerts (snd s) ->
  routed settings session_id alert_type tk normal result ai s s'.
Proof.
  unfold routed. intros (Rc & Rg & Rt & vs & al & Rv & Ra & Fv & Fa & Rn)
    Hc Hg Ht Hv Ha.
  rewrite <- Hc, <- Hg, <- Ht, <- Hv, <- Ha.
  split; [exact Rc|]. split; [exact Rg|]. split; [exact Rt|].
  exists vs, al. repeat split; try assumption.
  - rewrite <- (should_create_alert_reads (fst s1) (fst s)) by congruence.
    apply Rn. assumption.
  - rewrite <- (should_create_alert_reads (fst s1) (fst s)) by congruence.
    apply Rn. assumption.
Qed.

(** Lifting [route_violation_spec] to the footprint. *)
Lemma route_violation_routed session_id alert_type details data tk ai result self res :
  detected result = true ->
  let out :=
    ProctoringService.route_violation settings session_id alert_type details
      data tk ai (self, res) in
  routed settings session_id alert_type tk (returned (fst out)) result ai
    (self, res) (snd out)
  /\ same_meta res (snd (snd out)).
Proof.
  intros Hd out.
  pose proof (route_violation_spec settings session_id alert_type details data tk
                ai self res) as (Hs & Hm & vs & al & Hv & Ha & Fv & Fa & Hok).
  fold out in Hs, Hm, Hv, Ha, Hok.
  split; [|exact Hm].
  destruct (should_create_alert_writes self session_id alert_type
              (ProctoringService.t_check tk)) as (W & Wc & Wg & _).
  unfold routed. simpl fst. rewrite Hs.
  split; [exact Wc|]. split; [exact Wg|]. split; [exact W|].
  exists vs, al. split; [exact Hv|]. split; [exact Ha|].
  split; [exact Fv|]. split; [exact Fa|].
  intros Hr. rewrite Hd; simpl. apply Hok.
  destruct (fst out) as [e|[]]; [discriminate|reflexivity].
Qed.
Lemma detected_getitem (d : gmap string pyval) v :
  getitem d "violation" = inr v -> detected d = truthy v.
Proof.
  intros H. unfold detected. rewrite (getitem_get_or _ _ _ _ H). reflexivity.
Qed.

(** The multiple-persons block. *)
Lemma face_block_spec obs session_id self res :
  let out :=
    ProctoringService.face_block json_loads settings obs session_id (self, res) in
  let r' := snd (snd out) in
  routed settings session_id "multiple_persons" (ProctoringService.tk_persons obs)
    (returned (fst out)) (Results.face_detection r')
    (GeminiViolationVerifier.verify_multiple_persons_violation json_loads
       (ProctoringService.gemini_verifier self)
       (ProctoringService.reply_persons obs) (Results.face_detection r'))
    (self, res) (snd out)
  /\ Results.eye_tracking r' = Results.eye_tracking res
  /\ Results.object_detection r' = Results.object_detection res
  /\ Results.status r' = Results.status res
  /\ Results.skip_reason r' = Results.skip_reason res.
Proof.
  unfold ProctoringService.face_block, bind, ProctoringService.get_self,
    lift_exc, ProctoringService.on_results, modify, when, ret.
  simpl.
  destruct (ProctoringService.detections obs) as [d|]; simpl.
  2: { split; [|repeat split]. apply routed_same; try reflexivity. discriminate. }
  generalize (FaceDetector.check_multiple_faces d
                (Settings.MAX_FACES_ALLOWED settings)) as fr; intros fr.
  destruct (getitem fr "violation") as [e|v] eqn:Hv; simpl.
  { split; [|repeat split]. apply routed_same; try reflexivity. discriminate. }
  pose proof (detected_getitem fr v Hv) as Hd.
  destruct (truthy v) eqn:Ht; simpl.
  - match goal with
    | |- context [ProctoringService.route_violation ?a ?b ?c ?dd ?e ?f ?g ?st] =>
        pose proof (route_violation_routed b c dd e f g fr
                      self (Results.set_face_detection fr res) Hd) as [R M];
        destruct (ProctoringService.route_violation a b c dd e f g st)
          as [[e'|[]] [self' res']]
    end; simpl in *;
      destruct M as (_ & _ & Mf & Me & Mo & _ & Ms & _ & Mk & _);
      simpl in Mf, Me, Mo, Ms, Mk; rewrite Mf;
      (split; [exact R|repeat split; assumption]).
  - split; [|repeat split]. simpl.
    apply routed_same; try reflexivity. intros _. exact Hd.
Qed.
(** The eye-gaze block. *)
Lemma gaze_block_spec obs session_id face_result self res :
  detected (Results.eye_tracking res) = false ->
  let out :=
    ProctoringService.gaze_block json_loads settings obs session_id face_result
      (self, res) in
  let r' := snd (snd out) in
  routed settings session_id "eyes_looking_away" (ProctoringService.tk_eyes obs)
    (returned (fst out)) (Results.eye_tracking r')
    (GeminiViolationVerifier.verify_eye_tracking_violation json_loads
       (ProctoringService.gemini_verifier self)
       (ProctoringService.reply_eyes obs) (Results.eye_tracking r'))
    (self, res) (snd out)
  /\ Results.face_detection r' = Results.face_detection res
  /\ Results.object_detection r' = Results.object_detection res
  /\ Results.status r' = Results.status res
  /\ Results.skip_reason r' = Results.skip_reason res.
Proof.
  intros Hno.
  unfold ProctoringService.gaze_block, bind, ProctoringService.get_self,
    lift_exc, ProctoringService.on_results, modify, when, ret.
  simpl.
  destruct (getitem face_result "num_faces") as [e|n]; simpl.
  { split; [|repeat split]. apply routed_same; try reflexivity. discriminate. }
  destruct (py_ge n 1) as [e|[]]; simpl.
  { split; [|repeat split]. apply routed_same; try reflexivity. discriminate. }
  2: { split; [|repeat split]. apply routed_same; try reflexivity.
       intros _. exact Hno. }
  destruct (ProctoringService.mesh obs) as [m|]; simpl.
  2: { split; [|repeat split]. apply routed_same; try reflexivity. discriminate. }
  destruct (EyeGazeTracker.track_gaze (ProctoringService.eye_tracker self) m
              (ProctoringService.t_gaze obs)) as [g et]; simpl.
  destruct (fmt_float (get_or g "duration" (PyNum 0))) as [e|[]]; simpl.
  { split; [|repeat split]. apply routed_same; try reflexivity. discriminate. }
  destruct (getitem g "violation") as [e|v] eqn:Hv; simpl.
  { split; [|repeat split]. apply routed_same; try reflexivity. discriminate. }
  pose proof (detected_getitem g v Hv) as Hd.
  destruct (truthy v) eqn:Ht; simpl.
  - match goal with
    | |- context [ProctoringService.route_violation ?a ?b ?c ?dd ?e ?f ?g0 ?st] =>
        pose proof (route_violation_routed b c dd e f g0 g
                      (ProctoringService.with_eye_tracker et self)
                      (Results.set_eye_tracking g res) Hd) as [R M];
        destruct (ProctoringService.route_violation a b c dd e f g0 st)
          as [[e'|[]] [self' res']]
    end; simpl in *;
      destruct M as (_ & _ & Mf & Me & Mo & _ & Ms & _ & Mk & _);
      simpl in Mf, Me, Mo, Ms, Mk; rewrite Me;
      (split; [|repeat split; assumption]);
      apply (routed_from _ _ _ _ _ _ _ _ _ R); reflexivity.
  - split; [|repeat split]. simpl.
    apply routed_same; try reflexivity. intros _. exact Hd.
Qed.

(** The prohibited-object block. *)
Lemma object_block_spec obs session_id self res :
  let out :=
    ProctoringService.object_block json_loads settings obs session_id (self, res) in
  let r' := snd (snd out) in
  routed settings session_id "prohibited_object" (ProctoringService.tk_objects obs)
    (returned (fst out)) (Results.object_detection r')
    (GeminiViolationVerifier.verify_object_detection_violation json_loads
       (ProctoringService.gemini_verifier self)
       (ProctoringService.reply_objects obs) (Results.object_detection r'))
    (self, res) (snd out)
  /\ Results.face_detection r' = Results.face_detection res
  /\ Results.eye_tracking r' = Results.eye_tracking res
  /\ Results.status r' = Results.status res
  /\ Results.skip_reason r' = Results.skip_reason res.
Proof.
  unfold ProctoringService.object_block, bind, ProctoringService.get_self,
    lift_exc, ProctoringService.on_results, modify, when, ret.
  simpl.
  destruct (ProctoringService.boxes obs) as [b|]; simpl.
  2: { split; [|repeat split]. apply routed_same; try reflexivity. discriminate. }
  generalize (ObjectDetector.check_prohibited_objects b) as o; intros o.
  destruct (getitem o "violation") as [e|v] eqn:Hv; simpl.
  { split; [|repeat split]. apply routed_same; try reflexivity. discriminate. }
  pose proof (detected_getitem o v Hv) as Hd.
  destruct (truthy v) eqn:Ht; simpl.
  - match goal with
    | |- context [ProctoringService.route_violation ?a ?b ?c ?dd ?e ?f ?g ?st] =>
        pose proof (route_violation_routed b c dd e f g o
                      self (Results.set_object_detection o res) Hd) as [R M];
        destruct (ProctoringService.route_violation a b c dd e f g st)
          as [[e'|[]] [self' res']]
    end; simpl in *;
      destruct M as (_ & _ & Mf & Me & Mo & _ & Ms & _ & Mk & _);
      simpl in Mf, Me, Mo, Ms, Mk; rewrite Mo;
      (split; [exact R|repeat split; assumption]).
  - split; [|repeat split]. simpl.
    apply routed_same; try reflexivity. intros _. exact Hd.
Qed.
End Blocks.

(** ** ProctoringService: a whole frame *)

Section Pipeline.
Context {Frame : Type}.
Variable gray_mean : Frame -> option Q.
Variable ssim : Frame -> Frame -> option Q.
Variable json_loads : string -> option pyval.
Variable settings : Settings.t.
Implicit Types self : ProctoringService.t Frame.

Lemma routed_weaken session_id alert_type tk normal result ai
    (s s' : ProctoringService.st Frame) :
  routed settings session_id alert_type tk normal result ai s s' ->
  routed settings session_id alert_type tk false result ai s s'.
Proof.
  unfold routed. intros (Rc & Rg & Rt & vs & al & Rv & Ra & Fv & Fa & _).
  repeat split; try assumption. exists vs, al. repeat split; try assumption; discriminate.
Qed.

(** A frame that [should_process_frame] admits runs the three detector blocks
    in order;
    each leaves its footprint, up to the block that raises, if any. *)
Lemma process_frame_routed self obs session_id :
  let out :=
    ProctoringService.process_frame gray_mean ssim json_loads settings self obs
      session_id in
  let r := fst out in
  let res0 :=
    Results.mk (ProctoringService.ts_result obs) session_id [] [] ∅ ∅ ∅ ∅ "ok"
      true None None in
  let G := ProctoringService.gemini_verifier self in
  Results.skip_reason r = None ->
  exists (n : bool) (s1 s2 s3 : ProctoringService.st Frame),
    routed settings session_id "multiple_persons"
      (ProctoringService.tk_persons obs) n (Results.face_detection r)
      (GeminiViolationVerifier.verify_multiple_persons_violation json_loads G
         (ProctoringService.reply_persons obs) (Results.face_detection r))
      (self, res0) s1
    /\ routed settings session_id "eyes_looking_away"
      (ProctoringService.tk_eyes obs) n (Results.eye_tracking r)
      (GeminiViolationVerifier.verify_eye_tracking_violation json_loads G
         (ProctoringService.reply_eyes obs) (Results.eye_tracking r))
      s1 s2
    /\ routed settings session_id "prohibited_object"
      (ProctoringService.tk_objects obs) n (Results.object_detection r)
      (GeminiViolationVerifier.verify_object_detection_violation json_loads G
         (ProctoringService.reply_objects obs) (Results.object_detection r))
      s2 s3
    /\ Results.violations r = Results.violations (snd s3)
    /\ Results.alerts r = Results.alerts (snd s3)
    /\ (Results.error r = None -> n = true).
Proof.
  cbv beta delta [ProctoringService.process_frame
                    ProctoringService.process_frame_body bind] zeta.
  pose proof (should_process_frame_black gray_mean ssim
                (ProctoringService.frame_analyzer self)
                (ProctoringService.image obs)
                (ProctoringService.frame_skip_mod self)) as [_ Hb].
  cbn [fst snd].
  destruct (FrameAnalyzer.should_process_frame gray_mean ssim
              (ProctoringService.frame_analyzer self)
              (ProctoringService.image obs)
              (ProctoringService.frame_skip_mod self)) as [[sp reason] fa].
  cbn [fst snd] in Hb |- *.
  destruct sp; cbn [negb].
  2: { cbn. discriminate. }
  rewrite (black_screen_block_skip gray_mean) by (apply Hb; reflexivity).
  match goal with
  | |- context [ProctoringService.face_block _ _ _ _ (?sv, ?r0)] =>
      set (res0 := r0); set (self0 := sv)
  end.
  assert (Hg0 : ProctoringService.gemini_verifier self0
                = ProctoringService.gemini_verifier self) by reflexivity.
  pose proof (face_block_spec json_loads settings obs session_id self0 res0)
    as (F & Fe & Fo & Fs & Fk).
  destruct (ProctoringService.face_block json_loads settings obs session_id
              (self0, res0)) as [[e|fr] [self1 res1]];
    cbn [fst snd returned] in F, Fe, Fo, Fs, Fk.
  { cbn. intros _.
    exists false, (self1, res1), (self1, res1), (self1, res1).
    split; [apply (routed_from _ _ _ _ _ _ _ _ _ _ F); reflexivity|].
    split; [apply routed_same; try reflexivity; discriminate|].
    split; [apply routed_same; try reflexivity; discriminate|].
    repeat split; discriminate. }
  assert (Hg1 : ProctoringService.gemini_verifier self1
                = ProctoringService.gemini_verifier self).
  { destruct F as (_ & Hg & _). exact Hg. }
  assert (Hno : detected (Results.eye_tracking res1) = false)
    by (rewrite Fe; reflexivity).
  pose proof (gaze_block_spec json_loads settings obs session_id fr self1 res1 Hno)
    as (E & Ef & Eo & Es & Ek).
  destruct (ProctoringService.gaze_block json_loads settings obs session_id fr
              (self1, res1)) as [[e|[]] [self2 res2]];
    cbn [fst snd returned] in E, Ef, Eo, Es, Ek.
  { cbn. intros _. rewrite Ef.
    exists false, (self1, res1), (self2, res2), (self2, res2).
    split; [apply (routed_weaken _ _ _ true), (routed_from _ _ _ _ _ _ _ _ _ _ F); reflexivity|].
    split; [rewrite <- Hg1; exact E|].
    split; [apply routed_same; try reflexivity; discriminate|].
    repeat split; discriminate. }
  assert (Hg2 : ProctoringService.gemini_verifier self2
                = ProctoringService.gemini_verifier self).
  { destruct E as (_ & Hg & _). simpl in Hg. congruence. }
  pose proof (object_block_spec json_loads settings obs session_id self2 res2)
    as (O & Of & Oe & Os & Ok).
  destruct (ProctoringService.object_block json_loads settings obs session_id
              (self2, res2)) as [[e|[]] [self3 res3]];
    cbn [fst snd returned] in O, Of, Oe, Os, Ok.
  { cbn. intros _. rewrite Of, Ef, Oe.
    exists false, (self1, res1), (self2, res2), (self3, res3).
    split; [apply (routed_weaken _ _ _ true), (routed_from _ _ _ _ _ _ _ _ _ _ F); reflexivity|].
    split; [apply (routed_weaken _ _ _ true); rewrite <- Hg1; exact E|].
    split; [rewrite <- Hg2; exact O|].
    repeat split; discriminate. }
  unfold ProctoringService.get_results, when, ProctoringService.on_results,
    modify, ret. cbn [fst snd].
  destruct (negb (length (Results.violations res3) =? 0)); cbn; intros _;
    rewrite Of, Ef, Oe;
    exists true, (self1, res1), (self2, res2), (self3, res3);
    (split; [apply (routed_from _ _ _ _ _ _ _ _ _ _ F); reflexivity|]);
    (split; [rewrite <- Hg1; exact E|]);
    (split; [rewrite <- Hg2; exact O|]);
    repeat split.
Qed.
(** [should_process_frame] decides whether the result is a skip record. *)
Lemma process_frame_gate self obs session_id :
  let gate :=
    FrameAnalyzer.should_process_frame gray_mean ssim
      (ProctoringService.frame_analyzer self) (ProctoringService.image obs)
      (ProctoringService.frame_skip_mod self) in
  let out :=
    ProctoringService.process_frame gray_mean ssim json_loads settings self obs
      session_id in
  let res0 :=
    Results.mk (ProctoringService.ts_result obs) session_id [] [] ∅ ∅ ∅ ∅ "ok"
      true None None in
  (fst (fst gate) = false ->
     fst out = Results.set_skipped (snd (fst gate)) res0
     /\ snd out = ProctoringService.with_frame_analyzer (snd gate) self)
  /\ (fst (fst gate) = true -> Results.skip_reason (fst out) = None).
Proof.
  cbv beta delta [ProctoringService.process_frame
                    ProctoringService.process_frame_body bind] zeta.
  pose proof (should_process_frame_black gray_mean ssim
                (ProctoringService.frame_analyzer self)
                (ProctoringService.image obs)
                (ProctoringService.frame_skip_mod self)) as [_ Hb].
  cbn [fst snd].
  destruct (FrameAnalyzer.should_process_frame gray_mean ssim
              (ProctoringService.frame_analyzer self)
              (ProctoringService.image obs)
              (ProctoringService.frame_skip_mod self)) as [[sp reason] fa].
  cbn [fst snd] in Hb |- *.
  destruct sp; cbn [negb].
  2: { split; [intros _; split; reflexivity|discriminate]. }
  split; [discriminate|intros _].
  rewrite (black_screen_block_skip gray_mean) by (apply Hb; reflexivity).
  match goal with
  | |- context [ProctoringService.face_block _ _ _ _ (?sv, ?r0)] =>
      set (res0 := r0); set (self0 := sv)
  end.
  pose proof (face_block_spec json_loads settings obs session_id self0 res0)
    as (_ & Fe & _ & _ & Fk).
  destruct (ProctoringService.face_block json_loads settings obs session_id
              (self0, res0)) as [[e|fr] [self1 res1]];
    cbn [fst snd returned] in Fe, Fk; [exact Fk|].
  assert (Hno : detected (Results.eye_tracking res1) = false)
    by (rewrite Fe; reflexivity).
  unfold res0 in Fk; cbn in Fk.
  pose proof (gaze_block_spec json_loads settings obs session_id fr self1 res1 Hno)
    as (_ & _ & _ & _ & Ek).
  destruct (ProctoringService.gaze_block json_loads settings obs session_id fr
              (self1, res1)) as [[e|[]] [self2 res2]];
    cbn [fst snd returned] in Ek; [cbn; congruence|].
  pose proof (object_block_spec json_loads settings obs session_id self2 res2)
    as (_ & _ & _ & _ & Ok).
  destruct (ProctoringService.object_block json_loads settings obs session_id
              (self2, res2)) as [[e|[]] [self3 res3]];
    cbn [fst snd returned] in Ok; [cbn; congruence|].
  unfold ProctoringService.get_results, when, ProctoringService.on_results,
    modify, ret. cbn [fst snd].
  destruct (negb (length (Results.violations res3) =? 0)); cbn; congruence.
Qed.

(** Whatever happens to a frame, the violations and alerts of its result
    have one of the three types routed by the detector blocks. *)
Lemma process_frame_types self obs session_id :
  let r :=
    fst (ProctoringService.process_frame gray_mean ssim json_loads settings self
           obs session_id) in
  let routed_type ty :=
    ty = "multiple_persons" \/ ty = "eyes_looking_away"
    \/ ty = "prohibited_object" in
  Forall routed_type (violation_types r) /\ Forall routed_type (alert_types r).
Proof.
  intros r routed_type.
  destruct (process_frame_gate self obs session_id) as [Hskip Hrun].
  destruct (fst (fst (FrameAnalyzer.should_process_frame gray_mean ssim
                        (ProctoringService.frame_analyzer self)
                        (ProctoringService.image obs)
                        (ProctoringService.frame_skip_mod self)))).
  2: { destruct (Hskip eq_refl) as [Hr _]. unfold r. rewrite Hr.
       split; constructor. }
  destruct (process_frame_routed self obs session_id (Hrun eq_refl))
    as (n & s1 & s2 & s3 & R1 & R2 & R3 & Hv & Ha & _).
  destruct R1 as (_ & _ & _ & vs1 & al1 & V1 & A1 & Fv1 & Fa1 & _).
  destruct R2 as (_ & _ & _ & vs2 & al2 & V2 & A2 & Fv2 & Fa2 & _).
  destruct R3 as (_ & _ & _ & vs3 & al3 & V3 & A3 & Fv3 & Fa3 & _).
  unfold violation_types, alert_types. fold r in Hv, Ha.
  rewrite Hv, Ha, V3, A3, V2, A2, V1, A1. simpl.
  rewrite !map_app, !Forall_app, !Forall_fmap.
  unfold routed_type.
  repeat split;
    (eapply Forall_impl; [eassumption|]); simpl; intros ? ->; auto.
Qed.
(** A frame processed without exception: which violations are recorded and
    which become alerts, by type and in pipeline order.  The cooldown check
    of each type is the one on the service as it was before the frame. *)
Lemma process_frame_lists self obs session_id :
  let r :=
    fst (ProctoringService.process_frame gray_mean ssim json_loads settings self
           obs session_id) in
  Results.error r = None ->
  Results.skip_reason r = None ->
  let enable := Settings.ENABLE_AI_VERIFICATION settings in
  let G := ProctoringService.gemini_verifier self in
  let pass ty tk :=
    fst (ProctoringService._should_create_alert self session_id ty
           (ProctoringService.t_check tk)) in
  let pass_p := pass "multiple_persons" (ProctoringService.tk_persons obs) in
  let pass_e := pass "eyes_looking_away" (ProctoringService.tk_eyes obs) in
  let pass_o := pass "prohibited_object" (ProctoringService.tk_objects obs) in
  let ok_p :=
    ai_approves settings
      (GeminiViolationVerifier.verify_multiple_persons_violation json_loads G
         (ProctoringService.reply_persons obs) (Results.face_detection r)) in
  let ok_e :=
    ai_approves settings
      (GeminiViolationVerifier.verify_eye_tracking_violation json_loads G
         (ProctoringService.reply_eyes obs) (Results.eye_tracking r)) in
  let ok_o :=
    ai_approves settings
      (GeminiViolationVerifier.verify_object_detection_violation json_loads G
         (ProctoringService.reply_objects obs) (Results.object_detection r)) in
  violation_types r
  = (if detected (Results.face_detection r)
        && negb (pass_p && enable && negb ok_p)
     then ["multiple_persons"] else [])
    ++ (if detected (Results.eye_tracking r)
           && negb (pass_e && enable && negb ok_e)
        then ["eyes_looking_away"] else [])
    ++ (if detected (Results.object_detection r)
           && negb (pass_o && enable && negb ok_o)
        then ["prohibited_object"] else [])
  /\ alert_types r
    = (if detected (Results.face_detection r)
          && (pass_p && (negb enable || ok_p))
       then ["multiple_persons"] else [])
      ++ (if detected (Results.eye_tracking r)
             && (pass_e && (negb enable || ok_e))
          then ["eyes_looking_away"] else [])
      ++ (if detected (Results.object_detection r)
             && (pass_o && (negb enable || ok_o))
          then ["prohibited_object"] else []).
Proof.
  intros r Herr Hskip enable G pass pass_p pass_e pass_o ok_p ok_e ok_o.
  destruct (process_frame_routed self obs session_id Hskip)
    as (n & s1 & s2 & s3 & R1 & R2 & R3 & Hv & Ha & Hn).
  fold r in R1, R2, R3, Hv, Ha, Hn. rewrite (Hn Herr) in R1, R2, R3.
  destruct R1 as (C1 & _ & T1 & vs1 & al1 & V1 & A1 & _ & _ & N1).
  destruct R2 as (C2 & _ & T2 & vs2 & al2 & V2 & A2 & _ & _ & N2).
  destruct R3 as (_ & _ & _ & vs3 & al3 & V3 & A3 & _ & _ & N3).
  destruct (N1 eq_refl) as [Nv1 Na1].
  destruct (N2 eq_refl) as [Nv2 Na2].
  destruct (N3 eq_refl) as [Nv3 Na3].
  cbn [fst snd] in *.
  assert (P2 :
    fst (ProctoringService._should_create_alert (fst s1) session_id
           "eyes_looking_away" (ProctoringService.t_check (ProctoringService.tk_eyes obs)))
    = pass_e).
  { apply should_create_alert_reads; [exact C1|]. apply T1.
    intros K. apply cooldown_key_inj in K. discriminate K. }
  assert (P3 :
    fst (ProctoringService._should_create_alert (fst s2) session_id
           "prohibited_object"
           (ProctoringService.t_check (ProctoringService.tk_objects obs)))
    = pass_o).
  { apply should_create_alert_reads; [congruence|].
    rewrite T2 by (intros K; apply cooldown_key_inj in K; discriminate K).
    apply T1. intros K. apply cooldown_key_inj in K. discriminate K. }
  rewrite P2 in Nv2, Na2. rewrite P3 in Nv3, Na3.
  fold G in Nv1, Na1, Nv2, Na2, Nv3, Na3.
  fold ok_p in Nv1, Na1. fold ok_e in Nv2, Na2. fold ok_o in Nv3, Na3.
  fold enable in Nv1, Na1, Nv2, Na2, Nv3, Na3.
  fold (pass "multiple_persons" (ProctoringService.tk_persons obs)) in Nv1, Na1.
  fold pass_p in Nv1, Na1.
  unfold violation_types, alert_types.
  rewrite Hv, Ha, V3, A3, V2, A2, V1, A1. simpl.
  rewrite !map_app, Nv1, Na1, Nv2, Na2, Nv3, Na3, <- !app_assoc.
  split; reflexivity.
Qed.
End Pipeline.

(** C10.  On a frame for which the black-screen predicate holds,
    [process_frame] returns the skip record: status "skipped", skip reason
    "black_screen", no violation, no alert, and the service is left as it
    was.  Whenever [should_process_frame] admits a frame, the black-screen
    block of the
    pipeline finds the predicate false and does nothing, so that branch is
    dead code; and no result of [process_frame], on any frame and on any
    path, carries a violation or an alert of type "black_screen". *)
Theorem black_frames_never_reach_the_pipeline {Frame : Type}
    (gray_mean : Frame -> option Q) (ssim : Frame -> Frame -> option Q)
    (json_loads : string -> option pyval) (settings : Settings.t)
    (self : ProctoringService.t Frame) (obs : ProctoringService.observation Frame)
    (session_id : string) :
  let out :=
    ProctoringService.process_frame gray_mean ssim json_loads settings self obs
      session_id in
  let r := fst out in
  let gate :=
    FrameAnalyzer.should_process_frame gray_mean ssim
      (ProctoringService.frame_analyzer self) (ProctoringService.image obs)
      (ProctoringService.frame_skip_mod self) in
  (FrameAnalyzer.is_black_screen gray_mean (ProctoringService.frame_analyzer self)
     (ProctoringService.image obs) = true ->
   Results.status r = "skipped"
   /\ Results.skip_reason r = Some "black_screen"
   /\ Results.frame_processed r = false
   /\ Results.violations r = []
   /\ Results.alerts r = []
   /\ snd out = self)
  /\ (fst (fst gate) = true ->
      forall res,
        ProctoringService.black_screen_block gray_mean obs session_id
          (ProctoringService.with_frame_analyzer (snd gate) self, res)
        = (inr tt, (ProctoringService.with_frame_analyzer (snd gate) self, res)))
  /\ ~ In "black_screen" (violation_types r)
  /\ ~ In "black_screen" (alert_types r).
Proof.
  intros out r gate.
  destruct (should_process_frame_black gray_mean ssim
              (ProctoringService.frame_analyzer self)
              (ProctoringService.image obs)
              (ProctoringService.frame_skip_mod self)) as [Hblack Hadmit].
  fold gate in Hblack, Hadmit.
  destruct (process_frame_gate gray_mean ssim json_loads settings self obs
              session_id) as [Hskip _].
  fold gate out in Hskip.
  split; [|split].
  - intros Hb. specialize (Hblack Hb). rewrite Hblack in Hskip.
    destruct (Hskip eq_refl) as [Hr Hs]. unfold r. rewrite Hr, Hs.
    repeat split. destruct self; reflexivity.
  - intros Hg res. apply black_screen_block_skip. apply Hadmit. exact Hg.
  - destruct (process_frame_types gray_mean ssim json_loads settings self obs
                session_id) as [Hv Ha].
    fold out r in Hv, Ha. rewrite Forall_forall in Hv, Ha.
    split; intros Hin; apply (proj2 (list_elem_of_In _ _)) in Hin.
    + destruct (Hv _ Hin) as [H|[H|H]]; discriminate H.
    + destruct (Ha _ Hin) as [H|[H|H]]; discriminate H.
Qed.

(** ** ProctoringService: verification and the violation list *)

(** C1, as stated, at a fresh service with verification enabled (threshold
    0.7) and a frame with two faces, on which the verifier answers
    [{"confidence": 0.4}]: the violation is detected and the verifier's
    answer is confirmed with confidence 0.4, the frame is processed without
    error, no alert is produced, but the violation list does not grow: it is
    empty. *)
Lemma rejected_violation_is_not_recorded :
  let reply := GeminiViolationVerifier.Text Demo.low_confidence_reply in
  let self : ProctoringService.t Demo.Frame :=
    ProctoringService.init Demo.enabled_settings in
  let r :=
    fst (ProctoringService.process_frame Demo.gray_mean Demo.ssim Demo.json_loads
           Demo.enabled_settings self
           (Demo.two_faces_frame Demo.bright 100 reply) "s1") in
  let ai :=
    GeminiViolationVerifier.verify_multiple_persons_violation Demo.json_loads
      (ProctoringService.gemini_verifier self) reply (Results.face_detection r) in
  Results.status r = "ok"
  /\ detected (Results.face_detection r) = true
  /\ ai !! "verified" = Some (PyBool true)
  /\ ai !! "confidence" = Some (PyNum (4 # 10))
  /\ alert_types r = []
  /\ ~ (length (Results.violations r) = 1%nat).
Proof. vm_compute. repeat split. discriminate. Qed.

(** C1 (amended).  For a frame processed without skip and without error, and
    each of the types multiple_persons, eyes_looking_away and
    prohibited_object whose detector reports a violation: the violation is
    appended to the violation list unless its cooldown check passed,
    verification is enabled and the verifier did not approve it (confirmed
    with confidence at least the threshold); in that one case nothing is
    recorded for it.  An alert is appended exactly when the cooldown check
    passed and verification is disabled or approved.  In particular, with
    verification enabled and a verifier that never approves, a frame yields
    no alert, and records exactly the detected violations whose cooldown
    check failed. *)
Theorem violations_recorded_unless_rejected {Frame : Type}
    (gray_mean : Frame -> option Q) (ssim : Frame -> Frame -> option Q)
    (json_loads : string -> option pyval) (settings : Settings.t)
    (self : ProctoringService.t Frame) (obs : ProctoringService.observation Frame)
    (session_id : string) :
  let r :=
    fst (ProctoringService.process_frame gray_mean ssim json_loads settings self
           obs session_id) in
  Results.error r = None ->
  Results.skip_reason r = None ->
  let enable := Settings.ENABLE_AI_VERIFICATION settings in
  let G := ProctoringService.gemini_verifier self in
  let pass ty tk :=
    fst (ProctoringService._should_create_alert self session_id ty
           (ProctoringService.t_check tk)) in
  let pass_p := pass "multiple_persons" (ProctoringService.tk_persons obs) in
  let pass_e := pass "eyes_looking_away" (ProctoringService.tk_eyes obs) in
  let pass_o := pass "prohibited_object" (ProctoringService.tk_objects obs) in
  let det_p := detected (Results.face_detection r) in
  let det_e := detected (Results.eye_tracking r) in
  let det_o := detected (Results.object_detection r) in
  let ok_p :=
    ai_approves settings
      (GeminiViolationVerifier.verify_multiple_persons_violation json_loads G
         (ProctoringService.reply_persons obs) (Results.face_detection r)) in
  let ok_e :=
    ai_approves settings
      (GeminiViolationVerifier.verify_eye_tracking_violation json_loads G
         (ProctoringService.reply_eyes obs) (Results.eye_tracking r)) in
  let ok_o :=
    ai_approves settings
      (GeminiViolationVerifier.verify_object_detection_violation json_loads G
         (ProctoringService.reply_objects obs) (Results.object_detection r)) in
  violation_types r
  = (if det_p && negb (pass_p && enable && negb ok_p)
     then ["multiple_persons"] else [])
    ++ (if det_e && negb (pass_e && enable && negb ok_e)
        then ["eyes_looking_away"] else [])
    ++ (if det_o && negb (pass_o && enable && negb ok_o)
        then ["prohibited_object"] else [])
  /\ alert_types r
    = (if det_p && (pass_p && (negb enable || ok_p))
       then ["multiple_persons"] else [])
      ++ (if det_e && (pass_e && (negb enable || ok_e))
          then ["eyes_looking_away"] else [])
      ++ (if det_o && (pass_o && (negb enable || ok_o))
          then ["prohibited_object"] else [])
  /\ (enable = true -> ok_p = false -> ok_e = false -> ok_o = false ->
      alert_types r = []
      /\ violation_types r
         = (if det_p && negb pass_p then ["multiple_persons"] else [])
           ++ (if det_e && negb pass_e then ["eyes_looking_away"] else [])
           ++ (if det_o && negb pass_o then ["prohibited_object"] else [])).
Proof.
  intros r Herr Hskip enable G pass pass_p pass_e pass_o det_p det_e det_o
    ok_p ok_e ok_o.
  destruct (process_frame_lists gray_mean ssim json_loads settings self obs
              session_id Herr Hskip) as [Hv Ha].
  fold r enable G in Hv, Ha.
  split; [exact Hv|]. split; [exact Ha|].
  intros He Hp Hg Ho.
  unfold violation_types, alert_types in *.
  rewrite Hv, Ha.
  fold pass_p pass_e pass_o det_p det_e det_o ok_p ok_e ok_o.
  rewrite He, Hp, Hg, Ho. simpl.
  rewrite !andb_true_r, !andb_false_r. split; reflexivity.
Qed.

Lemma violations_recorded_unless_rejected_witness :
  let reply := GeminiViolationVerifier.Text Demo.low_confidence_reply in
  let self : ProctoringService.t Demo.Frame :=
    snd (ProctoringService.process_frame Demo.gray_mean Demo.ssim Demo.json_loads
           Demo.enabled_settings (ProctoringService.init Demo.enabled_settings)
           (Demo.two_faces_frame Demo.bright 100 reply) "s1") in
  let r :=
    fst (ProctoringService.process_frame Demo.gray_mean Demo.ssim Demo.json_loads
           Demo.enabled_settings self
           (Demo.two_faces_frame Demo.bright' 101 reply) "s1") in
  Results.error r = None
  /\ Results.skip_reason r = None
  /\ violation_types r = ["multiple_persons"]
  /\ alert_types r = [].
Proof.
  intros reply self r.
  destruct (violations_recorded_unless_rejected Demo.gray_mean Demo.ssim
              Demo.json_loads Demo.enabled_settings self
              (Demo.two_faces_frame Demo.bright' 101 reply) "s1"
              eq_refl eq_refl) as (Hv & Ha & _).
  split; [reflexivity|]. split; [reflexivity|].
  split; [exact Hv|exact Ha].
Defined.

(** ** GeminiViolationVerifier: failures of the verifier *)

Section VerifierFailures.
Variable json_loads : string -> option pyval.

(** A failure of the model call is answered by "confirmed, confidence 1.0"
    by all three verifiers. *)
Lemma verifier_call_failure_passes_through msg data :
  let G := GeminiViolationVerifier.mk true in
  let R := GeminiViolationVerifier.Raises msg in
  (forall ai,
     ai = GeminiViolationVerifier.verify_eye_tracking_violation json_loads G R data
     \/ ai = GeminiViolationVerifier.verify_multiple_persons_violation json_loads
               G R data
     \/ ai = GeminiViolationVerifier.verify_object_detection_violation json_loads
               G R data ->
     ai !! "verified" = Some (PyBool true)
     /\ ai !! "confidence" = Some (PyNum 1)).
Proof. intros G R ai [-> | [-> | ->]]; split; reflexivity. Qed.

(** A reply that [json.loads] rejects is answered by "confirmed, confidence
    0.5" by all three verifiers. *)
Lemma verifier_parse_failure_half_confidence text data :
  (forall s, json_loads s = None) ->
  let G := GeminiViolationVerifier.mk true in
  let R := GeminiViolationVerifier.Text text in
  (forall ai,
     ai = GeminiViolationVerifier.verify_eye_tracking_violation json_loads G R data
     \/ ai = GeminiViolationVerifier.verify_multiple_persons_violation json_loads
               G R data
     \/ ai = GeminiViolationVerifier.verify_object_detection_violation json_loads
               G R data ->
     ai !! "verified" = Some (PyBool true)
     /\ ai !! "confidence" = Some (PyNum (5 # 10))).
Proof.
  intros Hnone G R ai H.
  unfold GeminiViolationVerifier.verify_eye_tracking_violation,
    GeminiViolationVerifier.verify_multiple_persons_violation,
    GeminiViolationVerifier.verify_object_detection_violation,
    GeminiViolationVerifier._parse_gemini_response in H.
  simpl in H. rewrite !Hnone in H.
  destruct H as [-> | [-> | ->]]; split; reflexivity.
Qed.
End VerifierFailures.

(** C7 (the code at the failing input).  Verification is enabled with the
    threshold 0.7, the service is fresh, the frame shows two faces, and the
    verifier's reply is text that is not JSON.  [_parse_gemini_response]
    catches the parse error and returns its default, so the verification
    result is "verified" with confidence 0.5, not 1.0; 0.5 is below the
    threshold, and the frame yields neither an alert nor a recorded
    violation.  The same frame with a failing model call is answered with
    confidence 1.0 and yields the alert. *)
Theorem unparseable_reply_drops_the_violation :
  let self : ProctoringService.t Demo.Frame :=
    ProctoringService.init Demo.enabled_settings in
  let result_of reply :=
    fst (ProctoringService.process_frame Demo.gray_mean Demo.ssim Demo.json_loads
           Demo.enabled_settings self
           (Demo.two_faces_frame Demo.bright 100 reply) "s1") in
  let verify reply :=
    GeminiViolationVerifier.verify_multiple_persons_violation Demo.json_loads
      (ProctoringService.gemini_verifier self) reply
      (Results.face_detection (result_of reply)) in
  let garbled := GeminiViolationVerifier.Text "I cannot assess this image." in
  let outage := GeminiViolationVerifier.Raises "503 Service Unavailable" in
  Demo.json_loads "I cannot assess this image." = None
  /\ detected (Results.face_detection (result_of garbled)) = true
  /\ verify garbled !! "verified" = Some (PyBool true)
  /\ verify garbled !! "confidence" = Some (PyNum (5 # 10))
  /\ Results.status (result_of garbled) = "ok"
  /\ alert_types (result_of garbled) = []
  /\ violation_types (result_of garbled) = []
  /\ verify outage !! "confidence" = Some (PyNum 1)
  /\ alert_types (result_of outage) = ["multiple_persons"]
  /\ violation_types (result_of outage) = ["multiple_persons"].
Proof. vm_compute. repeat split. Qed.

(** * Further properties of the code *)

(** ** FrameAnalyzer: admission of frames *)

Section FrameAdmission.
Context {Frame : Type}.
Variable gray_mean : Frame -> option Q.
Variable ssim : Frame -> Frame -> option Q.
Implicit Types fa : FrameAnalyzer.t Frame.

(** The first frame after [reset] is admitted unless it is black, whatever
    the stride: it is retained and counted. *)
Theorem first_frame_after_reset_is_admitted fa frame skip_mod :
  FrameAnalyzer.is_black_screen gray_mean fa frame = false ->
  FrameAnalyzer.should_process_frame gray_mean ssim (FrameAnalyzer.reset fa)
    frame skip_mod
  = ((true, "ok"),
     FrameAnalyzer.mk (FrameAnalyzer.ssim_threshold fa)
       (FrameAnalyzer.black_threshold fa) (Some frame) 1).
Proof.
  intros Hb. unfold FrameAnalyzer.should_process_frame.
  assert (Hb' : FrameAnalyzer.is_black_screen gray_mean (FrameAnalyzer.reset fa)
                  frame = false) by exact Hb.
  rewrite Hb'. simpl FrameAnalyzer.frame_count.
  rewrite Zmod_0_l. simpl. rewrite andb_false_r. reflexivity.
Qed.

(** When the similarity computation fails, [calculate_ssim] answers 0, so
    the frame counts as a duplicate exactly when the threshold is negative:
    with a threshold of at least 0 the failure is "not a duplicate" and the
    frame is retained. *)
Theorem ssim_failure_is_not_a_duplicate fa previous frame :
  FrameAnalyzer.previous_frame fa = Some previous ->
  ssim previous frame = None ->
  let out := FrameAnalyzer.is_duplicate_frame ssim fa frame in
  (fst out = false <-> (0 <= FrameAnalyzer.ssim_threshold fa)%Q)
  /\ ((0 <= FrameAnalyzer.ssim_threshold fa)%Q ->
      FrameAnalyzer.previous_frame (snd out) = Some frame).
Proof.
  intros Hp Hs. unfold FrameAnalyzer.is_duplicate_frame,
    FrameAnalyzer.calculate_ssim. simpl. rewrite Hp, Hs.
  destruct (Qgtb 0 (FrameAnalyzer.ssim_threshold fa)) eqn:Hc; simpl;
    order_facts; repeat split; intros;
    first [reflexivity | assumption | discriminate | exfalso; lra].
Qed.
End FrameAdmission.

Section FrameRuns.
Context {Frame : Type}.
Variable gray_mean : Frame -> option Q.
Variable ssim : Frame -> Frame -> option Q.
Implicit Types fa : FrameAnalyzer.t Frame.

(** A run of frames that are all similar to the retained frame: every one is
    rejected as a duplicate, each is counted, and the retained frame stays
    the last genuine one, so each frame of the run is compared with it and
    not with its predecessor. *)
Theorem duplicates_are_compared_with_the_retained_frame
    fa retained frames skip_mod :
  FrameAnalyzer.previous_frame fa = Some retained ->
  (skip_mod <= 1)%Z ->
  Forall (fun f =>
            FrameAnalyzer.is_black_screen gray_mean fa f = false
            /\ (FrameAnalyzer.ssim_threshold fa
                < FrameAnalyzer.calculate_ssim ssim retained f)%Q) frames ->
  gate_run gray_mean ssim skip_mod fa frames
  = (replicate (length frames) (false, "duplicate_frame"),
     FrameAnalyzer.mk (FrameAnalyzer.ssim_threshold fa)
       (FrameAnalyzer.black_threshold fa) (Some retained)
       (FrameAnalyzer.frame_count fa + Z.of_nat (length frames))).
Proof.
  intros Hp Hs Hall. revert fa Hp Hall.
  induction frames as [|f rest IH]; intros fa Hp Hall.
  - simpl. rewrite Z.add_0_r, <- Hp. destruct fa; reflexivity.
  - apply Forall_cons in Hall as [[Hb Hsim] Hrest].
    cbn [gate_run].
    unfold FrameAnalyzer.should_process_frame. rewrite Hb.
    destruct (Z.ltb_spec 1 skip_mod) as [?|_]; [lia|]. cbn [andb].
    unfold FrameAnalyzer.is_duplicate_frame. cbn [FrameAnalyzer.previous_frame
      FrameAnalyzer.ssim_threshold FrameAnalyzer.black_threshold
      FrameAnalyzer.frame_count].
    rewrite Hp. apply Qgtb_lt in Hsim. rewrite Hsim.
    rewrite IH; [|reflexivity|exact Hrest].
    cbn [FrameAnalyzer.previous_frame FrameAnalyzer.ssim_threshold
      FrameAnalyzer.black_threshold FrameAnalyzer.frame_count length replicate].
    f_equal. f_equal. lia.
Qed.

(** With a stride above 1 and a counter that is not a multiple of it, no frame
    is admitted any more: every frame is rejected as black or as skipped,
    and the analyzer never changes, so the run never ends. *)
Theorem stride_stalls_the_analyzer fa frames skip_mod :
  (1 < skip_mod)%Z ->
  (FrameAnalyzer.frame_count fa mod skip_mod <> 0)%Z ->
  let out := gate_run gray_mean ssim skip_mod fa frames in
  snd out = fa
  /\ length (fst out) = length frames
  /\ Forall (fun v => v = (false, "black_screen") \/ v = (false, "frame_skipped"))
       (fst out).
Proof.
  intros Hs Hm. induction frames as [|f rest IH]; simpl.
  - repeat split. constructor.
  - unfold FrameAnalyzer.should_process_frame.
    destruct (FrameAnalyzer.is_black_screen gray_mean fa f).
    + destruct (gate_run gray_mean ssim skip_mod fa rest) as [vs fa2].
      simpl in *. destruct IH as (-> & -> & Hall).
      repeat split. constructor; [left; reflexivity|exact Hall].
    + destruct (Z.ltb_spec 1 skip_mod) as [_|?]; [|lia].
      destruct (Z.eqb_spec (FrameAnalyzer.frame_count fa mod skip_mod) 0)
        as [?|_]; [contradiction|]. cbn [andb negb].
      destruct (gate_run gray_mean ssim skip_mod fa rest) as [vs fa2].
      simpl in *. destruct IH as (-> & -> & Hall).
      repeat split. constructor; [right; reflexivity|exact Hall].
Qed.
(** One call: the frame is retained exactly when it is admitted, and counted
    exactly when the call reached the duplicate check. *)
Lemma should_process_frame_step fa f skip_mod :
  let out := FrameAnalyzer.should_process_frame gray_mean ssim fa f skip_mod in
  (fst (fst out) = true <-> snd (fst out) = "ok")
  /\ FrameAnalyzer.previous_frame (snd out)
     = (if fst (fst out) then Some f else FrameAnalyzer.previous_frame fa)
  /\ FrameAnalyzer.frame_count (snd out)
     = (FrameAnalyzer.frame_count fa
        + if reached_duplicate_check (fst out) then 1 else 0)%Z
  /\ FrameAnalyzer.ssim_threshold (snd out) = FrameAnalyzer.ssim_threshold fa
  /\ FrameAnalyzer.black_threshold (snd out) = FrameAnalyzer.black_threshold fa.
Proof.
  unfold FrameAnalyzer.should_process_frame.
  destruct (FrameAnalyzer.is_black_screen gray_mean fa f).
  { simpl. repeat split; try discriminate. lia. }
  destruct (_ && _).
  { simpl. repeat split; try discriminate. lia. }
  unfold FrameAnalyzer.is_duplicate_frame. simpl.
  destruct (FrameAnalyzer.previous_frame fa) as [p|] eqn:Hp; simpl;
    [destruct (Qgtb _ _); simpl|]; repeat split; try discriminate;
    try reflexivity.
Qed.

(** Over any run of frames: a frame is admitted exactly when its verdict is
    "ok"; the retained frame is the last admitted frame of the run, or the
    one retained before the run when none was admitted; the counter grows by
    the number of calls that reached the duplicate check; the thresholds
    never change. *)
Theorem retained_frame_is_last_admitted fa frames skip_mod :
  let out := gate_run gray_mean ssim skip_mod fa frames in
  length (fst out) = length frames
  /\ Forall (fun v => fst v = true <-> snd v = "ok") (fst out)
  /\ FrameAnalyzer.previous_frame (snd out)
     = match last (admitted (fst out) frames) with
       | Some f => Some f
       | None => FrameAnalyzer.previous_frame fa
       end
  /\ FrameAnalyzer.frame_count (snd out)
     = (FrameAnalyzer.frame_count fa
        + Z.of_nat (length (List.filter reached_duplicate_check (fst out))))%Z
  /\ FrameAnalyzer.ssim_threshold (snd out) = FrameAnalyzer.ssim_threshold fa
  /\ FrameAnalyzer.black_threshold (snd out) = FrameAnalyzer.black_threshold fa.
Proof.
  revert fa. induction frames as [|f rest IH]; intros fa.
  - simpl. repeat split; try constructor. lia.
  - cbn [gate_run].
    pose proof (should_process_frame_step fa f skip_mod) as (Ha & Hp & Hc & Hs & Hb).
    destruct (FrameAnalyzer.should_process_frame gray_mean ssim fa f skip_mod)
      as [v fa1].
    cbn [fst snd] in Ha, Hp, Hc, Hs, Hb.
    specialize (IH fa1).
    destruct (gate_run gray_mean ssim skip_mod fa1 rest) as [vs fa2].
    cbn [fst snd] in IH |- *.
    destruct IH as (Il & Ia & Ip & Ic & Is & Ib).
    split; [simpl; congruence|]. split; [constructor; assumption|].
    split.
    { rewrite Ip, Hp. cbn [admitted].
      destruct (fst v); [|reflexivity].
      rewrite last_cons. destruct (last (admitted vs rest)); reflexivity. }
    split.
    { rewrite Ic, Hc. cbn [List.filter].
      destruct (reached_duplicate_check v); cbn [length]; lia. }
    split; congruence.
Qed.
End FrameRuns.

Lemma first_frame_after_reset_is_admitted_witness :
  FrameAnalyzer.should_process_frame Demo.gray_mean Demo.ssim
    (FrameAnalyzer.reset (FrameAnalyzer.mk (95 # 100) 30 (Some Demo.dark) 7))
    Demo.bright 3
  = ((true, "ok"), FrameAnalyzer.mk (95 # 100) 30 (Some Demo.bright) 1).
Proof.
  exact (first_frame_after_reset_is_admitted Demo.gray_mean Demo.ssim
           (FrameAnalyzer.mk (95 # 100) 30 (Some Demo.dark) 7) Demo.bright 3
           eq_refl).
Defined.

Lemma ssim_failure_is_not_a_duplicate_witness :
  FrameAnalyzer.previous_frame
    (snd (FrameAnalyzer.is_duplicate_frame Demo.ssim
            (FrameAnalyzer.mk (95 # 100) 30 (Some Demo.bright) 1) [1; 2]%Z))
  = Some [1; 2]%Z.
Proof.
  apply (proj2 (ssim_failure_is_not_a_duplicate Demo.ssim
                  (FrameAnalyzer.mk (95 # 100) 30 (Some Demo.bright) 1)
                  Demo.bright [1; 2]%Z eq_refl eq_refl)).
  simpl. discriminate.
Defined.

Lemma duplicates_are_compared_with_the_retained_frame_witness :
  gate_run Demo.gray_mean Demo.ssim 1
    (FrameAnalyzer.mk (95 # 100) 30 (Some Demo.bright) 1)
    [Demo.bright; Demo.bright]
  = ([(false, "duplicate_frame"); (false, "duplicate_frame")],
     FrameAnalyzer.mk (95 # 100) 30 (Some Demo.bright) 3).
Proof.
  apply (duplicates_are_compared_with_the_retained_frame Demo.gray_mean Demo.ssim
           (FrameAnalyzer.mk (95 # 100) 30 (Some Demo.bright) 1) Demo.bright
           [Demo.bright; Demo.bright] 1 eq_refl).
  - lia.
  - repeat constructor.
Defined.

Lemma stride_stalls_the_analyzer_witness :
  snd (gate_run Demo.gray_mean Demo.ssim 3
         (FrameAnalyzer.mk (95 # 100) 30 (Some Demo.bright) 1)
         [Demo.bright'; Demo.dark; Demo.bright])
  = FrameAnalyzer.mk (95 # 100) 30 (Some Demo.bright) 1.
Proof.
  apply (stride_stalls_the_analyzer Demo.gray_mean Demo.ssim
           (FrameAnalyzer.mk (95 # 100) 30 (Some Demo.bright) 1)
           [Demo.bright'; Demo.dark; Demo.bright] 3).
  - lia.
  - vm_compute. discriminate.
Defined.

(** ** AudioAnalyzer: baseline, history and anomalies over a stream *)

(** What one call of [analyze_audio] does to the analyzer. *)
Lemma analyze_audio_state (a : AudioAnalyzer.t) energy zcr t1 t2 :
  let a' := snd (AudioAnalyzer.analyze_audio a energy zcr t1 t2) in
  let speech := Qgtb energy (AudioAnalyzer.speech_threshold a) in
  let baseline :=
    match AudioAnalyzer.baseline_energy a with
    | Some b => Some b
    | None => if speech then Some energy else None
    end in
  AudioAnalyzer.baseline_energy a' = baseline
  /\ AudioAnalyzer.audio_history a'
     = AudioAnalyzer.deque_append 50 (AudioAnalyzer.audio_history a)
         (AudioAnalyzer.mk_frame energy zcr speech t1)
  /\ AudioAnalyzer.speech_threshold a' = AudioAnalyzer.speech_threshold a
  /\ AudioAnalyzer.anomaly_count a'
     = (AudioAnalyzer.anomaly_count a
        + if match baseline with
             | Some b => negb (Qeq_bool b 0) && Qgtb energy (b * (25 # 10))
             | None => false
             end then 1 else 0)%Z.
Proof.
  unfold AudioAnalyzer.analyze_audio.
  match goal with
  | |- context [if ?c then (true, PyStr "high_energy_spike") else _] =>
      destruct c
  end;
  match goal with
  | |- context [if ?c then match ?l !! ?i with _ => _ end else ?d] =>
      destruct (if c then match l !! i with
                          | Some prev =>
                              if Qgtb (Qabs (energy - AudioAnalyzer.energy prev))
                                   (1 # 10)
                                 && Qgtb energy (AudioAnalyzer.speech_threshold a)
                              then (true, PyStr "sudden_change") else d
                          | None => d
                          end
                else d) as [anomalous ty]
  end;
  simpl; repeat split; lia.
Qed.

Lemma audio_run_cons a c rest :
  audio_run a (c :: rest)
  = let out := AudioAnalyzer.analyze_audio a (chunk_energy c) (chunk_zcr c)
                 (chunk_t_hist c) (chunk_t_anom c) in
    (fst out :: fst (audio_run (snd out) rest),
     snd (audio_run (snd out) rest)).
Proof.
  cbn [audio_run].
  destruct (AudioAnalyzer.analyze_audio a (chunk_energy c) (chunk_zcr c)
              (chunk_t_hist c) (chunk_t_anom c)) as [r a1].
  cbn [fst snd]. destruct (audio_run a1 rest) as [rs a2]. reflexivity.
Qed.

Lemma audio_run_threshold a chunks :
  AudioAnalyzer.speech_threshold (snd (audio_run a chunks))
  = AudioAnalyzer.speech_threshold a.
Proof.
  revert a. induction chunks as [|c rest IH]; intros a; [reflexivity|].
  rewrite audio_run_cons. cbn [snd]. rewrite IH.
  apply (analyze_audio_state a).
Qed.

(** The baseline is set once, by the first chunk with speech, and is that
    chunk's energy; no later chunk changes it. *)
Theorem baseline_is_the_first_speech_energy a chunks :
  AudioAnalyzer.baseline_energy (snd (audio_run a chunks))
  = match AudioAnalyzer.baseline_energy a with
    | Some b => Some b
    | None =>
        head (List.filter
                (fun e => Qgtb e (AudioAnalyzer.speech_threshold a))
                (map chunk_energy chunks))
    end.
Proof.
  revert a. induction chunks as [|c rest IH]; intros a.
  - cbn. destruct (AudioAnalyzer.baseline_energy a); reflexivity.
  - rewrite audio_run_cons. cbn [snd]. rewrite IH.
    destruct (analyze_audio_state a (chunk_energy c) (chunk_zcr c)
                (chunk_t_hist c) (chunk_t_anom c)) as (Hb & _ & Ht & _).
    cbv zeta in Hb, Ht. rewrite Hb, Ht. cbn [map List.filter].
    destruct (AudioAnalyzer.baseline_energy a); [reflexivity|].
    destruct (Qgtb (chunk_energy c) (AudioAnalyzer.speech_threshold a));
      reflexivity.
Qed.

Lemma deque_append_drop {A} (n : nat) (l : list A) (x : A) :
  (length l <= n)%nat -> (0 < n)%nat ->
  AudioAnalyzer.deque_append n l x
  = drop (length (l ++ [x]) - n) (l ++ [x]).
Proof.
  intros Hl Hn. unfold AudioAnalyzer.deque_append.
  rewrite length_app. cbn [length].
  destruct (Nat.ltb_spec (length l) n) as [Hlt|Hge].
  - replace (length l + 1 - n)%nat with 0%nat by lia. reflexivity.
  - replace (length l + 1 - n)%nat with 1%nat by lia.
    destruct l as [|y l]; [cbn in Hge; lia|]. reflexivity.
Qed.

Lemma drop_window {A} (n : nat) (L R : list A) :
  drop (length (drop (length L - n) L ++ R) - n) (drop (length L - n) L ++ R)
  = drop (length (L ++ R) - n) (L ++ R).
Proof.
  rewrite <- (drop_app_le L R) by lia.
  rewrite drop_drop, length_drop. f_equal. rewrite length_app. lia.
Qed.

(** The history is a window on the stream: after any number of chunks it
    holds the last 50 entries of what it held before followed by one entry
    per chunk, oldest first. *)
Theorem history_is_the_last_fifty_entries a chunks :
  (length (AudioAnalyzer.audio_history a) <= 50)%nat ->
  let full :=
    AudioAnalyzer.audio_history a
    ++ map (history_entry (AudioAnalyzer.speech_threshold a)) chunks in
  AudioAnalyzer.audio_history (snd (audio_run a chunks))
  = drop (length full - 50) full.
Proof.
  intros Hl full. subst full. revert a Hl.
  induction chunks as [|c rest IH]; intros a Hl.
  - cbn. rewrite app_nil_r.
    replace (length (AudioAnalyzer.audio_history a) - 50)%nat with 0%nat by lia.
    reflexivity.
  - rewrite audio_run_cons. cbn [snd].
    destruct (analyze_audio_state a (chunk_energy c) (chunk_zcr c)
                (chunk_t_hist c) (chunk_t_anom c)) as (_ & Hh & Ht & _).
    cbv zeta in Hh, Ht.
    rewrite deque_append_drop in Hh by lia.
    rewrite IH, Ht, Hh.
    + fold (history_entry (AudioAnalyzer.speech_threshold a) c).
      rewrite drop_window. cbn [map]. rewrite <- app_assoc. reflexivity.
    + rewrite Hh, length_drop, length_app. cbn [length]. lia.
Qed.

Lemma analyze_audio_silent a energy zcr t1 t2 :
  (0 <= AudioAnalyzer.speech_threshold a)%Q ->
  match AudioAnalyzer.baseline_energy a with
  | Some b => (AudioAnalyzer.speech_threshold a < b)%Q
  | None => True
  end ->
  (energy <= AudioAnalyzer.speech_threshold a)%Q ->
  let out := AudioAnalyzer.analyze_audio a energy zcr t1 t2 in
  fst out !! "has_speech" = Some (PyBool false)
  /\ fst out !! "anomaly_detected" = Some (PyBool false)
  /\ fst out !! "anomaly_type" = Some PyNone
  /\ fst out !! "violation" = Some (PyBool false)
  /\ AudioAnalyzer.anomaly_count (snd out) = AudioAnalyzer.anomaly_count a
  /\ AudioAnalyzer.last_anomaly_time (snd out)
     = AudioAnalyzer.last_anomaly_time a.
Proof.
  intros Ht Hb He.
  assert (Hs : Qgtb energy (AudioAnalyzer.speech_threshold a) = false)
    by (apply Qgtb_le; exact He).
  unfold AudioAnalyzer.analyze_audio. cbv zeta. rewrite Hs.
  destruct (AudioAnalyzer.baseline_energy a) as [b|].
  - assert (Hk : Qgtb energy (b * (25 # 10)) = false) by (apply Qgtb_le; lra).
    rewrite Hk, !andb_false_r.
    destruct (1 <? _)%nat;
      [destruct (AudioAnalyzer.deque_append _ _ _ !! _)|];
      cbn; rewrite ?andb_false_r; repeat split.
  - destruct (1 <? _)%nat;
      [destruct (AudioAnalyzer.deque_append _ _ _ !! _)|];
      cbn; rewrite ?andb_false_r; repeat split.
Qed.

Lemma since_reset_start a :
  (0 <= AudioAnalyzer.speech_threshold a)%Q ->
  since_reset (AudioAnalyzer.reset a) 0.
Proof. intros H. split; [exact H | reflexivity]. Qed.

Lemma since_reset_step a n energy zcr t1 t2 :
  since_reset a n ->
  since_reset (snd (AudioAnalyzer.analyze_audio a energy zcr t1 t2)) (S n).
Proof.
  intros [Ht Hb].
  destruct (analyze_audio_state a energy zcr t1 t2) as (Eb & _ & Et & Ec).
  cbv zeta in Eb, Et, Ec. unfold since_reset. rewrite Eb, Et, Ec.
  split; [exact Ht|].
  destruct (AudioAnalyzer.baseline_energy a) as [b|].
  - destruct Hb as [Hb Hc]. split; [exact Hb|].
    destruct (negb (Qeq_bool b 0) && Qgtb energy (b * (25 # 10))); lia.
  - destruct (Qgtb energy (AudioAnalyzer.speech_threshold a)) eqn:Hs.
    + apply Qgtb_lt in Hs. split; [exact Hs|].
      assert (Hk : Qgtb energy (energy * (25 # 10)) = false)
        by (apply Qgtb_le; lra).
      rewrite Hk, andb_false_r. lia.
    + lia.
Qed.

Lemma since_reset_count a n :
  since_reset a (S n) -> (AudioAnalyzer.anomaly_count a <= Z.of_nat n)%Z.
Proof.
  intros [_ H]. destruct (AudioAnalyzer.baseline_energy a); lia.
Qed.

Lemma silence_since_reset chunks :
  forall a n i c,
    since_reset a n ->
    chunks !! i = Some c ->
    (chunk_energy c <= AudioAnalyzer.speech_threshold a)%Q ->
    exists r,
      fst (audio_run a chunks) !! i = Some r
      /\ r !! "has_speech" = Some (PyBool false)
      /\ r !! "anomaly_detected" = Some (PyBool false)
      /\ r !! "violation" = Some (PyBool false).
Proof.
  induction chunks as [|c0 rest IH]; intros a n i c Hinv Hi He;
    [discriminate|].
  rewrite audio_run_cons. cbn [fst].
  destruct i as [|i].
  - injection Hi as ->. eexists. split; [reflexivity|].
    destruct Hinv as [Ht Hb].
    destruct (analyze_audio_silent a (chunk_energy c) (chunk_zcr c)
                (chunk_t_hist c) (chunk_t_anom c) Ht) as (H1 & H2 & _ & H3 & _);
      [destruct (AudioAnalyzer.baseline_energy a); tauto | exact He |].
    auto.
  - apply (IH _ (S n) i c).
    + apply since_reset_step, Hinv.
    + exact Hi.
    + destruct (analyze_audio_state a (chunk_energy c0) (chunk_zcr c0)
                  (chunk_t_hist c0) (chunk_t_anom c0)) as (_ & _ & Et & _).
      cbv zeta in Et. rewrite Et. exact He.
Qed.

(** After [reset], a chunk without speech is never an anomaly and never a
    violation, whatever came before it in the stream: the baseline is the
    energy of a chunk with speech, so the spike test fails below the speech
    threshold, and the sudden-change test asks for speech. *)
Theorem silence_is_never_an_anomaly a chunks i c :
  (0 <= AudioAnalyzer.speech_threshold a)%Q ->
  chunks !! i = Some c ->
  (chunk_energy c <= AudioAnalyzer.speech_threshold a)%Q ->
  exists r,
    fst (audio_run (AudioAnalyzer.reset a) chunks) !! i = Some r
    /\ r !! "has_speech" = Some (PyBool false)
    /\ r !! "anomaly_detected" = Some (PyBool false)
    /\ r !! "violation" = Some (PyBool false).
Proof.
  intros Ht Hi He.
  apply (silence_since_reset chunks (AudioAnalyzer.reset a) 0 i c);
    [apply since_reset_start, Ht | exact Hi | exact He].
Qed.

Lemma violation_since_reset chunks :
  forall a n i c,
    since_reset a n ->
    chunks !! i = Some c ->
    (n + i < 4)%nat ->
    exists r,
      fst (audio_run a chunks) !! i = Some r
      /\ r !! "violation" = Some (PyBool false).
Proof.
  induction chunks as [|c0 rest IH]; intros a n i c Hinv Hi Hlt;
    [discriminate|].
  rewrite audio_run_cons. cbn [fst].
  pose proof (since_reset_step a n (chunk_energy c0) (chunk_zcr c0)
                (chunk_t_hist c0) (chunk_t_anom c0) Hinv) as Hinv'.
  destruct i as [|i].
  - eexists. split; [reflexivity|].
    pose proof (analyze_audio_violation a (chunk_energy c0) (chunk_zcr c0)
                  (chunk_t_hist c0) (chunk_t_anom c0)) as Hr.
    apply since_reset_count in Hinv'.
    destruct (AudioAnalyzer.analyze_audio a (chunk_energy c0) (chunk_zcr c0)
                (chunk_t_hist c0) (chunk_t_anom c0)) as [r a'].
    destruct Hr as (anomalous & _ & Hr & _). cbn [fst snd] in *.
    rewrite Hr. do 2 f_equal.
    destruct (Z.ltb_spec 3 (AudioAnalyzer.anomaly_count a')); [lia|reflexivity].
  - apply (IH _ (S n) i c Hinv' Hi). lia.
Qed.

(** After [reset], none of the first four chunks is reported as a
    violation, however loud: the chunk that sets the baseline is no spike,
    every later chunk counts at most one, and a violation needs a counter
    above 3. *)
Theorem no_violation_in_the_first_four_chunks a chunks i c :
  (0 <= AudioAnalyzer.speech_threshold a)%Q ->
  chunks !! i = Some c ->
  (i < 4)%nat ->
  exists r,
    fst (audio_run (AudioAnalyzer.reset a) chunks) !! i = Some r
    /\ r !! "violation" = Some (PyBool false).
Proof.
  intros Ht Hi Hlt.
  apply (violation_since_reset chunks (AudioAnalyzer.reset a) 0 i c);
    [apply since_reset_start, Ht | exact Hi | exact Hlt].
Qed.

(** ** AudioAnalyzer: the speaker heuristic and the zero-crossing rate *)

Lemma deque_append_length {A} (l : list A) (x : A) :
  (10 <=? length (AudioAnalyzer.deque_append 50 l x))%nat
  = (9 <=? length l)%nat.
Proof.
  unfold AudioAnalyzer.deque_append.
  destruct (Nat.ltb_spec (length l) 50);
    rewrite length_app, ?length_drop; cbn [length];
    destruct (Nat.leb_spec 10 (length l + 1));
    destruct (Nat.leb_spec 9 (length l));
    try reflexivity; try lia;
    destruct (Nat.leb_spec 10 (length l - 1 + 1)); try reflexivity; lia.
Qed.

(** [detect_multiple_speakers_simple] leaves the analyzer as [analyze_audio]
    does and adds its two keys exactly when the history held at least nine
    entries before the call.  The confidence it reports is all or nothing:
    1 when the variance of the last ten energies exceeds 0.01, since then
    [variance * 100] exceeds the cap of [min], and 0 otherwise. *)
Theorem speaker_confidence_is_all_or_nothing a energy zcr t1 t2 :
  let out := AudioAnalyzer.detect_multiple_speakers_simple a energy zcr t1 t2 in
  let base := AudioAnalyzer.analyze_audio a energy zcr t1 t2 in
  let history := AudioAnalyzer.audio_history (snd base) in
  let possible :=
    Qgtb (AudioAnalyzer.np_var
            (map AudioAnalyzer.energy (drop (length history - 10) history)))
      (1 # 100) in
  snd out = snd base
  /\ fst out
     = if (9 <=? length (AudioAnalyzer.audio_history a))%nat then
         <["speaker_confidence" := PyNum (if possible then 1 else 0)]>
           (<["possible_multiple_speakers" := PyBool possible]> (fst base))
       else fst base.
Proof.
  cbv zeta. unfold AudioAnalyzer.detect_multiple_speakers_simple.
  destruct (analyze_audio_state a energy zcr t1 t2) as (_ & Hh & _).
  cbv zeta in Hh.
  destruct (AudioAnalyzer.analyze_audio a energy zcr t1 t2) as [r a'].
  cbn [fst snd] in *.
  rewrite <- (deque_append_length (AudioAnalyzer.audio_history a)
                (AudioAnalyzer.mk_frame energy zcr
                   (Qgtb energy (AudioAnalyzer.speech_threshold a)) t1)).
  rewrite <- Hh.
  destruct (10 <=? length (AudioAnalyzer.audio_history a'))%nat;
    [|split; reflexivity].
  destruct (Qgtb _ (1 # 100)) eqn:Hv; [|split; reflexivity].
  apply Qgtb_lt in Hv.
  match goal with
  | |- context [Qltb 1 ?x] =>
      assert (Hc : Qltb 1 x = true) by (apply Qltb_lt; lra)
  end.
  rewrite Hc. split; reflexivity.
Qed.

Lemma np_sign_range (x : Q) :
  (-1 <= AudioAnalyzer.np_sign x <= 1)%Q.
Proof.
  unfold AudioAnalyzer.np_sign.
  destruct (Qltb x 0); [lra|]. destruct (Qgtb x 0); lra.
Qed.

Lemma inject_nat_succ (n : nat) :
  (inject_Z (Z.of_nat (S n)) == inject_Z (Z.of_nat n) + 1)%Q.
Proof. rewrite Nat2Z.inj_succ, <- Z.add_1_r, inject_Z_plus. reflexivity. Qed.

Lemma crossings_bound (l : list Q) :
  Forall (fun s => -1 <= s <= 1)%Q l ->
  (0 <= AudioAnalyzer.np_sum (map Qabs (AudioAnalyzer.np_diff l))
   <= 2 * inject_Z (Z.of_nat (length l - 1)))%Q.
Proof.
  induction l as [|x l IH]; intros Hl; [split; vm_compute; discriminate|].
  destruct l as [|y rest]; [split; vm_compute; discriminate|].
  inversion Hl as [|? ? Hx Hrest]; subst.
  specialize (IH Hrest). inversion Hrest as [|? ? Hy _]; subst.
  change (AudioAnalyzer.np_diff (x :: y :: rest))
    with ((y - x)%Q :: AudioAnalyzer.np_diff (y :: rest)).
  cbn [map AudioAnalyzer.np_sum foldr].
  fold (AudioAnalyzer.np_sum (map Qabs (AudioAnalyzer.np_diff (y :: rest)))).
  cbn [length Nat.sub] in *. rewrite Nat.sub_0_r in *.
  rewrite inject_nat_succ.
  assert (Ha : (0 <= Qabs (y - x) <= 2)%Q).
  { split; [apply Qabs_nonneg|]. apply Qabs_Qle_condition. lra. }
  lra.
Qed.

(** The zero-crossing rate of a chunk of [n >= 1] samples lies between 0
    and [(n - 1) / n], so it is below 1: [n] samples have [n - 1]
    neighbouring pairs and each pair counts for at most one crossing. *)
Theorem zero_crossing_rate_is_a_fraction (audio_data : list Q) :
  audio_data <> [] ->
  let n := inject_Z (Z.of_nat (length audio_data)) in
  exists z,
    AudioAnalyzer.calculate_zero_crossing_rate audio_data = Some z
    /\ (0 <= z)%Q /\ (z * n <= n - 1)%Q /\ (z < 1)%Q.
Proof.
  intros Hne n. unfold AudioAnalyzer.calculate_zero_crossing_rate.
  destruct audio_data as [|x rest]; [congruence|].
  cbn [length Nat.eqb]. eexists. split; [reflexivity|].
  pose proof (crossings_bound (map AudioAnalyzer.np_sign (x :: rest))) as Hb.
  rewrite length_map in Hb. cbn [length Nat.sub] in Hb.
  rewrite Nat.sub_0_r in Hb.
  specialize (Hb ltac:(apply Forall_forall; intros s Hs;
                       apply list_elem_of_fmap in Hs as (y & -> & _);
                       apply np_sign_range)).
  subst n. cbn [length]. rewrite inject_nat_succ.
  set (S := AudioAnalyzer.np_sum _) in *.
  set (m := inject_Z (Z.of_nat (length rest))) in *.
  assert (Hm : (0 <= m)%Q).
  { unfold m. change 0%Q with (inject_Z 0). rewrite <- Zle_Qle. lia. }
  clearbody S m.
  assert (Hh : (0 <= S / 2 <= m)%Q)
    by (unfold Qdiv; change (/ 2)%Q with (1 # 2)%Q; lra).
  set (h := (S / 2)%Q) in *. clearbody h.
  assert (Hz : (h / (m + 1) * (m + 1) == h)%Q) by (field; lra).
  split; [apply Qle_shift_div_l; lra|].
  split; [rewrite Hz; lra|].
  apply Qlt_shift_div_r; lra.
Qed.

(** ** ProctoringService: an audio chunk *)

Lemma analyze_audio_keys (a : AudioAnalyzer.t) energy zcr t1 t2 :
  let r := fst (AudioAnalyzer.analyze_audio a energy zcr t1 t2) in
  exists (violation : bool) (anomaly_type : pyval),
    r !! "violation" = Some (PyBool violation)
    /\ r !! "anomaly_type" = Some anomaly_type.
Proof.
  unfold AudioAnalyzer.analyze_audio.
  match goal with
  | |- context [if ?c then (true, PyStr "high_energy_spike") else _] =>
      destruct c
  end;
  match goal with
  | |- context [if ?c then match ?l !! ?i with _ => _ end else ?d] =>
      destruct (if c then match l !! i with
                          | Some prev =>
                              if Qgtb (Qabs (energy - AudioAnalyzer.energy prev))
                                   (1 # 10)
                                 && Qgtb energy (AudioAnalyzer.speech_threshold a)
                              then (true, PyStr "sudden_change") else d
                          | None => d
                          end
                else d) as [anomalous ty]
  end;
  eexists; eexists; split; reflexivity.
Qed.

(** [process_audio] ends in the error status exactly when the feature
    extraction raises; the result then carries the exception and nothing
    else, and the service is as before.  Otherwise it stores the analyzer's
    result, and when that result carries a violation it records one
    [audio_anomaly] violation of severity medium without consulting the
    verifier; the alert is subject to the cooldown of the session's
    [audio_anomaly] key only.  Nothing but the audio analyzer and the
    cooldown table is written. *)
Theorem process_audio_outcome {Frame : Type} (self : ProctoringService.t Frame)
    features t_hist t_anom ts tk session_id :
  let out :=
    ProctoringService.process_audio self features t_hist t_anom ts tk
      session_id in
  match features with
  | inl e =>
      out
      = (Results.mk ts session_id [] [] ∅ ∅ ∅ ∅ "error" true None (Some e),
         self)
  | inr (energy, zcr) =>
      let analysis :=
        AudioAnalyzer.analyze_audio (ProctoringService.audio_analyzer self)
          energy zcr t_hist t_anom in
      let analysed :=
        ProctoringService.with_audio_analyzer (snd analysis) self in
      let check :=
        ProctoringService._should_create_alert analysed session_id
          "audio_anomaly" (ProctoringService.t_check tk) in
      Results.error (fst out) = None
      /\ Results.audio_analysis (fst out) = fst analysis
      /\ if detected (fst analysis) then
           map (fun v => (Violation.type v, Violation.severity v,
                          Violation.ai_verified v))
             (Results.violations (fst out))
           = [("audio_anomaly", "medium", None)]
           /\ alert_types (fst out)
              = (if fst check then ["audio_anomaly"] else [])
           /\ Results.status (fst out) = "violations_detected"
           /\ snd out = snd check
         else
           Results.violations (fst out) = []
           /\ Results.alerts (fst out) = []
           /\ Results.status (fst out) = "ok"
           /\ snd out = analysed
  end.
Proof.
  cbv zeta. destruct features as [e|[energy zcr]]; [reflexivity|].
  destruct (analyze_audio_keys (ProctoringService.audio_analyzer self)
              energy zcr t_hist t_anom) as (v & ty & Hv & Hty).
  cbv zeta in Hv, Hty.
  unfold ProctoringService.process_audio, ProctoringService.process_audio_body,
    detected, get_or, bind, lift_exc, getitem, when, ret,
    ProctoringService.on_results, ProctoringService.get_results, modify,
    ProctoringService.should_create_alert.
  cbn [fst snd].
  destruct (AudioAnalyzer.analyze_audio (ProctoringService.audio_analyzer self)
              energy zcr t_hist t_anom) as [r a'].
  cbn [fst snd] in *. rewrite Hv. cbn [default truthy].
  destruct v; cbn [fst snd]; [|repeat split].
  rewrite Hty. cbn [fst snd].
  destruct (ProctoringService._should_create_alert _ _ _ _) as [[|] self'];
    cbn; repeat split.
Qed.

Lemma history_is_the_last_fifty_entries_witness :
  AudioAnalyzer.audio_history
    (snd (audio_run AudioAnalyzer.init
            [mk_chunk (1 # 10) 0 1 1; mk_chunk (1 # 100) 0 2 2]))
  = [AudioAnalyzer.mk_frame (1 # 10) 0 true 1;
     AudioAnalyzer.mk_frame (1 # 100) 0 false 2].
Proof.
  apply (history_is_the_last_fifty_entries AudioAnalyzer.init
           [mk_chunk (1 # 10) 0 1 1; mk_chunk (1 # 100) 0 2 2]).
  simpl. lia.
Defined.

Lemma silence_is_never_an_anomaly_witness :
  exists r,
    fst (audio_run (AudioAnalyzer.reset AudioAnalyzer.init)
           [mk_chunk (1 # 2) 0 1 1; mk_chunk (1 # 100) 0 2 2]) !! 1%nat
    = Some r
    /\ r !! "has_speech" = Some (PyBool false)
    /\ r !! "anomaly_detected" = Some (PyBool false)
    /\ r !! "violation" = Some (PyBool false).
Proof.
  apply (silence_is_never_an_anomaly AudioAnalyzer.init
           [mk_chunk (1 # 2) 0 1 1; mk_chunk (1 # 100) 0 2 2] 1
           (mk_chunk (1 # 100) 0 2 2)).
  - vm_compute. discriminate.
  - reflexivity.
  - vm_compute. discriminate.
Defined.

Lemma no_violation_in_the_first_four_chunks_witness :
  exists r,
    fst (audio_run (AudioAnalyzer.reset AudioAnalyzer.init)
           [mk_chunk (1 # 10) 0 1 1; mk_chunk (3 # 10) 0 2 2;
            mk_chunk (3 # 10) 0 3 3; mk_chunk (3 # 10) 0 4 4]) !! 3%nat
    = Some r
    /\ r !! "violation" = Some (PyBool false).
Proof.
  apply (no_violation_in_the_first_four_chunks AudioAnalyzer.init
           [mk_chunk (1 # 10) 0 1 1; mk_chunk (3 # 10) 0 2 2;
            mk_chunk (3 # 10) 0 3 3; mk_chunk (3 # 10) 0 4 4] 3
           (mk_chunk (3 # 10) 0 4 4)).
  - vm_compute. discriminate.
  - reflexivity.
  - lia.
Defined.

Lemma zero_crossing_rate_is_a_fraction_witness :
  exists z,
    AudioAnalyzer.calculate_zero_crossing_rate [1; -1; 1]%Q = Some z
    /\ (0 <= z)%Q /\ (z * 3 <= 3 - 1)%Q /\ (z < 1)%Q.
Proof.
  apply (zero_crossing_rate_is_a_fraction [1; -1; 1]%Q). discriminate.
Defined.

(** ** EyeGazeTracker: the iris estimate and the away interval *)

(** The iris estimate exists exactly when both eyes were analysed.  Its
    direction is never "down"; when the two eyes agree it is their common
    direction, also when that is "center", since the averaged ratios of two
    centered eyes are centered; when they disagree the averaged ratios
    decide.  [looking_away] says that the direction is not "center". *)
Theorem eyes_that_agree_decide_the_direction
    (eyes : option (option EyeGazeTracker.ratios * option EyeGazeTracker.ratios)) :
  match EyeGazeTracker.detect_iris_position eyes with
  | Some i =>
      exists l r,
        eyes = Some (Some l, Some r)
        /\ let of_eye e :=
             EyeGazeTracker._determine_gaze_direction
               (Some (EyeGazeTracker.x_ratio e, EyeGazeTracker.y_ratio e)) in
           (of_eye l = of_eye r -> EyeGazeTracker.direction i = of_eye l)
           /\ (of_eye l <> of_eye r ->
               EyeGazeTracker.direction i = of_eye (EyeGazeTracker.avg i))
           /\ In (EyeGazeTracker.direction i) ["left"; "right"; "up"; "center"]
           /\ EyeGazeTracker.looking_away i
              = negb (String.eqb (EyeGazeTracker.direction i) "center")
  | None => forall l r, eyes <> Some (Some l, Some r)
  end.
Proof.
  destruct eyes as [[[l|] [r|]]|]; cbn [EyeGazeTracker.detect_iris_position];
    try (intros ? ?; congruence).
  exists l, r. split; [reflexivity|].
  cbn [EyeGazeTracker.direction EyeGazeTracker.avg EyeGazeTracker.looking_away
       EyeGazeTracker.x_ratio EyeGazeTracker.y_ratio].
  unfold EyeGazeTracker._determine_gaze_direction.
  destruct l as [xl yl hl vl], r as [xr yr hr vr].
  cbn [EyeGazeTracker.x_ratio EyeGazeTracker.y_ratio].
  destruct (Qgtb xl 3) eqn:L1, (Qltb xl (33 # 100)) eqn:L2,
    (Qltb yl (33 # 100)) eqn:L3, (Qgtb xr 3) eqn:R1,
    (Qltb xr (33 # 100)) eqn:R2, (Qltb yr (33 # 100)) eqn:R3;
    cbn [String.eqb Ascii.eqb Bool.eqb andb negb];
    repeat match goal with
           | |- context [if ?c then _ else _] => destruct c eqn:?
           end;
    order_facts; unfold Qdiv in *;
    change (/ 2)%Q with (1 # 2)%Q in *;
    cbn [In String.eqb Ascii.eqb Bool.eqb negb];
    repeat split; intros;
    first [reflexivity | congruence | tauto | exfalso; lra].
Qed.

Lemma calibrate_keeps_interval (t : EyeGazeTracker.t) p y r :
  let t1 := EyeGazeTracker.calibrate t p y r in
  EyeGazeTracker.looking_away_start t1 = EyeGazeTracker.looking_away_start t
  /\ EyeGazeTracker.total_looking_away_time t1
     = EyeGazeTracker.total_looking_away_time t
  /\ EyeGazeTracker.threshold_seconds t1 = EyeGazeTracker.threshold_seconds t.
Proof.
  unfold EyeGazeTracker.calibrate.
  destruct (_ <? _)%nat; [destruct (_ =? _)%nat|]; repeat split.
Qed.

(** The bookkeeping of the away interval on a frame with a face, in terms
    of the fused looking-away flag [away] of the result. *)
Lemma track_gaze_accounting (t : EyeGazeTracker.t)
    (lm : EyeGazeTracker.landmarks) (now : Q) :
  let out := EyeGazeTracker.track_gaze t (Some lm) now in
  let start := EyeGazeTracker.looking_away_start t in
  exists away : bool,
    let duration := if away then (now - default now start)%Q else 0%Q in
    fst out !! "looking_away" = Some (PyBool away)
    /\ fst out !! "duration" = Some (PyNum duration)
    /\ fst out !! "violation"
       = Some (PyBool (Qgtb duration (EyeGazeTracker.threshold_seconds t)))
    /\ fst out !! "total_away_time"
       = Some (PyNum (EyeGazeTracker.total_looking_away_time (snd out)))
    /\ EyeGazeTracker.looking_away_start (snd out)
       = (if away then Some (default now start) else None)
    /\ EyeGazeTracker.total_looking_away_time (snd out)
       = (if away then EyeGazeTracker.total_looking_away_time t
          else match start with
               | Some s =>
                   EyeGazeTracker.total_looking_away_time t + (now - s)
               | None => EyeGazeTracker.total_looking_away_time t
               end)%Q
    /\ EyeGazeTracker.threshold_seconds (snd out)
       = EyeGazeTracker.threshold_seconds t.
Proof.
  unfold EyeGazeTracker.track_gaze.
  destruct (EyeGazeTracker.pose_result lm) as [[[p y] r]|];
    destruct (EyeGazeTracker.detect_iris_position (EyeGazeTracker.eyes lm))
      as [[av dir away]|];
    cbn -[EyeGazeTracker.is_looking_away EyeGazeTracker.calibrate dict lookup];
    try (destruct (EyeGazeTracker.is_calibrated t) eqn:E;
         cbn -[EyeGazeTracker.is_looking_away EyeGazeTracker.calibrate dict lookup]);
    try match goal with
        | |- context [EyeGazeTracker.is_looking_away ?a ?b ?c ?d] =>
            destruct (EyeGazeTracker.is_looking_away a b c d) as [[] ?]
        end;
    try destruct (calibrate_keeps_interval t p y r) as (-> & -> & ->);
    cbn -[dict lookup];
    try destruct away;
    destruct (EyeGazeTracker.looking_away_start t) as [s0|];
    eexists; cbv zeta; (split; [reflexivity|]); repeat split; reflexivity.
Qed.

(** With a threshold that is not negative, a frame with a face is a gaze
    violation exactly when it is looking away and the away interval was
    opened by an earlier frame more than the threshold ago.  The frame that
    opens an interval is never a violation, and neither is a frame that is
    not looking away. *)
Theorem gaze_violation_needs_an_open_interval
    (t : EyeGazeTracker.t) (lm : EyeGazeTracker.landmarks) (now : Q) :
  (0 <= EyeGazeTracker.threshold_seconds t)%Q ->
  let r := fst (EyeGazeTracker.track_gaze t (Some lm) now) in
  r !! "violation" = Some (PyBool true)
  <-> r !! "looking_away" = Some (PyBool true)
      /\ exists s,
           EyeGazeTracker.looking_away_start t = Some s
           /\ (EyeGazeTracker.threshold_seconds t < now - s)%Q.
Proof.
  intros Ht r. subst r.
  destruct (track_gaze_accounting t lm now)
    as (away & Ha & _ & Hv & _). cbv zeta in Ha, Hv.
  rewrite Ha, Hv.
  destruct away, (EyeGazeTracker.looking_away_start t) as [s|];
    cbn [default id];
    match goal with
    | |- context [Qgtb ?d ?T] => destruct (Qgtb d T) eqn:Hd
    end;
    order_facts; clear Ha Hv;
    (split; [intros H | intros [Ha' (s' & Hs & Hlt)]]);
    try congruence;
    try (injection Hs as <-);
    first [reflexivity | exfalso; lra
          | split; [reflexivity | eexists; split; [reflexivity | lra]]].
Qed.

Lemma clock_from_weaken (lo : option Q) (x : Q) (readings : list Q) :
  match lo with
  | Some l => (l <= x)%Q
  | None => True
  end ->
  clock_from (Some x) readings -> clock_from lo readings.
Proof.
  destruct readings as [|y rest]; [trivial|].
  intros Hl [Hx Hrest]. split; [|exact Hrest].
  destruct lo as [l|]; [lra|trivial].
Qed.

(** Under a clock that never runs backwards, and not behind the start of an
    open away interval, the cumulated away time never decreases over a
    stream of frames. *)
Theorem total_away_time_never_decreases (t : EyeGazeTracker.t)
    (frames : list (option EyeGazeTracker.landmarks * Q)) :
  clock_from (EyeGazeTracker.looking_away_start t) (map snd frames) ->
  (EyeGazeTracker.total_looking_away_time t
   <= EyeGazeTracker.total_looking_away_time (gaze_run t frames))%Q.
Proof.
  revert t. induction frames as [|[mesh now] rest IH]; intros t Hc.
  - cbn. lra.
  - cbn [map snd] in Hc. destruct Hc as [Hlo Hrest].
    change (gaze_run t ((mesh, now) :: rest))
      with (gaze_run (snd (EyeGazeTracker.track_gaze t mesh now)) rest).
    destruct mesh as [lm|].
    + destruct (track_gaze_accounting t lm now)
        as (away & _ & _ & _ & _ & Hs & Htot & _). cbv zeta in Hs, Htot.
      set (t1 := snd (EyeGazeTracker.track_gaze t (Some lm) now)) in *.
      assert (H1 : (EyeGazeTracker.total_looking_away_time t
                    <= EyeGazeTracker.total_looking_away_time t1)%Q).
      { rewrite Htot. destruct away; [lra|].
        destruct (EyeGazeTracker.looking_away_start t); lra. }
      assert (H2 : clock_from (EyeGazeTracker.looking_away_start t1)
                     (map snd rest)).
      { apply (clock_from_weaken _ now); [|exact Hrest].
        rewrite Hs. destruct away; [|trivial].
        destruct (EyeGazeTracker.looking_away_start t); cbn; lra. }
      specialize (IH t1 H2). lra.
    + apply IH. cbn [EyeGazeTracker.track_gaze snd].
      apply (clock_from_weaken _ now); [exact Hlo | exact Hrest].
Qed.

Lemma gaze_violation_needs_an_open_interval_witness :
  fst (EyeGazeTracker.track_gaze
         (EyeGazeTracker.mk 3 (Some 1%Q) 0 25 0 0 0 false [] 10)
         (Some (EyeGazeTracker.mk_landmarks None (Some (0, 40, 0)%Q))) 5)
  !! "violation" = Some (PyBool true).
Proof.
  apply (proj2 (gaze_violation_needs_an_open_interval
                  (EyeGazeTracker.mk 3 (Some 1%Q) 0 25 0 0 0 false [] 10)
                  (EyeGazeTracker.mk_landmarks None (Some (0, 40, 0)%Q)) 5
                  ltac:(vm_compute; discriminate))).
  split; [reflexivity|]. exists 1%Q. split; [reflexivity|].
  vm_compute. reflexivity.
Defined.

Lemma total_away_time_never_decreases_witness :
  (0 <= EyeGazeTracker.total_looking_away_time
          (gaze_run (EyeGazeTracker.init 3)
             [(Some (EyeGazeTracker.mk_landmarks None (Some (0, 40, 0)%Q)), 1%Q);
              (None, 2%Q);
              (Some (EyeGazeTracker.mk_landmarks None (Some (0, 0, 0)%Q)), 4%Q)]))%Q.
Proof.
  apply (total_away_time_never_decreases (EyeGazeTracker.init 3)
           [(Some (EyeGazeTracker.mk_landmarks None (Some (0, 40, 0)%Q)), 1%Q);
            (None, 2%Q);
            (Some (EyeGazeTracker.mk_landmarks None (Some (0, 0, 0)%Q)), 4%Q)]).
  simpl. repeat split; vm_compute; discriminate.
Defined.

(** ** ProctoringService: what a frame leaves alone *)

Section Footprint.
Context {Frame : Type}.
Variable gray_mean : Frame -> option Q.
Variable ssim : Frame -> Frame -> option Q.
Variable json_loads : string -> option pyval.
Variable settings : Settings.t.
Implicit Types self : ProctoringService.t Frame.
Implicit Types obs : ProctoringService.observation Frame.

Lemma same_configuration_refl self : same_configuration self self.
Proof. repeat split. Qed.

Lemma same_configuration_trans self1 self2 self3 :
  same_configuration self1 self2 -> same_configuration self2 self3 ->
  same_configuration self1 self3.
Proof.
  unfold same_configuration.
  intros (A1 & A2 & A3 & A4 & A5 & A6) (B1 & B2 & B3 & B4 & B5 & B6).
  repeat split; congruence.
Qed.

Lemma keeps_ret {A} (a : A) : keeps (Frame := Frame) (ret a).
Proof. intros s. apply same_configuration_refl. Qed.

Lemma keeps_lift_exc {A} (r : exc + A) : keeps (Frame := Frame) (lift_exc r).
Proof. intros s. apply same_configuration_refl. Qed.

Lemma keeps_bind {A B} (m : M (ProctoringService.st Frame) A)
    (k : A -> M (ProctoringService.st Frame) B) :
  keeps m -> (forall a, keeps (k a)) -> keeps (bind m k).
Proof.
  intros Hm Hk s. unfold bind. specialize (Hm s).
  destruct (m s) as [[e|a] s1]; [exact Hm|].
  apply (same_configuration_trans _ (fst s1)); [exact Hm | apply Hk].
Qed.

Lemma keeps_when (b : bool) (m : M (ProctoringService.st Frame) unit) :
  keeps m -> keeps (when b m).
Proof. destruct b; [trivial | intros _; apply keeps_ret]. Qed.

Lemma keeps_on_results f : keeps (Frame := Frame) (ProctoringService.on_results f).
Proof. intros s. apply same_configuration_refl. Qed.

Lemma keeps_get_self : keeps (Frame := Frame) ProctoringService.get_self.
Proof. intros s. apply same_configuration_refl. Qed.

Lemma keeps_get_results : keeps (Frame := Frame) ProctoringService.get_results.
Proof. intros s. apply same_configuration_refl. Qed.

Lemma should_create_alert_configuration self session_id alert_type now :
  same_configuration self
    (snd (ProctoringService._should_create_alert self session_id alert_type now)).
Proof.
  unfold ProctoringService._should_create_alert.
  destruct (_ !! _); [destruct (Qgeb _ _)|]; repeat split.
Qed.

Lemma keeps_should_create_alert session_id alert_type now :
  keeps (Frame := Frame)
    (ProctoringService.should_create_alert session_id alert_type now).
Proof.
  intros s. unfold ProctoringService.should_create_alert.
  pose proof (should_create_alert_configuration (fst s) session_id alert_type
                now) as H.
  destruct (ProctoringService._should_create_alert _ _ _ _). exact H.
Qed.

Lemma keeps_route_violation session_id alert_type details data tk ai :
  keeps (Frame := Frame)
    (ProctoringService.route_violation settings session_id alert_type details
       data tk ai).
Proof.
  intros [self res].
  destruct (route_violation_spec settings session_id alert_type details data tk
              ai self res) as [H _].
  cbv zeta in H. cbn [fst snd]. rewrite H.
  apply should_create_alert_configuration.
Qed.

Ltac keeps_step :=
  first [ apply keeps_ret | apply keeps_lift_exc | apply keeps_on_results
        | apply keeps_get_self | apply keeps_get_results
        | apply keeps_should_create_alert | apply keeps_route_violation
        | apply keeps_when
        | apply keeps_bind; [|intros ?]
        | match goal with
          | |- @keeps _ _ (if ?b then _ else _) => destruct b
          | |- @keeps _ _ (match ?x with _ => _ end) => destruct x
          end ].

Lemma keeps_black_screen_block obs session_id :
  keeps (ProctoringService.black_screen_block gray_mean obs session_id).
Proof. unfold ProctoringService.black_screen_block. repeat keeps_step. Qed.

Lemma keeps_face_block obs session_id :
  keeps (ProctoringService.face_block json_loads settings obs session_id).
Proof. unfold ProctoringService.face_block. repeat keeps_step. Qed.

Lemma keeps_gaze_block obs session_id face_result :
  keeps (ProctoringService.gaze_block json_loads settings obs session_id
           face_result).
Proof.
  unfold ProctoringService.gaze_block. repeat keeps_step.
  intros [self res]. cbn [fst snd].
  destruct (ProctoringService.mesh obs) as [m|];
    [destruct (EyeGazeTracker.track_gaze _ _ _)|]; repeat split.
Qed.

Lemma keeps_object_block obs session_id :
  keeps (ProctoringService.object_block json_loads settings obs session_id).
Proof. unfold ProctoringService.object_block. repeat keeps_step. Qed.

Lemma keeps_process_frame_body obs session_id :
  keeps (ProctoringService.process_frame_body gray_mean ssim json_loads
           settings obs session_id).
Proof.
  unfold ProctoringService.process_frame_body.
  apply keeps_bind.
  - intros [self res]. cbn [fst snd].
    destruct (FrameAnalyzer.should_process_frame _ _ _ _ _). repeat split.
  - intros [should_process skip_reason].
    destruct (negb should_process); [apply keeps_on_results|].
    repeat first [ apply keeps_black_screen_block | apply keeps_face_block
                 | apply keeps_gaze_block | apply keeps_object_block
                 | keeps_step ].
Qed.

Lemma process_audio_session_data (self : ProctoringService.t Frame)
    features t_hist t_anom ts tk session_id :
  ProctoringService.session_data
    (snd (ProctoringService.process_audio self features t_hist t_anom ts tk
            session_id))
  = ProctoringService.session_data self.
Proof.
  destruct features as [e|[energy zcr]]; [reflexivity|].
  destruct (analyze_audio_keys (ProctoringService.audio_analyzer self)
              energy zcr t_hist t_anom) as (v & ty & Hv & Hty).
  cbv zeta in Hv, Hty.
  unfold ProctoringService.process_audio, ProctoringService.process_audio_body,
    bind, lift_exc, getitem, when, ret,
    ProctoringService.on_results, ProctoringService.get_results, modify,
    ProctoringService.should_create_alert.
  cbn [fst snd].
  destruct (AudioAnalyzer.analyze_audio (ProctoringService.audio_analyzer self)
              energy zcr t_hist t_anom) as [r a'].
  cbn [fst snd] in *. rewrite Hv. cbn [truthy].
  destruct v; cbn [fst snd]; [|reflexivity].
  rewrite Hty. cbn [fst snd].
  pose proof (should_create_alert_configuration
                (ProctoringService.with_audio_analyzer a' self) session_id
                "audio_anomaly" (ProctoringService.t_check tk)) as [H _].
  destruct (ProctoringService._should_create_alert _ _ _ _) as [[|] self'];
    cbn in *; exact H.
Qed.

(** Processing never writes the session records: whatever the frame or the
    audio chunk and whatever the outcome (skipped, analysed, violations,
    error), every session's summary is as before, so the counters a summary
    carries stay as [start_session] set them.  The frame pipeline also
    leaves the audio analyzer, the object detector, the verifier, the
    cooldown window and the stride alone. *)
Theorem processing_leaves_sessions_alone
    (self : ProctoringService.t Frame) obs features t_hist t_anom ts tk
    session_id :
  let after_frame :=
    snd (ProctoringService.process_frame gray_mean ssim json_loads settings
           self obs session_id) in
  let after_audio :=
    snd (ProctoringService.process_audio self features t_hist t_anom ts tk
           session_id) in
  (forall sid, ProctoringService.get_session_summary after_frame sid
               = ProctoringService.get_session_summary self sid)
  /\ (forall sid, ProctoringService.get_session_summary after_audio sid
                  = ProctoringService.get_session_summary self sid)
  /\ same_configuration self after_frame.
Proof.
  cbv zeta.
  assert (H : same_configuration self
                (snd (ProctoringService.process_frame gray_mean ssim json_loads
                        settings self obs session_id))).
  { unfold ProctoringService.process_frame.
    pose proof (keeps_process_frame_body obs session_id
                  (self, Results.mk (ProctoringService.ts_result obs) session_id
                           [] [] ∅ ∅ ∅ ∅ "ok" true None None)) as H.
    destruct (ProctoringService.process_frame_body _ _ _ _ _ _ _)
      as [[e|[]] [self' res]]; exact H. }
  split; [|split; [|exact H]].
  - intros sid. unfold ProctoringService.get_session_summary.
    destruct H as [-> _]. reflexivity.
  - intros sid. unfold ProctoringService.get_session_summary.
    rewrite process_audio_session_data. reflexivity.
Qed.
End Footprint.

(** ** ProctoringService: the life of a session *)

(** A session from start to end.  After [start_session] the summary is the
    fresh record, with status active; [end_session] adds the end time and
    the status ended to it and keeps the rest, and the summary follows.
    Ending a session again moves its end time.  [end_session] writes nothing
    but that record: the trackers are not reset and the cooldown table
    still holds the session's entries.  Ending or summarising a session
    that has no record answers with the error record and changes nothing. *)
Theorem session_round_trip {Frame : Type} (self : ProctoringService.t Frame)
    (session_id : string) (t0 t1 t2 : Q) :
  let started := ProctoringService.start_session self session_id t0 in
  let ended := ProctoringService.end_session (snd started) session_id t1 in
  let again := ProctoringService.end_session (snd ended) session_id t2 in
  ProctoringService.get_session_summary (snd started) session_id = fst started
  /\ fst started !! "status" = Some (PyStr "active")
  /\ fst ended
     = <["status" := PyStr "ended"]> (<["end_time" := PyNum t1]> (fst started))
  /\ ProctoringService.get_session_summary (snd ended) session_id = fst ended
  /\ fst again = <["end_time" := PyNum t2]> (fst ended)
  /\ ProctoringService.get_session_summary (snd again) session_id = fst again
  /\ snd ended
     = ProctoringService.with_session_data
         (<[session_id := fst ended]>
            (ProctoringService.session_data (snd started)))
         (snd started)
  /\ ProctoringService.last_alert_times (snd again)
     = ProctoringService.last_alert_times self
  /\ (forall other now,
        ProctoringService.session_data (snd again) !! other = None ->
        ProctoringService.end_session (snd again) other now
        = (dict [("error", PyStr "Session not found")], snd again)
        /\ ProctoringService.get_session_summary (snd again) other
           = dict [("error", PyStr "Session not found")]).
Proof.
  cbv zeta.
  unfold ProctoringService.start_session, ProctoringService.end_session,
    ProctoringService.get_session_summary.
  cbn [fst snd ProctoringService.session_data
       ProctoringService.with_session_data ProctoringService.with_eye_tracker
       ProctoringService.with_audio_analyzer
       ProctoringService.with_frame_analyzer].
  repeat (rewrite lookup_insert_eq;
          cbn [fst snd ProctoringService.session_data
               ProctoringService.with_session_data]).
  repeat split; rewrite H; reflexivity.
Qed.

(** ** ObjectDetector: what is reported *)

Lemma class_name_cases (c : Z) :
  ObjectDetector.class_name c
  = if (c =? 67)%Z then Some "cell phone"
    else if (c =? 63)%Z then Some "laptop"
    else if (c =? 73)%Z then Some "book"
    else if (c =? 66)%Z then Some "keyboard"
    else if (c =? 64)%Z then Some "mouse"
    else if (c =? 62)%Z then Some "tv"
    else None.
Proof.
  unfold ObjectDetector.class_name, ObjectDetector.all_monitored_objects.
  cbn [List.find fst snd]. rewrite !(Z.eqb_sym _ c).
  repeat destruct (c =? _)%Z; reflexivity.
Qed.

(** What [detect_objects] makes of one box. *)
Lemma detect_objects_cons (b : ObjectDetector.box) rest :
  let monitored :=
    ObjectDetector.mem (ObjectDetector.cls b) [67; 63; 73; 66; 64; 62]%Z in
  exists o,
    ObjectDetector.detect_objects (b :: rest)
    = (if monitored then [o] else []) ++ ObjectDetector.detect_objects rest
    /\ ObjectDetector.class_id o = ObjectDetector.cls b
    /\ (monitored = true ->
        ObjectDetector.as_dict o !! "priority"
        = Some (PyStr (if (ObjectDetector.cls b =? 67)%Z
                       then "critical" else "high"))
        /\ ObjectDetector.as_dict o !! "is_high_priority"
           = Some (PyBool (ObjectDetector.cls b =? 67)%Z)
        /\ ObjectDetector.as_dict o !! "class_id"
           = Some (PyNum (inject_Z (ObjectDetector.cls b)))).
Proof.
  unfold ObjectDetector.detect_objects. cbn [omap list_omap].
  rewrite class_name_cases.
  unfold ObjectDetector.mem, ObjectDetector.high_priority,
    ObjectDetector.medium_priority. cbn [existsb].
  destruct b as [c cf a1 b1 a2 b2]. cbn [ObjectDetector.cls].
  destruct (c =? 67)%Z eqn:E67; [|destruct (c =? 63)%Z eqn:E63;
    [|destruct (c =? 73)%Z eqn:E73; [|destruct (c =? 66)%Z eqn:E66;
    [|destruct (c =? 64)%Z eqn:E64; [|destruct (c =? 62)%Z eqn:E62]]]]];
    cbn [orb];
    try (eexists; split; [reflexivity|]; split; [reflexivity|];
         intros _; repeat split; reflexivity).
  exists (ObjectDetector.mk_detected c ∅).
  split; [reflexivity|]. split; [reflexivity|]. discriminate.
Qed.

(** [detect_objects] keeps exactly the boxes of the six monitored classes,
    in order.  A phone is reported with priority critical and every other
    monitored object with priority high: the priority medium of the source
    is never assigned, since every monitored class is in one of the two
    priority lists. *)
Theorem detected_objects_are_the_monitored_boxes
    (boxes : list ObjectDetector.box) :
  let objects := ObjectDetector.detect_objects boxes in
  map ObjectDetector.class_id objects
  = List.filter (fun c => ObjectDetector.mem c [67; 63; 73; 66; 64; 62]%Z)
      (map ObjectDetector.cls boxes)
  /\ Forall (fun o =>
       ObjectDetector.as_dict o !! "priority"
       = Some (PyStr (if (ObjectDetector.class_id o =? 67)%Z
                      then "critical" else "high"))
       /\ ObjectDetector.as_dict o !! "is_high_priority"
          = Some (PyBool (ObjectDetector.class_id o =? 67)%Z)
       /\ ObjectDetector.as_dict o !! "class_id"
          = Some (PyNum (inject_Z (ObjectDetector.class_id o))))
     objects.
Proof.
  cbv zeta. induction boxes as [|b rest [IH1 IH2]]; [split; [reflexivity|constructor]|].
  destruct (detect_objects_cons b rest) as (o & -> & Hid & Hd).
  cbv zeta in Hd. cbn [map List.filter].
  destruct (ObjectDetector.mem (ObjectDetector.cls b) _).
  - cbn [app map]. rewrite Hid, IH1. split; [reflexivity|].
    constructor; [|exact IH2]. rewrite Hid. apply Hd. reflexivity.
  - cbn [app]. split; assumption.
Qed.

Lemma detected_phone (boxes : list ObjectDetector.box) :
  existsb (fun o => (ObjectDetector.class_id o =? 67)%Z)
    (ObjectDetector.detect_objects boxes)
  = existsb (fun b => (ObjectDetector.cls b =? 67)%Z) boxes.
Proof.
  induction boxes as [|b rest IH]; [reflexivity|].
  destruct (detect_objects_cons b rest) as (o & -> & Hid & _).
  cbn [existsb]. rewrite <- IH.
  unfold ObjectDetector.mem. cbn [existsb].
  destruct (ObjectDetector.cls b =? 67)%Z eqn:E; cbn [orb app existsb].
  - rewrite Hid, E. reflexivity.
  - destruct (_ || _); cbn [app existsb]; [rewrite Hid, E|]; reflexivity.
Qed.

Lemma detected_any (boxes : list ObjectDetector.box) :
  (0 <? length (ObjectDetector.detect_objects boxes))%nat
  = existsb (fun b => ObjectDetector.mem (ObjectDetector.cls b)
                        [67; 63; 73; 66; 64; 62]%Z) boxes.
Proof.
  induction boxes as [|b rest IH]; [reflexivity|].
  destruct (detect_objects_cons b rest) as (o & -> & _).
  cbn [existsb]. rewrite <- IH.
  destruct (ObjectDetector.mem (ObjectDetector.cls b) _);
    cbn [app length orb]; reflexivity.
Qed.

Lemma high_priority_filter (l : list ObjectDetector.detected) :
  filter (fun o => ObjectDetector.mem (ObjectDetector.class_id o)
                     ObjectDetector.high_priority = true) l
  = List.filter (fun o => (ObjectDetector.class_id o =? 67)%Z) l.
Proof.
  induction l as [|o l IH]; [reflexivity|].
  rewrite filter_cons. cbn [List.filter]. rewrite IH.
  unfold ObjectDetector.mem, ObjectDetector.high_priority. cbn [existsb].
  rewrite orb_false_r.
  destruct (ObjectDetector.class_id o =? 67)%Z eqn:E.
  - rewrite decide_True by reflexivity. reflexivity.
  - rewrite decide_False by discriminate. reflexivity.
Qed.

(** The summary of [check_prohibited_objects] in terms of the boxes: it is
    a violation exactly when some box is of a monitored class, [has_phone]
    exactly when some box is a phone, which is then also a violation; the
    alert type names the phone first; [high_priority_violations] are the
    phones among the reported objects. *)
Theorem prohibited_objects_summary (boxes : list ObjectDetector.box) :
  let r := ObjectDetector.check_prohibited_objects boxes in
  let objects := ObjectDetector.detect_objects boxes in
  let phone := existsb (fun b => (ObjectDetector.cls b =? 67)%Z) boxes in
  let monitored :=
    existsb (fun b => ObjectDetector.mem (ObjectDetector.cls b)
                        [67; 63; 73; 66; 64; 62]%Z) boxes in
  r !! "has_phone" = Some (PyBool phone)
  /\ r !! "violation" = Some (PyBool monitored)
  /\ (phone = true -> monitored = true)
  /\ r !! "alert_type"
     = Some (if phone then PyStr "phone_detected"
             else if monitored then PyStr "prohibited_object_detected"
             else PyNone)
  /\ r !! "objects"
     = Some (PyList (map (fun o => PyDict (ObjectDetector.as_dict o)) objects))
  /\ r !! "high_priority_violations"
     = Some (PyList
               (map (fun o => PyDict (ObjectDetector.as_dict o))
                  (List.filter
                     (fun o => (ObjectDetector.class_id o =? 67)%Z) objects)))
  /\ r !! "num_objects"
     = Some (PyNum (inject_Z (Z.of_nat (length objects)))).
Proof.
  cbv zeta.
  unfold ObjectDetector.check_prohibited_objects. cbv zeta.
  rewrite detected_phone, detected_any, high_priority_filter.
  split; [reflexivity|]. split; [reflexivity|].
  split.
  { intros H. apply existsb_exists in H as (b & Hin & Hb).
    apply existsb_exists. exists b. split; [exact Hin|].
    unfold ObjectDetector.mem. cbn [existsb]. rewrite Hb. reflexivity. }
  repeat split; reflexivity.
Qed.

Lemma prohibited_objects_lookup (boxes : list ObjectDetector.box) :
  ObjectDetector.check_prohibited_objects boxes !! "violation"
  = Some (PyBool
            (existsb (fun b => ObjectDetector.mem (ObjectDetector.cls b)
                                 [67; 63; 73; 66; 64; 62]%Z) boxes))
  /\ ObjectDetector.check_prohibited_objects boxes !! "has_phone"
     = Some (PyBool
               (existsb (fun b => (ObjectDetector.cls b =? 67)%Z) boxes)).
Proof.
  unfold ObjectDetector.check_prohibited_objects. cbv zeta.
  rewrite detected_phone, detected_any. split; reflexivity.
Qed.

(** ** ProctoringService: a frame with nobody in it *)

Section EmptyScene.
Context {Frame : Type}.
Variable gray_mean : Frame -> option Q.
Variable ssim : Frame -> Frame -> option Q.
Variable json_loads : string -> option pyval.
Variable settings : Settings.t.
Implicit Types self : ProctoringService.t Frame.
Implicit Types obs : ProctoringService.observation Frame.
Implicit Types s : ProctoringService.st Frame.

Lemma face_block_no_face obs session_id s :
  (0 <= Settings.MAX_FACES_ALLOWED settings)%Z ->
  ProctoringService.detections obs = Some [] ->
  let face_result :=
    FaceDetector.check_multiple_faces [] (Settings.MAX_FACES_ALLOWED settings) in
  ProctoringService.face_block json_loads settings obs session_id s
  = (inr face_result,
     (fst s, Results.set_face_detection face_result (snd s))).
Proof.
  intros Hmax Hd. cbv zeta.
  unfold ProctoringService.face_block, bind, ProctoringService.get_self,
    lift_exc, ProctoringService.on_results, modify, ret.
  rewrite Hd.
  assert (Hv : getitem (FaceDetector.check_multiple_faces []
                          (Settings.MAX_FACES_ALLOWED settings)) "violation"
               = inr (PyBool false)).
  { unfold FaceDetector.check_multiple_faces. cbn [FaceDetector.detect_faces
      length Z.of_nat map].
    change (Z.of_nat 0) with 0%Z.
    destruct (Z.ltb_spec (Settings.MAX_FACES_ALLOWED settings) 0); [lia|].
    reflexivity. }
  rewrite Hv. reflexivity.
Qed.

Lemma gaze_block_no_face obs session_id s :
  let face_result :=
    FaceDetector.check_multiple_faces [] (Settings.MAX_FACES_ALLOWED settings) in
  ProctoringService.gaze_block json_loads settings obs session_id face_result s
  = (inr tt, s).
Proof.
  cbv zeta.
  unfold ProctoringService.gaze_block, bind, ProctoringService.get_self,
    lift_exc.
  assert (Hn : getitem (FaceDetector.check_multiple_faces []
                          (Settings.MAX_FACES_ALLOWED settings)) "num_faces"
               = inr (PyNum (inject_Z 0))).
  { unfold FaceDetector.check_multiple_faces. cbn [FaceDetector.detect_faces
      length Z.of_nat map].
    change (Z.of_nat 0) with 0%Z.
    destruct (Settings.MAX_FACES_ALLOWED settings <? 0)%Z; reflexivity. }
  rewrite Hn. reflexivity.
Qed.

Lemma object_block_no_object obs session_id s boxes :
  ProctoringService.boxes obs = Some boxes ->
  existsb (fun b => ObjectDetector.mem (ObjectDetector.cls b)
                      [67; 63; 73; 66; 64; 62]%Z) boxes = false ->
  ProctoringService.object_block json_loads settings obs session_id s
  = (inr tt,
     (fst s,
      Results.set_object_detection
        (ObjectDetector.check_prohibited_objects boxes) (snd s))).
Proof.
  intros Hb Hm.
  unfold ProctoringService.object_block, bind, ProctoringService.get_self,
    lift_exc, ProctoringService.on_results, modify.
  rewrite Hb.
  destruct (prohibited_objects_lookup boxes) as [Hv _].
  unfold getitem. rewrite Hv, Hm. reflexivity.
Qed.

(** A frame that is admitted and shows no face and no monitored object
    raises nothing: status ok, no violation, no alert, no error.  The gaze
    tracker is not run on it, so its result is empty and the tracker, with
    an away interval that may be open, is left as it was; the cooldown
    table is not written. *)
Theorem an_empty_scene_raises_nothing self obs session_id boxes :
  (0 <= Settings.MAX_FACES_ALLOWED settings)%Z ->
  fst (fst (FrameAnalyzer.should_process_frame gray_mean ssim
              (ProctoringService.frame_analyzer self)
              (ProctoringService.image obs)
              (ProctoringService.frame_skip_mod self))) = true ->
  ProctoringService.detections obs = Some [] ->
  ProctoringService.boxes obs = Some boxes ->
  existsb (fun b => ObjectDetector.mem (ObjectDetector.cls b)
                      [67; 63; 73; 66; 64; 62]%Z) boxes = false ->
  let out :=
    ProctoringService.process_frame gray_mean ssim json_loads settings self obs
      session_id in
  Results.status (fst out) = "ok"
  /\ Results.violations (fst out) = []
  /\ Results.alerts (fst out) = []
  /\ Results.error (fst out) = None
  /\ Results.skip_reason (fst out) = None
  /\ Results.eye_tracking (fst out) = ∅
  /\ ProctoringService.eye_tracker (snd out) = ProctoringService.eye_tracker self
  /\ ProctoringService.last_alert_times (snd out)
     = ProctoringService.last_alert_times self.
Proof.
  intros Hmax Hsp Hd Hb Hm. cbv zeta.
  assert (E : ProctoringService.process_frame gray_mean ssim json_loads
                settings self obs session_id
              = (Results.set_object_detection
                   (ObjectDetector.check_prohibited_objects boxes)
                   (Results.set_face_detection
                      (FaceDetector.check_multiple_faces []
                         (Settings.MAX_FACES_ALLOWED settings))
                      (Results.mk (ProctoringService.ts_result obs) session_id
                         [] [] ∅ ∅ ∅ ∅ "ok" true None None)),
                 ProctoringService.with_frame_analyzer
                   (snd (FrameAnalyzer.should_process_frame gray_mean ssim
                           (ProctoringService.frame_analyzer self)
                           (ProctoringService.image obs)
                           (ProctoringService.frame_skip_mod self)))
                   self)).
  { unfold ProctoringService.process_frame,
      ProctoringService.process_frame_body.
    unfold bind at 1.
    pose proof (should_process_frame_black gray_mean ssim
                  (ProctoringService.frame_analyzer self)
                  (ProctoringService.image obs)
                  (ProctoringService.frame_skip_mod self)) as [_ Hblack].
    cbv zeta in Hblack. specialize (Hblack Hsp). cbn [fst snd].
    destruct (FrameAnalyzer.should_process_frame gray_mean ssim
                (ProctoringService.frame_analyzer self)
                (ProctoringService.image obs)
                (ProctoringService.frame_skip_mod self)) as [[sp reason] fa].
    cbn [fst snd] in Hsp, Hblack |- *. subst sp. cbn [negb].
    unfold bind.
    rewrite (black_screen_block_skip gray_mean) by exact Hblack.
    rewrite (face_block_no_face _ _ _ Hmax Hd).
    rewrite gaze_block_no_face.
    rewrite (object_block_no_object _ _ _ boxes Hb Hm).
    reflexivity. }
  rewrite E. cbn [fst snd]. repeat split.
Qed.
End EmptyScene.

Lemma an_empty_scene_raises_nothing_witness :
  let obs :=
    ProctoringService.mk_observation Demo.bright 1 (Some []) (Some None) 1
      (Some [ObjectDetector.mk_box 56 (9 # 10) 0 0 10 10])
      (GeminiViolationVerifier.Raises "unused")
      (GeminiViolationVerifier.Raises "unused")
      (GeminiViolationVerifier.Raises "unused")
      (Demo.at_time 1) (Demo.at_time 1) (Demo.at_time 1) (Demo.at_time 1) in
  Results.status
    (fst (ProctoringService.process_frame Demo.gray_mean Demo.ssim
            Demo.json_loads Settings.defaults
            (ProctoringService.init Settings.defaults) obs "s1"))
  = "ok".
Proof.
  intros obs.
  apply (an_empty_scene_raises_nothing Demo.gray_mean Demo.ssim Demo.json_loads
           Settings.defaults (ProctoringService.init Settings.defaults) obs
           "s1" [ObjectDetector.mk_box 56 (9 # 10) 0 0 10 10]).
  - simpl. lia.
  - vm_compute. reflexivity.
  - reflexivity.
  - reflexivity.
  - vm_compute. reflexivity.
Defined.

(** ** GeminiViolationVerifier: what every answer carries *)

Section VerifierAnswers.
Variable json_loads : string -> option pyval.

(** Whatever the verifier's state, the reply of the model and the detector
    data, the answer of each verifier carries a verdict, a confidence and a
    reasoning, so that reading these keys in [process_frame] never raises;
    the reasoning is the given default unless the parsed reply supplies
    one. *)
Theorem verifier_answers_carry_the_verdict_keys
    (self : GeminiViolationVerifier.t) (r : GeminiViolationVerifier.reply)
    (data : gmap string pyval) :
  Forall (fun ai =>
            is_Some (ai !! "verified") /\ is_Some (ai !! "confidence")
            /\ is_Some (ai !! "reasoning"))
    [GeminiViolationVerifier.verify_eye_tracking_violation json_loads self r
       data;
     GeminiViolationVerifier.verify_multiple_persons_violation json_loads self
       r data;
     GeminiViolationVerifier.verify_object_detection_violation json_loads self
       r data].
Proof.
  unfold GeminiViolationVerifier.verify_eye_tracking_violation,
    GeminiViolationVerifier.verify_multiple_persons_violation,
    GeminiViolationVerifier.verify_object_detection_violation.
  destruct (GeminiViolationVerifier.enabled self); cbn [negb];
    [destruct r as [msg|text];
     [|destruct (GeminiViolationVerifier._parse_gemini_response json_loads text)]|];
    repeat constructor; eexists; reflexivity.
Qed.

(** Without an API key the verifier is disabled whatever
    [ENABLE_AI_VERIFICATION] says: all three verifiers answer "verified,
    confidence 1.0" without looking at the reply, and [process_frame], which
    consults the setting and not the verifier's flag, approves the violation
    exactly when the confidence threshold is at most 1. *)
Theorem a_verifier_without_key_passes_everything
    (settings : Settings.t) (flag : bool) (r : GeminiViolationVerifier.reply)
    (data : gmap string pyval) :
  let self := GeminiViolationVerifier.init "" flag in
  Forall (fun ai =>
            ai !! "verified" = Some (PyBool true)
            /\ ai !! "confidence" = Some (PyNum 1)
            /\ ai !! "reasoning" = Some (PyStr "AI verification disabled")
            /\ ai_approves settings ai
               = Qgeb 1 (Settings.AI_VERIFICATION_CONFIDENCE_THRESHOLD settings))
    [GeminiViolationVerifier.verify_eye_tracking_violation json_loads self r
       data;
     GeminiViolationVerifier.verify_multiple_persons_violation json_loads self
       r data;
     GeminiViolationVerifier.verify_object_detection_violation json_loads self
       r data].
Proof.
  cbv zeta. repeat constructor.
Qed.
End VerifierAnswers.

(** ** GeminiViolationVerifier: replies in a code fence *)

Lemma string_length_app (a b : string) :
  String.length (a +:+ b) = (String.length a + String.length b)%nat.
Proof. induction a as [|x a IH]; simpl; [reflexivity | rewrite IH; reflexivity]. Qed.

Lemma string_length_rev (s : string) :
  String.length (String.rev s) = String.length s.
Proof.
  induction s as [|a s IH]; [reflexivity|].
  rewrite string_rev_cons, string_length_app, IH. cbn. lia.
Qed.

Lemma py_lstrip_length (s : string) :
  (String.length (py_lstrip s) <= String.length s)%nat.
Proof.
  induction s as [|c s IH]; cbn; [lia|].
  destruct (py_isspace c); cbn; lia.
Qed.

Lemma py_lstrip_fixed (s : string) :
  String.length (py_lstrip s) = String.length s -> py_lstrip s = s.
Proof.
  destruct s as [|c s]; [reflexivity|]. cbn.
  destruct (py_isspace c); [|reflexivity].
  pose proof (py_lstrip_length s). cbn. lia.
Qed.

(** A string that [strip] leaves alone starts and ends with no space. *)
Lemma py_strip_fixed (s : string) :
  py_strip s = s ->
  py_lstrip s = s /\ py_lstrip (String.rev s) = String.rev s.
Proof.
  unfold py_strip. intros H.
  pose proof (py_lstrip_length s) as L1.
  pose proof (py_lstrip_length (String.rev (py_lstrip s))) as L2.
  pose proof (f_equal String.length H) as L.
  rewrite string_length_rev in L. rewrite string_length_rev in L2.
  assert (E1 : py_lstrip s = s) by (apply py_lstrip_fixed; lia).
  split; [exact E1|].
  rewrite E1 in L. apply py_lstrip_fixed.
  rewrite string_length_rev. exact L.
Qed.

Lemma py_lstrip_app (s x : string) :
  s <> "" -> py_lstrip s = s -> py_lstrip (s +:+ x) = s +:+ x.
Proof.
  destruct s as [|c s]; [congruence|]. intros _.
  rewrite string_app_cons. cbn [py_lstrip].
  destruct (py_isspace c) eqn:E; [|reflexivity].
  intros H. pose proof (py_lstrip_length s) as L.
  apply (f_equal String.length) in H. cbn in H. lia.
Qed.

Lemma string_rev_nil (s : string) : String.rev s = "" -> s = "".
Proof.
  intros H. apply (f_equal String.length) in H.
  rewrite string_length_rev in H. destruct s; [reflexivity|discriminate].
Qed.

(** [strip] removes a line break on either side of a stripped string. *)
Lemma py_strip_between_newlines (body : string) :
  py_strip body = body ->
  py_strip ((newline +:+ body) +:+ newline) = body.
Proof.
  intros H. apply py_strip_fixed in H as [H1 H2].
  destruct (String.eqb_spec body "") as [->|Hne]; [reflexivity|].
  unfold py_strip. rewrite string_app_assoc.
  change (py_lstrip (newline +:+ (body +:+ newline)))
    with (py_lstrip (body +:+ newline)).
  rewrite (py_lstrip_app body _ Hne H1).
  rewrite string_rev_app.
  change (String.rev newline) with newline.
  change (py_lstrip (newline +:+ String.rev body))
    with (py_lstrip (String.rev body)).
  rewrite H2. apply string_rev_involutive.
Qed.

Lemma py_strip_fenced (tag body : string) :
  py_strip (fenced tag body) = fenced tag body.
Proof.
  unfold py_strip.
  assert (H1 : py_lstrip (fenced tag body) = fenced tag body) by reflexivity.
  rewrite H1.
  assert (H2 : py_lstrip (String.rev (fenced tag body))
               = String.rev (fenced tag body)).
  { unfold fenced. rewrite !string_rev_app.
    change (String.rev "```") with "```". rewrite !string_app_assoc.
    reflexivity. }
  rewrite H2. apply string_rev_involutive.
Qed.

Lemma prefix_fence_json (s : string) :
  String.prefix "```json" s = true -> String.prefix "```" s = true.
Proof.
  intros H.
  destruct s as [|c1 [|c2 [|c3 s]]]; cbn [String.prefix] in *;
    repeat match goal with
           | H : context [Ascii.ascii_dec ?a ?b] |- _ =>
               destruct (Ascii.ascii_dec a b)
           end;
    try discriminate.
  destruct s; reflexivity.
Qed.

Section Fences.
Variable json_loads : string -> option pyval.

(** A reply that wraps its JSON in a code fence, tagged json or untagged,
    parses to the same value as the bare JSON: the fences and the line
    breaks inside them are removed before [json.loads] sees the text. *)
Theorem fenced_reply_parses_like_the_bare_json (body : string) (v : pyval) :
  py_strip body = body ->
  py_startswith body "```" = false ->
  py_endswith body "```" = false ->
  json_loads body = Some v ->
  GeminiViolationVerifier._parse_gemini_response json_loads body = v
  /\ GeminiViolationVerifier._parse_gemini_response json_loads
       (fenced "json" body) = v
  /\ GeminiViolationVerifier._parse_gemini_response json_loads
       (fenced "" body) = v.
Proof.
  intros Hs Hp He Hv.
  assert (Hend :
             py_endswith ((newline +:+ body) +:+ (newline +:+ "```")) "```"
             = true
             /\ py_drop_end 3 ((newline +:+ body) +:+ (newline +:+ "```"))
                = (newline +:+ body) +:+ newline).
  { unfold py_endswith, py_drop_end.
    rewrite !string_rev_app. change (String.rev "```") with "```".
    rewrite !string_app_assoc. split; [reflexivity|].
    change (py_drop 3 ("```" +:+ String.rev newline
                       +:+ String.rev body +:+ String.rev newline))
      with (String.rev newline +:+ String.rev body +:+ String.rev newline).
    rewrite <- !string_rev_app, string_rev_involutive.
    rewrite string_app_assoc. reflexivity. }
  destruct Hend as [He1 He2].
  unfold GeminiViolationVerifier._parse_gemini_response.
  repeat split.
  - rewrite Hs.
    destruct (py_startswith body "```json") eqn:Hj.
    { apply prefix_fence_json in Hj. unfold py_startswith in Hp. congruence. }
    rewrite Hp, He, Hs, Hv. reflexivity.
  - rewrite py_strip_fenced.
    change (py_startswith (fenced "json" body) "```json") with true.
    change (py_drop 7 (fenced "json" body))
      with ((newline +:+ body) +:+ (newline +:+ "```")).
    cbv iota.
    change (py_startswith ((newline +:+ body) +:+ (newline +:+ "```")) "```")
      with false.
    cbv iota. rewrite He1, He2, (py_strip_between_newlines body Hs), Hv.
    reflexivity.
  - rewrite py_strip_fenced.
    change (py_startswith (fenced "" body) "```json") with false.
    cbv iota.
    change (py_startswith (fenced "" body) "```") with true.
    change (py_drop 3 (fenced "" body))
      with ((newline +:+ body) +:+ (newline +:+ "```")).
    cbv iota. rewrite He1, He2, (py_strip_between_newlines body Hs), Hv.
    reflexivity.
Qed.
End Fences.

Lemma fenced_reply_parses_like_the_bare_json_witness :
  GeminiViolationVerifier._parse_gemini_response Demo.json_loads
    (fenced "json" "{}")
  = PyDict ∅.
Proof.
  apply (fenced_reply_parses_like_the_bare_json Demo.json_loads "{}" (PyDict ∅));
    reflexivity.
Defined.

(** ** ProctoringService: a rejected detection and the cooldown *)

Section RejectedDetection.
Context {Frame : Type}.
Variable settings : Settings.t.
Implicit Types self : ProctoringService.t Frame.

Lemma route_violation_rejected session_id alert_type details data tk ai self res :
  Settings.ENABLE_AI_VERIFICATION settings = true ->
  fst (ProctoringService._should_create_alert self session_id alert_type
         (ProctoringService.t_check tk)) = true ->
  ai_approves settings ai = false ->
  snd (ProctoringService.route_violation settings session_id alert_type details
         data tk ai (self, res))
  = (snd (ProctoringService._should_create_alert self session_id alert_type
            (ProctoringService.t_check tk)), res).
Proof.
  intros He Hok Hrej.
  unfold ProctoringService.route_violation, ProctoringService.should_create_alert,
    bind, lift_exc, ProctoringService.on_results, modify.
  cbn [fst snd].
  destruct (ProctoringService._should_create_alert self session_id alert_type
              (ProctoringService.t_check tk)) as [ok self1].
  cbn [fst snd] in Hok |- *. subst ok. rewrite He.
  destruct details as [e|[sev desc]]; [reflexivity|]. cbn [andb].
  unfold ai_approves in Hrej.
  destruct (getitem ai "verified") as [e|verified]; [reflexivity|].
  destruct (getitem ai "confidence") as [e|confidence]; [reflexivity|].
  destruct (getitem ai "reasoning") as [e|reasoning]; [reflexivity|].
  destruct (truthy verified).
  - destruct (py_ge confidence _) as [e|approved]; [reflexivity|].
    subst approved. destruct (fmt_float confidence); reflexivity.
  - destruct (fmt_float confidence); reflexivity.
Qed.

Lemma route_violation_inside_window
    session_id alert_type d data tk ai self res last :
  ProctoringService.last_alert_times self
    !! ProctoringService.cooldown_key session_id alert_type = Some last ->
  (ProctoringService.t_check tk - last
   < inject_Z (ProctoringService.alert_cooldown self))%Q ->
  ProctoringService.route_violation settings session_id alert_type (inr d)
    data tk ai (self, res)
  = (inr tt,
     (self,
      Results.add_violation
        (Violation.mk alert_type (fst d) (snd d)
           (ProctoringService.ts_violation tk) data None None None) res)).
Proof.
  intros Hlast Hin.
  unfold ProctoringService.route_violation, ProctoringService.should_create_alert,
    bind, lift_exc, ProctoringService.on_results, modify,
    ProctoringService._should_create_alert.
  cbn [fst snd]. rewrite Hlast.
  assert (Hc : Qgeb (ProctoringService.t_check tk - last)
                 (inject_Z (ProctoringService.alert_cooldown self)) = false)
    by (apply Qgeb_lt; exact Hin).
  rewrite Hc. destruct d as [sev desc]. reflexivity.
Qed.

(** A detection that the verifier rejects still uses up the cooldown slot:
    with verification enabled, when the cooldown check of a detection at
    [t1] passes and the verifier does not approve, nothing is recorded but
    the slot is stamped [t1]; a second detection of the same type inside the
    window is then recorded as a violation without an alert, and the
    verifier's answer to it plays no part. *)
Theorem rejected_detection_uses_up_the_cooldown
    self res session_id alert_type details d2 data1 data2 ai1 ai2 tk1 tk2 :
  Settings.ENABLE_AI_VERIFICATION settings = true ->
  fst (ProctoringService._should_create_alert self session_id alert_type
         (ProctoringService.t_check tk1)) = true ->
  ai_approves settings ai1 = false ->
  (ProctoringService.t_check tk2 - ProctoringService.t_check tk1
   < inject_Z (ProctoringService.alert_cooldown self))%Q ->
  let s1 :=
    snd (ProctoringService.route_violation settings session_id alert_type
           details data1 tk1 ai1 (self, res)) in
  let out2 :=
    ProctoringService.route_violation settings session_id alert_type (inr d2)
      data2 tk2 ai2 s1 in
  snd s1 = res
  /\ ProctoringService.last_alert_times (fst s1)
       !! ProctoringService.cooldown_key session_id alert_type
     = Some (ProctoringService.t_check tk1)
  /\ fst out2 = inr tt
  /\ Results.violations (snd (snd out2))
     = Results.violations res
       ++ [Violation.mk alert_type (fst d2) (snd d2)
             (ProctoringService.ts_violation tk2) data2 None None None]
  /\ Results.alerts (snd (snd out2)) = Results.alerts res
  /\ fst (snd out2) = fst s1.
Proof.
  intros He Hok Hrej Hin. cbv zeta.
  rewrite (route_violation_rejected _ _ _ _ _ _ _ _ He Hok Hrej).
  set (check := ProctoringService._should_create_alert self session_id
                  alert_type (ProctoringService.t_check tk1)) in *.
  assert (Hlast : ProctoringService.last_alert_times (snd check)
                    !! ProctoringService.cooldown_key session_id alert_type
                  = Some (ProctoringService.t_check tk1)).
  { destruct (should_create_alert_rule self session_id alert_type
                (ProctoringService.t_check tk1)) as [R1 R2].
    cbv zeta in R1, R2. fold check in R1, R2.
    destruct (ProctoringService.last_alert_times self
                !! ProctoringService.cooldown_key session_id alert_type)
      as [last|] eqn:E.
    - destruct (R2 last eq_refl) as [_ H]. rewrite Hok in H. exact H.
    - apply R1. reflexivity. }
  assert (Hcd : ProctoringService.alert_cooldown (snd check)
                = ProctoringService.alert_cooldown self).
  { destruct (should_create_alert_writes self session_id alert_type
                (ProctoringService.t_check tk1)) as (_ & H & _). exact H. }
  rewrite (route_violation_inside_window session_id alert_type d2 data2 tk2 ai2
             (snd check) res (ProctoringService.t_check tk1) Hlast)
    by (rewrite Hcd; exact Hin).
  cbn [fst snd]. repeat split; assumption.
Qed.
End RejectedDetection.

Lemma rejected_detection_uses_up_the_cooldown_witness :
  let self : ProctoringService.t Demo.Frame :=
    ProctoringService.init Demo.enabled_settings in
  let res := Results.mk 0 "s1" [] [] ∅ ∅ ∅ ∅ "ok" true None None in
  let rejected :=
    dict [("verified", PyBool false); ("confidence", PyNum (9 # 10));
          ("reasoning", PyStr "a poster on the wall")] in
  let s1 :=
    snd (ProctoringService.route_violation Demo.enabled_settings "s1"
           "multiple_persons" (inr ("high", [Lit "Detected 2 persons"])) ∅
           (Demo.at_time 10) rejected (self, res)) in
  Results.alerts
    (snd (snd (ProctoringService.route_violation Demo.enabled_settings "s1"
                 "multiple_persons" (inr ("high", [Lit "Detected 2 persons"]))
                 ∅ (Demo.at_time 11) ∅ s1)))
  = [].
Proof.
  intros self res rejected s1.
  apply (rejected_detection_uses_up_the_cooldown Demo.enabled_settings self res
           "s1" "multiple_persons" (inr ("high", [Lit "Detected 2 persons"]))
           ("high", [Lit "Detected 2 persons"]) ∅ ∅ rejected ∅
           (Demo.at_time 10) (Demo.at_time 11)).
  - reflexivity.
  - reflexivity.
  - reflexivity.
  - vm_compute. reflexivity.
Defined.

(** ** ConnectionManager: the registry of sockets *)

Section DictItems.
Context {V : Type}.
Implicit Types items : list (string * V).

Lemma dict_get_None k items : dict_get k items = None <-> k ∉ map fst items.
Proof.
  induction items as [|[k' v'] rest IH]; cbn [dict_get map fst].
  - split; [intros _; apply not_elem_of_nil | reflexivity].
  - rewrite not_elem_of_cons. destruct (String.eqb_spec k' k) as [->|Hne].
    + split; [discriminate | intros [H _]; congruence].
    + rewrite IH. split; [intros H; split; [congruence | exact H] | tauto].
Qed.

Lemma dict_get_set k v items k2 :
  dict_get k2 (dict_set k v items)
  = if String.eqb k k2 then Some v else dict_get k2 items.
Proof.
  induction items as [|[k' v'] rest IH]; cbn [dict_get dict_set].
  - destruct (String.eqb k k2); reflexivity.
  - destruct (String.eqb_spec k' k) as [->|Hne]; cbn [dict_get].
    + destruct (String.eqb k k2); reflexivity.
    + rewrite IH. destruct (String.eqb_spec k' k2) as [->|Hne2];
        [|reflexivity].
      destruct (String.eqb_spec k k2); [congruence|reflexivity].
Qed.

Lemma dict_keys_set k v items :
  map fst (dict_set k v items)
  = match dict_get k items with
    | Some _ => map fst items
    | None => map fst items ++ [k]
    end.
Proof.
  induction items as [|[k' v'] rest IH]; cbn [dict_get dict_set map fst app];
    [reflexivity|].
  destruct (String.eqb k' k); [reflexivity|].
  cbn [map fst]. rewrite IH. destruct (dict_get k rest); reflexivity.
Qed.

Lemma dict_keys_del k items :
  forall k2, k2 ∈ map fst (dict_del k items) -> k2 ∈ map fst items.
Proof.
  induction items as [|[k' v'] rest IH]; cbn [dict_del map fst]; intros k2;
    [trivial|].
  destruct (String.eqb k' k); cbn [map fst]; rewrite ?elem_of_cons; [tauto|].
  intros [H|H]; [tauto | right; apply IH, H].
Qed.

Lemma dict_del_NoDup k items :
  NoDup (map fst items) -> NoDup (map fst (dict_del k items)).
Proof.
  induction items as [|[k' v'] rest IH]; cbn [dict_del map fst]; [trivial|].
  intros H. apply NoDup_cons in H as [Hk Hrest].
  destruct (String.eqb k' k); [exact Hrest|].
  cbn [map fst]. apply NoDup_cons. split; [|apply IH, Hrest].
  intros Hin. apply Hk. apply (dict_keys_del k rest), Hin.
Qed.

Lemma dict_get_del k items k2 :
  NoDup (map fst items) ->
  dict_get k2 (dict_del k items)
  = if String.eqb k k2 then None else dict_get k2 items.
Proof.
  induction items as [|[k' v'] rest IH]; cbn [dict_get dict_del map fst];
    intros H.
  - destruct (String.eqb k k2); reflexivity.
  - apply NoDup_cons in H as [Hk Hrest].
    destruct (String.eqb_spec k' k) as [->|Hne].
    + destruct (String.eqb_spec k k2) as [->|Hne2]; [|reflexivity].
      apply dict_get_None, Hk.
    + cbn [dict_get]. rewrite (IH Hrest).
      destruct (String.eqb_spec k' k2) as [->|Hne2]; [|reflexivity].
      destruct (String.eqb_spec k k2); [congruence|reflexivity].
Qed.

Lemma dict_del_set k v items :
  dict_del k (dict_set k v items)
  = match dict_get k items with
    | Some _ => dict_del k items
    | None => items
    end.
Proof.
  induction items as [|[k' v'] rest IH]; cbn [dict_get dict_set dict_del].
  - rewrite String.eqb_refl. reflexivity.
  - destruct (String.eqb k' k) eqn:E; cbn [dict_del]; rewrite E;
      [reflexivity|].
    rewrite IH. destruct (dict_get k rest); reflexivity.
Qed.

Lemma dict_set_NoDup k v items :
  NoDup (map fst items) -> NoDup (map fst (dict_set k v items)).
Proof.
  intros H. rewrite dict_keys_set.
  destruct (dict_get k items) eqn:E; [exact H|].
  apply NoDup_app. split; [exact H|]. split; [|apply NoDup_singleton].
  intros x Hx Hk. apply list_elem_of_singleton in Hk as ->.
  apply dict_get_None in E. contradiction.
Qed.
End DictItems.

Section Registry.
Context {WebSocket : Type}.
Variable alive : WebSocket -> bool.
Implicit Types m : ConnectionManager.t WebSocket.

(** The registry behaves as a dictionary keyed by session.  A successful
    [connect] registers the socket under the session, in place of a socket
    registered before, and touches no other session; a failed one leaves
    the registry alone.  [disconnect] removes whatever socket the session
    has, so that disconnecting after a reconnect removes the new socket
    too.  A personal message to a session without a socket is dropped
    silently. *)
Theorem connection_registry_laws m (websocket : WebSocket)
    (session_id : string) (message : gmap string pyval) :
  NoDup (map fst (ConnectionManager.active_connections m)) ->
  let attempt := ConnectionManager.connect alive m websocket session_id in
  let connected := snd attempt in
  let gone := ConnectionManager.disconnect m session_id in
  (if alive websocket then
     fst attempt = inr tt
     /\ ConnectionManager.get_connection connected session_id = Some websocket
     /\ length (ConnectionManager.active_connections connected)
        = (if ConnectionManager.is_connected m session_id
           then length (ConnectionManager.active_connections m)
           else S (length (ConnectionManager.active_connections m)))
     /\ ConnectionManager.disconnect connected session_id = gone
   else attempt = (inl (External "websocket"), m))
  /\ NoDup (map fst (ConnectionManager.active_connections connected))
  /\ NoDup (map fst (ConnectionManager.active_connections gone))
  /\ ConnectionManager.is_connected gone session_id = false
  /\ ConnectionManager.send_personal_message alive gone message session_id
     = (inr tt, [])
  /\ (forall other, other <> session_id ->
        ConnectionManager.get_connection connected other
        = ConnectionManager.get_connection m other
        /\ ConnectionManager.get_connection gone other
           = ConnectionManager.get_connection m other).
Proof.
  intros Hnd. cbv zeta.
  unfold ConnectionManager.connect, ConnectionManager.disconnect,
    ConnectionManager.get_connection, ConnectionManager.is_connected,
    ConnectionManager.send_personal_message.
  destruct m as [items]. cbn [ConnectionManager.active_connections] in *.
  assert (Hgone : dict_get session_id
                    (ConnectionManager.active_connections
                       match dict_get session_id items with
                       | Some _ => ConnectionManager.mk (dict_del session_id items)
                       | None => ConnectionManager.mk items
                       end) = None).
  { destruct (dict_get session_id items) eqn:E;
      cbn [ConnectionManager.active_connections]; [|exact E].
    rewrite (dict_get_del _ _ _ Hnd), String.eqb_refl. reflexivity. }
  split; [|split; [|split; [|split; [|split]]]].
  - destruct (alive websocket); [|reflexivity].
    cbn [fst snd ConnectionManager.active_connections].
    split; [reflexivity|].
    rewrite dict_get_set, String.eqb_refl. split; [reflexivity|].
    split.
    + rewrite <- (length_map fst (dict_set _ _ _)), dict_keys_set.
      destruct (dict_get session_id items);
        rewrite ?length_app, length_map; cbn [length]; lia.
    + rewrite dict_del_set. destruct (dict_get session_id items); reflexivity.
  - destruct (alive websocket); cbn [snd ConnectionManager.active_connections];
      [apply dict_set_NoDup|]; exact Hnd.
  - destruct (dict_get session_id items);
      cbn [ConnectionManager.active_connections];
      [apply dict_del_NoDup|]; exact Hnd.
  - rewrite Hgone. reflexivity.
  - rewrite Hgone. reflexivity.
  - intros other Hne. split.
    + destruct (alive websocket);
        cbn [snd ConnectionManager.active_connections]; [|reflexivity].
      rewrite dict_get_set.
      destruct (String.eqb_spec session_id other); [congruence|reflexivity].
    + destruct (dict_get session_id items);
        cbn [ConnectionManager.active_connections]; [|reflexivity].
      rewrite (dict_get_del _ _ _ Hnd).
      destruct (String.eqb_spec session_id other); [congruence|reflexivity].
Qed.

Lemma dict_set_items {V : Type} (k : string) (v : V) (items : list (string * V)) :
  (dict_get k items = None /\ dict_set k v items = items ++ [(k, v)])
  \/ (exists before old after,
        items = before ++ (k, old) :: after
        /\ dict_get k before = None
        /\ dict_set k v items = before ++ (k, v) :: after).
Proof.
  induction items as [|[k' v'] rest IH]; cbn [dict_get dict_set].
  - left. split; reflexivity.
  - destruct (String.eqb_spec k' k) as [->|Hne].
    + right. exists [], v', rest. repeat split.
    + destruct IH as [[Hn Hs]|(before & old & after & Hi & Hb & Hs)].
      * left. split; [exact Hn|]. rewrite Hs. reflexivity.
      * right. exists ((k', v') :: before), old, after.
        rewrite Hs, Hi. cbn [dict_get app].
        destruct (String.eqb_spec k' k); [congruence|]. repeat split.
        exact Hb.
Qed.

Lemma dict_del_items {V : Type} (k : string) (items : list (string * V)) :
  (dict_get k items = None /\ dict_del k items = items)
  \/ (exists before old after,
        items = before ++ (k, old) :: after
        /\ dict_get k before = None
        /\ dict_del k items = before ++ after).
Proof.
  induction items as [|[k' v'] rest IH]; cbn [dict_get dict_del].
  - left. split; reflexivity.
  - destruct (String.eqb_spec k' k) as [->|Hne].
    + right. exists [], v', rest. repeat split.
    + destruct IH as [[Hn Hs]|(before & old & after & Hi & Hb & Hs)].
      * left. split; [exact Hn|]. rewrite Hs. reflexivity.
      * right. exists ((k', v') :: before), old, after.
        rewrite Hs, Hi. cbn [dict_get app].
        destruct (String.eqb_spec k' k); [congruence|]. repeat split.
        exact Hb.
Qed.

End Registry.

Lemma connection_registry_laws_witness :
  ConnectionManager.is_connected
    (ConnectionManager.disconnect
       (ConnectionManager.mk [("s1", 1%nat); ("s2", 2%nat)]) "s1")
    "s1"
  = false.
Proof.
  apply (connection_registry_laws (fun _ => true)
           (ConnectionManager.mk [("s1", 1%nat); ("s2", 2%nat)]) 3%nat "s1" ∅).
  refine (@bool_decide_unpack (NoDup _) _ _). vm_compute. exact I.
Defined.

(** ** ProctoringService: cooldown entries of different sessions *)

(** The five alert types that reach the cooldown check never collide: two
    checks share an entry of the cooldown table only when they are for the
    same session and the same type, whatever the session identifiers are,
    underscores included. *)
Theorem cooldown_entries_are_not_shared (s1 s2 t1 t2 : string) :
  let alert_types :=
    ["black_screen"; "multiple_persons"; "eyes_looking_away";
     "prohibited_object"; "audio_anomaly"] in
  In t1 alert_types -> In t2 alert_types ->
  ProctoringService.cooldown_key s1 t1 = ProctoringService.cooldown_key s2 t2 ->
  s1 = s2 /\ t1 = t2.
Proof. cbv zeta. apply cooldown_key_pair_inj. Qed.

Lemma cooldown_entries_are_not_shared_witness :
  "a_b" = "a_b" /\ "audio_anomaly" = "audio_anomaly".
Proof.
  apply (cooldown_entries_are_not_shared "a_b" "a_b" "audio_anomaly"
           "audio_anomaly").
  - simpl. tauto.
  - simpl. tauto.
  - reflexivity.
Defined.

(** ** ProctoringService: a detector that fails *)

Section DetectorFailure.
Context {Frame : Type}.
Variable gray_mean : Frame -> option Q.
Variable ssim : Frame -> Frame -> option Q.
Variable json_loads : string -> option pyval.
Variable settings : Settings.t.
Implicit Types self : ProctoringService.t Frame.
Implicit Types obs : ProctoringService.observation Frame.

(** When the face detector raises on an admitted frame, the frame ends
    there: the result has status error and carries the exception, no
    detector result, no violation and no alert; the gaze tracker and the
    object detector are not run, and of the service only the frame analyzer
    has moved. *)
Theorem a_failing_face_detector_ends_the_frame self obs session_id :
  fst (fst (FrameAnalyzer.should_process_frame gray_mean ssim
              (ProctoringService.frame_analyzer self)
              (ProctoringService.image obs)
              (ProctoringService.frame_skip_mod self))) = true ->
  ProctoringService.detections obs = None ->
  ProctoringService.process_frame gray_mean ssim json_loads settings self obs
    session_id
  = (Results.mk (ProctoringService.ts_result obs) session_id [] [] ∅ ∅ ∅ ∅
       "error" true None (Some (External "face_detector")),
     ProctoringService.with_frame_analyzer
       (snd (FrameAnalyzer.should_process_frame gray_mean ssim
               (ProctoringService.frame_analyzer self)
               (ProctoringService.image obs)
               (ProctoringService.frame_skip_mod self)))
       self).
Proof.
  intros Hsp Hd.
  unfold ProctoringService.process_frame, ProctoringService.process_frame_body.
  unfold bind at 1.
  pose proof (should_process_frame_black gray_mean ssim
                (ProctoringService.frame_analyzer self)
                (ProctoringService.image obs)
                (ProctoringService.frame_skip_mod self)) as [_ Hblack].
  cbv zeta in Hblack. specialize (Hblack Hsp). cbn [fst snd].
  destruct (FrameAnalyzer.should_process_frame gray_mean ssim
              (ProctoringService.frame_analyzer self)
              (ProctoringService.image obs)
              (ProctoringService.frame_skip_mod self)) as [[sp reason] fa].
  cbn [fst snd] in Hsp, Hblack |- *. subst sp. cbn [negb].
  unfold bind.
  rewrite (black_screen_block_skip gray_mean) by exact Hblack.
  unfold ProctoringService.face_block, bind, ProctoringService.get_self,
    lift_exc.
  rewrite Hd. reflexivity.
Qed.
End DetectorFailure.

Lemma a_failing_face_detector_ends_the_frame_witness :
  let obs :=
    ProctoringService.mk_observation Demo.bright 1 None (Some None) 1
      (Some [ObjectDetector.mk_box 67 (9 # 10) 0 0 10 10])
      (GeminiViolationVerifier.Raises "unused")
      (GeminiViolationVerifier.Raises "unused")
      (GeminiViolationVerifier.Raises "unused")
      (Demo.at_time 1) (Demo.at_time 1) (Demo.at_time 1) (Demo.at_time 1) in
  Results.object_detection
    (fst (ProctoringService.process_frame Demo.gray_mean Demo.ssim
            Demo.json_loads Settings.defaults
            (ProctoringService.init Settings.defaults) obs "s1"))
  = ∅.
Proof.
  intros obs.
  rewrite (a_failing_face_detector_ends_the_frame Demo.gray_mean Demo.ssim
             Demo.json_loads Settings.defaults
             (ProctoringService.init Settings.defaults) obs "s1");
    [reflexivity | vm_compute; reflexivity | reflexivity].
Defined.
